(** * The stock rating engine of rating.py

    A shallow embedding of [rating.py]: the KPI catalog, the extractor
    [extract_kpis], the sector aggregator [compute_sector_averages], the
    two sub-scores [_score_absolute] and [_score_relative],
    [calculate_rating] and [format_kpi_value]; and of the data layer of
    [data.py]: the sector cache of [get_sector_peers_kpis] and the pipeline
    [analyze_stock], with the provider, the clock and the built-in string
    and formatting operations left open.

    Numbers.  A Python [float] is modelled as a real number: [+], [-], [*]
    and the comparisons are the exact ones of [R], and [round(x, n)] rounds
    the exact value half-to-even on the grid of [n] decimals.  Rounding
    error, infinities and NaN are therefore outside this model.  The faults
    of float operations are kept: a zero divisor raises
    [ZeroDivisionError], [math.exp] raises [OverflowError] on an argument
    whose exponential leaves the range of a float, and so does [float()] on
    an integer beyond that range.

    Values.  The dictionaries handed to the engine hold [None], floats and,
    under the key ["_ticker"] that data.py adds to every peer record, a
    string.  A string that reaches arithmetic raises [TypeError]. *)

From Stdlib Require Import Reals Lra Lia ZArith Sorted Permutation.
From stdpp Require Import base option list sorting gmap strings.

Local Open Scope R_scope.

(** ** Python values and exceptions *)

Inductive pyval : Type :=
  | PyNone
  | PyFloat (x : R)
  | PyStr (s : string).

Inductive exn : Type :=
  | TypeError
  | ZeroDivisionError
  | IndexError
  | OverflowError.

Inductive result (A : Type) : Type :=
  | Ok (a : A)
  | Raise (e : exn).

#[global] Arguments Ok {A} a.
#[global] Arguments Raise {A} e.

#[global] Instance result_ret : MRet result := fun _ a => Ok a.
#[global] Instance result_bind : MBind result := fun _ _ f m =>
  match m with
  | Ok a => f a
  | Raise e => Raise e
  end.

(** [d.get(k)]: a missing key reads as [None]. *)
Definition dict_get (d : gmap string pyval) (k : string) : pyval :=
  default PyNone (d !! k).

(** ** Comparisons on floats *)

#[global] Instance Req_decision (x y : R) : Decision (x = y) := Req_dec_T x y.
#[global] Instance Rle_decision (x y : R) : Decision (x <= y) := Rle_dec x y.
#[global] Instance Rlt_decision (x y : R) : Decision (x < y) := Rlt_dec x y.
#[global] Instance Rge_decision (x y : R) : Decision (x >= y) := Rge_dec x y.
#[global] Instance Rgt_decision (x y : R) : Decision (x > y) := Rgt_dec x y.

#[global] Instance Rle_transitive : Transitive Rle := Rle_trans.
#[global] Instance Rle_antisymm : AntiSymm (=) Rle := Rle_antisym.

(** [x / y] on floats. *)
Definition py_div (x y : R) : result R :=
  if decide (y = 0) then Raise ZeroDivisionError else Ok (x / y).

(** ** [math.exp] *)

(** The largest float whose exponential is still a float
    ([0x1.62e42fefa39efp+9], just below the logarithm of the largest
    float); [math.exp] raises [OverflowError] on every argument above it
    and returns on every other one. *)
Definition EXP_MAX_ARG : R := 709.782712893384.

Definition py_exp (x : R) : result R :=
  if decide (x <= EXP_MAX_ARG) then Ok (exp x) else Raise OverflowError.

(** ** [round(x, ndigits)] *)

(** The integer nearest to [y], ties going to the even one. *)
Definition round_half_even (y : R) : Z :=
  let f := Zfloor y in
  let d := y - IZR f in
  if decide (d < 1 / 2) then f
  else if decide (1 / 2 < d) then (f + 1)%Z
  else if Z.even f then f else (f + 1)%Z.

Definition py_round (x : R) (ndigits : nat) : R :=
  IZR (round_half_even (x * 10 ^ ndigits)) / 10 ^ ndigits.

(** ** KPI configuration (rating.py, [KPIConfig] and [KPI_CONFIGS]) *)

Record KPIConfig : Type := mkKPIConfig {
  key : string;
  display_name : string;
  weight : R;
  lower_is_better : bool;
  abs_best : R;
  abs_worst : R;
  format_as_pct : bool;
  format_decimals : nat
}.

Definition KPI_CONFIGS : list KPIConfig := [
  mkKPIConfig "trailingPE" "P/E Ratio (TTM)" 0.15 true 5.0 60.0 false 2;
  mkKPIConfig "forwardPE" "Forward P/E" 0.12 true 5.0 50.0 false 2;
  mkKPIConfig "priceToBook" "P/B Ratio" 0.10 true 0.5 20.0 false 2;
  mkKPIConfig "enterpriseToEbitda" "EV/EBITDA" 0.12 true 3.0 40.0 false 2;
  mkKPIConfig "debtToEquity" "Debt/Equity" 0.10 true 0.0 300.0 false 2;
  mkKPIConfig "returnOnEquity" "ROE" 0.12 false 0.40 (-0.10) true 2;
  mkKPIConfig "profitMargins" "Profit Margin" 0.10 false 0.40 (-0.10) true 2;
  mkKPIConfig "revenueGrowth" "Revenue Growth" 0.09 false 0.50 (-0.20) true 2;
  mkKPIConfig "currentRatio" "Current Ratio" 0.05 false 3.0 0.3 false 2;
  mkKPIConfig "dividendYield" "Dividend Yield" 0.05 false 0.06 0.0 true 2
].

Definition get_kpi_keys : list string := map key KPI_CONFIGS.

(** ** Absolute and relative sub-scores
       (rating.py, [_score_absolute] and [_score_relative]) *)

Definition _score_absolute (value : R) (cfg : KPIConfig) : result R :=
  if lower_is_better cfg then
    if decide (value <= abs_best cfg) then Ok 1.0
    else if decide (value >= abs_worst cfg) then Ok 0.0
    else
      q ← py_div (value - abs_best cfg) (abs_worst cfg - abs_best cfg);
      Ok (1.0 - q)
  else
    if decide (value >= abs_best cfg) then Ok 1.0
    else if decide (value <= abs_worst cfg) then Ok 0.0
    else py_div (value - abs_worst cfg) (abs_best cfg - abs_worst cfg).

Definition _score_relative (value : R) (sector_avg : option R) (cfg : KPIConfig)
  : result R :=
  match sector_avg with
  | None => Ok 0.5
  | Some avg =>
      if decide (avg = 0) then Ok 0.5
      else
        pct_diff ← py_div (value - avg) (Rabs avg);
        let pct_diff := if lower_is_better cfg then - pct_diff else pct_diff in
        e ← py_exp (- 4.0 * pct_diff);
        score ← py_div 1.0 (1.0 + e);
        Ok (Rmax 0.0 (Rmin 1.0 score))
  end.

(** ** Python list and arithmetic primitives on values *)

(** [l[i]] for an index [0 <= i]. *)
Definition py_index (l : list pyval) (i : nat) : result pyval :=
  match l !! i with
  | Some v => Ok v
  | None => Raise IndexError
  end.

(** [a + b]: float addition, string concatenation, a fault otherwise. *)
Definition py_add (a b : pyval) : result pyval :=
  match a, b with
  | PyFloat x, PyFloat y => Ok (PyFloat (x + y))
  | PyStr s, PyStr t => Ok (PyStr (s +:+ t))
  | _, _ => Raise TypeError
  end.

(** [a / 2]. *)
Definition py_half (a : pyval) : result pyval :=
  match a with
  | PyFloat x => Ok (PyFloat (x / 2))
  | _ => Raise TypeError
  end.

Definition Rleb (x y : R) : bool := bool_decide (x <= y).

(** [list.sort()]: ascending and stable. *)
Fixpoint insert_sorted {A : Type} (leb : A -> A -> bool) (x : A) (l : list A)
  : list A :=
  match l with
  | [] => [x]
  | y :: l' => if leb x y then x :: l else y :: insert_sorted leb x l'
  end.

Definition sort_by {A : Type} (leb : A -> A -> bool) (l : list A) : list A :=
  foldr (insert_sorted leb) [] l.

Definition as_float (v : pyval) : option R :=
  match v with PyFloat x => Some x | _ => None end.

Definition as_str (v : pyval) : option string :=
  match v with PyStr s => Some s | _ => None end.

(** Sorting compares floats with floats and strings with strings; a list
    that mixes the two makes [<] raise. *)
Definition py_sort (values : list pyval) : result (list pyval) :=
  match mapM as_float values with
  | Some xs => Ok (PyFloat <$> sort_by Rleb xs)
  | None =>
      match mapM as_str values with
      | Some ss => Ok (PyStr <$> sort_by String.leb ss)
      | None => Raise TypeError
      end
  end.

(** A [for] loop whose body may raise. *)
Fixpoint for_each {S X : Type} (body : S -> X -> result S) (st : S) (l : list X)
  : result S :=
  match l with
  | [] => Ok st
  | x :: l' => st' ← body st x; for_each body st' l'
  end.

(** ** Sector aggregation (rating.py, [compute_sector_averages]) *)

Definition is_not_none (v : pyval) : bool :=
  match v with PyNone => false | _ => true end.

(** [[kpi[k] for kpi in all_kpis if kpi.get(k) is not None]] *)
Definition present_values (all_kpis : list (gmap string pyval)) (k : string)
  : list pyval :=
  List.filter is_not_none ((fun kpi => dict_get kpi k) <$> all_kpis).

(** The body of the [if values:] branch; [values] is not empty there, so
    [mid - 1] is not negative when the length is even. *)
Definition median (values : list pyval) : result pyval :=
  values ← py_sort values;
  let mid := (length values / 2)%nat in
  if decide (length values mod 2 = 0)%nat then
    a ← py_index values (mid - 1);
    b ← py_index values mid;
    s ← py_add a b;
    py_half s
  else py_index values mid.

Definition sector_step (all_kpis : list (gmap string pyval))
    (averages : gmap string pyval) (cfg : KPIConfig)
  : result (gmap string pyval) :=
  let values := present_values all_kpis (key cfg) in
  match values with
  | [] => Ok (<[key cfg := PyNone]> averages)
  | _ :: _ => m ← median values; Ok (<[key cfg := m]> averages)
  end.

Definition compute_sector_averages (all_kpis : list (gmap string pyval))
  : result (gmap string pyval) :=
  for_each (sector_step all_kpis) ∅ KPI_CONFIGS.

(** ** The rating (rating.py, [calculate_rating]) *)

Record score_entry : Type := mkScoreEntry {
  absolute : option R;
  relative : option R;
  combined : option R
}.

Record rating_state : Type := mkRatingState {
  total_abs_weighted : R;
  total_rel_weighted : R;
  total_weight_used : R;
  scores : gmap string score_entry
}.

Record rating : Type := mkRating {
  overall_rating : R;
  absolute_score : R;
  relative_score : R;
  kpi_scores : gmap string score_entry
}.

(** One turn of the loop over [KPI_CONFIGS]. *)
Definition rating_step (stock_kpis sector_averages : gmap string pyval)
    (absolute_weight relative_weight : R) (st : rating_state) (cfg : KPIConfig)
  : result rating_state :=
  let val := dict_get stock_kpis (key cfg) in
  let avg := dict_get sector_averages (key cfg) in
  match val with
  | PyNone =>
      Ok (mkRatingState (total_abs_weighted st) (total_rel_weighted st)
            (total_weight_used st)
            (<[key cfg := mkScoreEntry None None None]> (scores st)))
  | PyStr _ => Raise TypeError
  | PyFloat val =>
      abs_score ← _score_absolute val cfg;
      rel_score ← match avg with
                  | PyNone => Ok 0.5
                  | PyFloat avg => _score_relative val (Some avg) cfg
                  | PyStr _ => Raise TypeError
                  end;
      let combined := absolute_weight * abs_score + relative_weight * rel_score in
      Ok (mkRatingState
            (total_abs_weighted st + abs_score * weight cfg)
            (total_rel_weighted st + rel_score * weight cfg)
            (total_weight_used st + weight cfg)
            (<[key cfg := mkScoreEntry (Some (py_round abs_score 3))
                                       (Some (py_round rel_score 3))
                                       (Some (py_round combined 3))]> (scores st)))
  end.

Definition rating_init : rating_state := mkRatingState 0.0 0.0 0.0 ∅.

Definition rating_finish (absolute_weight relative_weight : R) (st : rating_state)
  : rating :=
  let '(total_abs_weighted, total_rel_weighted) :=
    if decide (total_weight_used st > 0)
    then (total_abs_weighted st / total_weight_used st,
          total_rel_weighted st / total_weight_used st)
    else (total_abs_weighted st, total_rel_weighted st) in
  let overall_raw :=
    absolute_weight * total_abs_weighted + relative_weight * total_rel_weighted in
  mkRating (py_round (1.0 + overall_raw * 9.0) 1)
           (py_round (1.0 + total_abs_weighted * 9.0) 1)
           (py_round (1.0 + total_rel_weighted * 9.0) 1)
           (scores st).

Definition calculate_rating (stock_kpis sector_averages : gmap string pyval)
    (absolute_weight relative_weight : R) : result rating :=
  st ← for_each (rating_step stock_kpis sector_averages
                   absolute_weight relative_weight) rating_init KPI_CONFIGS;
  Ok (rating_finish absolute_weight relative_weight st).

(** The default values of [absolute_weight] and [relative_weight]. *)
Definition default_absolute_weight : R := 0.40.
Definition default_relative_weight : R := 0.60.

(** ** The peer records of the data layer (data.py, [get_sector_peers_kpis]) *)

(** [kpis["_ticker"] = ticker] *)
Definition add_ticker (kpis : gmap string pyval) (ticker : string)
  : gmap string pyval :=
  <["_ticker" := PyStr ticker]> kpis.

(** ** The KPI extractor (rating.py, [extract_kpis]) *)

(** A value of the provider's [info] dictionary.  [RawOther] stands for a
    list, a dictionary or any other object that [float()] rejects with
    [TypeError] and that has no string methods; all that is kept of it is
    its truth value. *)
Inductive rawval : Type :=
  | RawNone
  | RawFloat (x : R)
  | RawInt (z : Z)
  | RawBool (b : bool)
  | RawStr (s : string)
  | RawOther (truth : bool).

(** The three exceptions of [float()]. *)
Inductive float_exn : Type :=
  | FloatValueError
  | FloatTypeError
  | FloatOverflowError.

(** [float(z)] rounds an integer to the nearest float, ties to even; from
    this magnitude on the nearest float would be beyond the largest one,
    [2^1024 - 2^971], and [float()] raises [OverflowError]. *)
Definition FLOAT_INT_LIMIT : Z := (2 ^ 1024 - 2 ^ 970)%Z.

Section extract.
(** [float(s)] on a string is the parser of the Python runtime; [None]
    stands for its [ValueError]. *)
Variable float_of_str : string -> option R.

(** [float(val)] *)
Definition py_float (val : rawval) : float_exn + R :=
  match val with
  | RawNone => inl FloatTypeError
  | RawFloat x => inr x
  | RawInt z =>
      if decide (Z.abs z < FLOAT_INT_LIMIT)%Z then inr (IZR z)
      else inl FloatOverflowError
  | RawBool b => inr (if b then 1 else 0)
  | RawStr s =>
      match float_of_str s with
      | Some x => inr x
      | None => inl FloatValueError
      end
  | RawOther _ => inl FloatTypeError
  end.

(** The body of the loop, for [val = info.get(cfg.key)]: the [try] catches
    [ValueError] and [TypeError] and lets [OverflowError] through. *)
Definition extract_value (val : option rawval) : result pyval :=
  match val with
  | None | Some RawNone => Ok PyNone
  | Some val =>
      match py_float val with
      | inr x => Ok (PyFloat x)
      | inl FloatValueError | inl FloatTypeError => Ok PyNone
      | inl FloatOverflowError => Raise OverflowError
      end
  end.

Definition extract_step (info : gmap string rawval) (kpis : gmap string pyval)
    (cfg : KPIConfig) : result (gmap string pyval) :=
  v ← extract_value (info !! key cfg);
  Ok (<[key cfg := v]> kpis).

Definition extract_kpis (info : gmap string rawval)
  : result (gmap string pyval) :=
  for_each (extract_step info) ∅ KPI_CONFIGS.
End extract.

(** ** The Python runtime and the provider *)

(** The built-in operations the remaining code calls.  They belong to the
    Python runtime, not to the repository, and are left open. *)
Record pylib : Type := mkPylib {
  parse_float : string -> option R;     (* [float(s)], [None] for ValueError *)
  lower : string -> string;             (* [s.lower()] *)
  upper : string -> string;             (* [s.upper()] *)
  strip : string -> string;             (* [s.strip()] *)
  fixed : R -> nat -> string;           (* [f"{x:.{d}f}"] *)
  signed : R -> nat -> string;          (* [f"{x:+.{d}f}"] *)
  str_float : R -> string               (* [str(x)] *)
}.

(** Exceptions of the data layer; [Engine] wraps the ones above. *)
Inductive data_exn : Type :=
  | ValueError
  | AttributeError
  | ProviderError
  | Engine (e : exn).

Inductive outcome (A : Type) : Type :=
  | Done (a : A)
  | Failed (e : data_exn).

#[global] Arguments Done {A} a.
#[global] Arguments Failed {A} e.

#[global] Instance outcome_ret : MRet outcome := fun _ a => Done a.
#[global] Instance outcome_bind : MBind outcome := fun _ _ f m =>
  match m with
  | Done a => f a
  | Failed e => Failed e
  end.

(** A call into the engine from the data layer. *)
Definition engine {A : Type} (r : result A) : outcome A :=
  match r with
  | Ok a => Done a
  | Raise e => Failed (Engine e)
  end.

(** The truth value of a provider value, as [not], [and] and [or] see it. *)
Definition truthy (v : rawval) : bool :=
  match v with
  | RawNone => false
  | RawFloat x => bool_decide (x <> 0)
  | RawInt z => bool_decide (z <> 0%Z)
  | RawBool b => b
  | RawStr s => negb (String.eqb s "")
  | RawOther truth => truth
  end.

(** [a or b] *)
Definition py_or (a b : rawval) : rawval := if truthy a then a else b.

(** [info.get(k)] *)
Definition raw_get (info : gmap string rawval) (k : string) : rawval :=
  default RawNone (info !! k).

(** ** Display (rating.py, [format_kpi_value]) *)

(** [next((c for c in KPI_CONFIGS if c.key == key), None)] *)
Definition find_config (k : string) : option KPIConfig :=
  List.find (fun c => String.eqb (key c) k) KPI_CONFIGS.

(** A string under a catalog key makes the [f] format code raise
    [ValueError]; under any other key [str()] returns it. *)
Definition format_kpi_value (py : pylib) (k : string) (value : pyval)
  : outcome string :=
  match value with
  | PyNone => Done "N/A"
  | PyFloat value =>
      match find_config k with
      | None => Done (str_float py value)
      | Some cfg =>
          if format_as_pct cfg
          then Done (fixed py (value * 100) (format_decimals cfg) +:+ "%")
          else Done (fixed py value (format_decimals cfg))
      end
  | PyStr s =>
      match find_config k with
      | None => Done s
      | Some _ => Failed ValueError
      end
  end.

(** ** The data layer (data.py) *)

Record cache_entry : Type := mkCacheEntry {
  cached_kpis : list (gmap string pyval);
  cached_timestamp : R
}.

Definition CACHE_TTL_SECONDS : R := 3600.

Definition clear_cache (_sector_cache : gmap string cache_entry)
  : gmap string cache_entry := ∅.

Definition get_stock_sector (info : gmap string rawval) : rawval :=
  raw_get info "sector".

Definition get_stock_industry (info : gmap string rawval) : rawval :=
  raw_get info "industry".

Definition get_stock_name (info : gmap string rawval) : rawval :=
  py_or (py_or (raw_get info "shortName") (raw_get info "longName"))
        (RawStr "Unknown").

Section data_layer.
Variable py : pylib.
(** The ticker universe of sp500.py and the provider: [yf.Ticker(t).info],
    [None] when the call raises. *)
Variable SP500_TICKERS : list string.
Variable yf_info : string -> option (gmap string rawval).

Definition get_stock_info (ticker : string) : outcome (gmap string rawval) :=
  match yf_info (strip py (upper py ticker)) with
  | None => Failed ProviderError
  | Some info =>
      if decide (size info = 0%nat) then Failed ValueError
      else match raw_get info "regularMarketPrice" with
           | RawNone => Failed ValueError
           | _ => Done info
           end
  end.

(** [info and info.get("sector", "").lower().strip() == cache_key]; a
    sector that is not a string makes [.lower()] raise: [None]. *)
Definition sector_matches (info : gmap string rawval) (cache_key : string)
  : option bool :=
  if decide (size info = 0%nat) then Some false
  else match info !! "sector" with
       | None => Some (String.eqb (strip py (lower py "")) cache_key)
       | Some (RawStr s) => Some (String.eqb (strip py (lower py s)) cache_key)
       | Some _ => None
       end.

(** One turn of the loop over [SP500_TICKERS]; [except Exception] leaves
    the list as it is whether the provider, [.lower()] or [extract_kpis]
    raised. *)
Definition fetch_step (cache_key : string) (all_kpis : list (gmap string pyval))
    (ticker : string) : list (gmap string pyval) :=
  match yf_info ticker with
  | None => all_kpis
  | Some info =>
      match sector_matches info cache_key with
      | Some true =>
          match extract_kpis (parse_float py) info with
          | Ok kpis => all_kpis ++ [add_ticker kpis ticker]
          | Raise _ => all_kpis
          end
      | Some false | None => all_kpis
      end
  end.

Definition fetch_sector (cache_key : string) : list (gmap string pyval) :=
  foldl (fetch_step cache_key) [] SP500_TICKERS.

(** [k.get("_ticker", "").upper()] *)
Definition peer_ticker_upper (k : gmap string pyval) : outcome string :=
  match k !! "_ticker" with
  | None => Done (upper py "")
  | Some (PyStr s) => Done (upper py s)
  | Some _ => Failed AttributeError
  end.

(** [[k for k in kpis if k.get("_ticker", "").upper() != excluded]] *)
Fixpoint without_ticker (kpis : list (gmap string pyval)) (excluded : string)
  : outcome (list (gmap string pyval)) :=
  match kpis with
  | [] => Done []
  | k :: kpis' =>
      t ← peer_ticker_upper k;
      rest ← without_ticker kpis' excluded;
      Done (if String.eqb t excluded then rest else k :: rest)
  end.

(** The two [if exclude_ticker:] tails of [get_sector_peers_kpis]. *)
Definition excluding (kpis : list (gmap string pyval))
    (exclude_ticker : string) : outcome (list (gmap string pyval)) :=
  if String.eqb exclude_ticker "" then Done kpis
  else without_ticker kpis (upper py exclude_ticker).

(** [get_sector_peers_kpis], with the global [_sector_cache] passed in and
    out and [time.time()] as the argument [now]; the default of
    [exclude_ticker] is the empty string. *)
Definition get_sector_peers_kpis (_sector_cache : gmap string cache_entry)
    (now : R) (sector : string) (exclude_ticker : string)
  : gmap string cache_entry * outcome (list (gmap string pyval)) :=
  let cache_key := strip py (lower py sector) in
  let fetch :=
    let all_kpis := fetch_sector cache_key in
    (<[cache_key := mkCacheEntry all_kpis now]> _sector_cache,
     excluding all_kpis exclude_ticker) in
  match _sector_cache !! cache_key with
  | Some cached =>
      if decide (now - cached_timestamp cached < CACHE_TTL_SECONDS)
      then (_sector_cache, excluding (cached_kpis cached) exclude_ticker)
      else fetch
  | None => fetch
  end.
End data_layer.

(** ** The analysis pipeline (data.py, [analyze_stock]) *)

(** One row of ["kpi_comparison"]; the fields are the keys of the Python
    dictionary, prefixed. *)
Record comparison_row : Type := mkRow {
  row_key : string;
  row_display_name : string;
  row_weight : string;
  row_stock_value : string;
  row_sector_avg : string;
  row_difference : string;
  row_stock_raw : pyval;
  row_sector_raw : pyval;
  row_diff_raw : option R;
  row_lower_is_better : bool;
  row_kpi_score : option score_entry
}.

(** The dictionary that [analyze_stock] returns. *)
Record analysis : Type := mkAnalysis {
  an_ticker : string;
  an_company_name : rawval;
  an_sector : string;
  an_industry : rawval;
  an_stock_kpis : gmap string pyval;
  an_sector_averages : gmap string pyval;
  an_sector_peer_count : nat;
  an_rating : rating;
  an_kpi_comparison : list comparison_row
}.

(** [stock_val - sector_val] on two values that are not [None]. *)
Definition py_sub (a b : pyval) : outcome R :=
  match a, b with
  | PyFloat x, PyFloat y => Done (x - y)
  | _, _ => Failed (Engine TypeError)
  end.

(** The body of the loop that builds ["kpi_comparison"]. *)
Definition comparison_row_of (py : pylib) (res : rating)
    (stock_kpis sector_averages : gmap string pyval) (cfg : KPIConfig)
  : outcome comparison_row :=
  let stock_val := dict_get stock_kpis (key cfg) in
  let sector_val := dict_get sector_averages (key cfg) in
  d ← (if is_not_none stock_val && is_not_none sector_val then
         diff ← py_sub stock_val sector_val;
         Done (Some diff,
               if format_as_pct cfg
               then signed py (diff * 100) (format_decimals cfg) +:+ "%"
               else signed py diff (format_decimals cfg))
       else Done (None, "N/A"));
  stock_value ← format_kpi_value py (key cfg) stock_val;
  sector_avg ← format_kpi_value py (key cfg) sector_val;
  Done (mkRow (key cfg) (display_name cfg)
          (fixed py (weight cfg * 100) 0 +:+ "%")
          stock_value sector_avg d.2 stock_val sector_val d.1
          (lower_is_better cfg) (kpi_scores res !! key cfg)).

(** A [for] loop that appends one result per element. *)
Fixpoint collect {X Y : Type} (body : X -> outcome Y) (l : list X)
  : outcome (list Y) :=
  match l with
  | [] => Done []
  | x :: l' => y ← body x; ys ← collect body l'; Done (y :: ys)
  end.

(** [analyze_stock], with the cache passed in and out and the clock read
    by [get_sector_peers_kpis] as the argument [now]. *)
Definition analyze_stock (py : pylib) (SP500_TICKERS : list string)
    (yf_info : string -> option (gmap string rawval))
    (_sector_cache : gmap string cache_entry) (now : R) (ticker : string)
  : gmap string cache_entry * outcome analysis :=
  match get_stock_info py yf_info ticker with
  | Failed e => (_sector_cache, Failed e)
  | Done info =>
      let company_name := get_stock_name info in
      let sector := get_stock_sector info in
      let industry := get_stock_industry info in
      if negb (truthy sector) then (_sector_cache, Failed ValueError)
      else
        match extract_kpis (parse_float py) info with
        | Raise e => (_sector_cache, Failed (Engine e))
        | Ok stock_kpis =>
        match sector with
        | RawStr sector =>
            let '(cache, peers) :=
              get_sector_peers_kpis py SP500_TICKERS yf_info _sector_cache
                now sector ticker in
            (cache,
             peers_kpis ← peers;
             sector_averages ← engine (compute_sector_averages peers_kpis);
             rating ← engine (calculate_rating stock_kpis sector_averages
                                default_absolute_weight
                                default_relative_weight);
             kpi_comparison ←
               collect (comparison_row_of py rating stock_kpis sector_averages)
                       KPI_CONFIGS;
             Done (mkAnalysis (upper py ticker) company_name sector
                     (py_or industry (RawStr "N/A")) stock_kpis
                     sector_averages (length peers_kpis) rating
                     kpi_comparison))
        | _ => (_sector_cache, Failed AttributeError)
        end
        end
  end.

(** * Vocabulary of the properties *)

(** The first catalog entry. *)
Definition trailingPE_cfg : KPIConfig :=
  mkKPIConfig "trailingPE" "P/E Ratio (TTM)" 0.15 true 5.0 60.0 false 2.

(** The orientation of the bounds that the comments of [KPIConfig] ask for:
    best is the low end for a lower-is-better KPI and the high end
    otherwise. *)
Definition oriented (cfg : KPIConfig) : Prop :=
  if lower_is_better cfg then abs_best cfg < abs_worst cfg
  else abs_worst cfg < abs_best cfg.

(** A lower-is-better definition whose bounds differ but are the wrong way
    round. *)
Definition inverted_cfg : KPIConfig :=
  mkKPIConfig "inverted" "Inverted" 1 true 1 0 false 2.

(** The annotated type of a dictionary value, [Optional[float]]. *)
Definition float_or_none (v : pyval) : Prop :=
  match v with PyStr _ => False | _ => True end.

(** Every catalog key of [d] holds a float or [None]. *)
Definition catalog_typed (d : gmap string pyval) : Prop :=
  Forall (fun cfg => float_or_none (dict_get d (key cfg))) KPI_CONFIGS.

(** What one turn of the loop needs so as not to meet a string: a stock
    value that is a float or [None], and next to a float a sector average
    that is a float or [None]. *)
Definition kpi_typed (stock_kpis sector_averages : gmap string pyval)
    (cfg : KPIConfig) : Prop :=
  match dict_get stock_kpis (key cfg) with
  | PyNone => True
  | PyFloat _ => float_or_none (dict_get sector_averages (key cfg))
  | PyStr _ => False
  end.

(** [_score_relative(val, avg, cfg) if avg is not None else 0.5] *)
Definition relative_or_neutral (avg : pyval) (val : R) (cfg : KPIConfig)
  : result R :=
  match avg with
  | PyNone => Ok 0.5
  | PyFloat avg => _score_relative val (Some avg) cfg
  | PyStr _ => Raise TypeError
  end.

(** The two shapes of a per-KPI entry: all absent, or the three scores
    rounded to three decimals. *)
Definition absent_entry : score_entry := mkScoreEntry None None None.

Definition present_entry (aw rw a r : R) : score_entry :=
  mkScoreEntry (Some (py_round a 3)) (Some (py_round r 3))
               (Some (py_round (aw * a + rw * r) 3)).

(** The entry that the loop records for one KPI. *)
Definition entry_for (stock_kpis sector_averages : gmap string pyval)
    (aw rw : R) (cfg : KPIConfig) (e : score_entry) : Prop :=
  (dict_get stock_kpis (key cfg) = PyNone /\ e = absent_entry) \/
  (exists v a r,
     dict_get stock_kpis (key cfg) = PyFloat v /\
     _score_absolute v cfg = Ok a /\
     relative_or_neutral (dict_get sector_averages (key cfg)) v cfg = Ok r /\
     e = present_entry aw rw a r).

(** The three running totals are sound: each weighted sum lies between 0
    and the weight used so far. *)
Definition totals_bounded (st : rating_state) : Prop :=
  0 <= total_weight_used st /\
  0 <= total_abs_weighted st <= total_weight_used st /\
  0 <= total_rel_weighted st <= total_weight_used st.

(** Two states of the loop with the same three totals. *)
Definition same_totals (st1 st2 : rating_state) : Prop :=
  total_abs_weighted st1 = total_abs_weighted st2 /\
  total_rel_weighted st1 = total_rel_weighted st2 /\
  total_weight_used st1 = total_weight_used st2.

(** The configurations for which the stock has a value. *)
Definition present_configs (stock_kpis : gmap string pyval)
    (l : list KPIConfig) : list KPIConfig :=
  List.filter (fun cfg => is_not_none (dict_get stock_kpis (key cfg))) l.

(** Two dictionaries read alike under every catalog key. *)
Definition agree_on_catalog (d1 d2 : gmap string pyval) : Prop :=
  Forall (fun cfg => dict_get d1 (key cfg) = dict_get d2 (key cfg)) KPI_CONFIGS.

(** The statistical median of [vs] in the words of the specification: sort
    ascending, then take the middle element of an odd count and the average
    of the two middle elements of an even count. *)
Definition is_median (vs : list R) (m : R) : Prop :=
  exists s : list R,
    s ≡ₚ vs /\ Sorted Rle s /\
    if decide (length s mod 2 = 0)%nat
    then exists a b, s !! (length s / 2 - 1)%nat = Some a /\
                     s !! (length s / 2)%nat = Some b /\
                     m = (a + b) / 2
    else s !! (length s / 2)%nat = Some m.

(** The floats that the peers report under [k]. *)
Definition peer_floats (all_kpis : list (gmap string pyval)) (k : string)
  : list R :=
  omap (fun kpi => as_float (dict_get kpi k)) all_kpis.

(** The aggregate that the loop records for one KPI. *)
Definition aggregate_for (all_kpis : list (gmap string pyval))
    (cfg : KPIConfig) (v : pyval) : Prop :=
  (present_values all_kpis (key cfg) = [] /\ v = PyNone) \/
  (present_values all_kpis (key cfg) <> [] /\
   median (present_values all_kpis (key cfg)) = Ok v).

(** A record as [extract_kpis] builds it, every catalog key present and
    [None] where the provider has no number. *)
Definition no_kpis : gmap string pyval :=
  list_to_map ((fun cfg => (key cfg, PyNone)) <$> KPI_CONFIGS).

(** The stock and the sector averages of the end-to-end scenario. *)
Definition scenario_stock : gmap string pyval :=
  <["trailingPE" := PyFloat 10.0]>
    (<["returnOnEquity" := PyFloat 0.20]> no_kpis).

Definition scenario_sector : gmap string pyval :=
  <["trailingPE" := PyFloat 20.0]>
    (<["returnOnEquity" := PyFloat 0.15]> no_kpis).

(** The unrounded relative score of the scenario. *)
Definition scenario_relative : R := 1 / (1 + exp (- 2)).

(** Two values agree to three decimals. *)
Definition agrees_to_3 (x y : R) : Prop := Rabs (x - y) <= 0.0005.


(** Three peer records as data.py builds them, each with its ["_ticker"]. *)
Definition peer_a : gmap string pyval :=
  add_ticker (<["trailingPE" := PyFloat 10]> no_kpis) "AAA".
Definition peer_b : gmap string pyval :=
  add_ticker (<["trailingPE" := PyFloat 20]> no_kpis) "BBB".
Definition peer_c : gmap string pyval :=
  add_ticker (<["trailingPE" := PyFloat 30]> no_kpis) "CCC".

Definition three_peers : list (gmap string pyval) := [peer_a; peer_b; peer_c].

(** The same three records without their tickers. *)
Definition plain_a : gmap string pyval :=
  <["trailingPE" := PyFloat 10]> no_kpis.

Definition three_plain : list (gmap string pyval) :=
  [plain_a;
   <["trailingPE" := PyFloat 20]> no_kpis;
   <["trailingPE" := PyFloat 30]> no_kpis].

(** The deviation from the sector average as [_score_relative] signs it:
    positive when the value is on the better side of the average. *)
Definition signed_deviation (value avg : R) (cfg : KPIConfig) : R :=
  if lower_is_better cfg then - ((value - avg) / Rabs avg)
  else (value - avg) / Rabs avg.

(** The argument that [_score_relative] hands to [math.exp] is one on
    which it returns: the value is not worse than the sector average by
    more than about 177.4 times the size of the average. *)
Definition in_exp_range (value avg : R) (cfg : KPIConfig) : Prop :=
  - 4 * signed_deviation value avg cfg <= EXP_MAX_ARG.

#[global] Instance in_exp_range_decision (value avg : R) (cfg : KPIConfig)
  : Decision (in_exp_range value avg cfg) := Rle_dec _ _.

(** The same for a KPI of the stock against the sector averages: it bears
    on a KPI that the stock reports and for which the sector has a nonzero
    average. *)
Definition kpi_in_range (stock_kpis sector_averages : gmap string pyval)
    (cfg : KPIConfig) : Prop :=
  match dict_get stock_kpis (key cfg), dict_get sector_averages (key cfg) with
  | PyFloat v, PyFloat avg => avg = 0 \/ in_exp_range v avg cfg
  | _, _ => True
  end.

#[global] Instance kpi_in_range_decision
    (stock_kpis sector_averages : gmap string pyval) (cfg : KPIConfig)
  : Decision (kpi_in_range stock_kpis sector_averages cfg).
Proof.
  unfold kpi_in_range.
  destruct (dict_get stock_kpis (key cfg)),
           (dict_get sector_averages (key cfg)); apply _.
Defined.

(** And for every catalog KPI. *)
Definition within_exp_range (stock_kpis sector_averages : gmap string pyval)
  : Prop :=
  Forall (kpi_in_range stock_kpis sector_averages) KPI_CONFIGS.

(** The call [_score_relative(value, avg, cfg)] reaches [math.exp] with an
    argument beyond its range. *)
Definition overflows (value : R) (avg : option R) (cfg : KPIConfig) : Prop :=
  match avg with
  | Some a => a <> 0 /\ ~ in_exp_range value a cfg
  | None => False
  end.

(** The catalog entry of the revenue growth. *)
Definition revenueGrowth_cfg : KPIConfig :=
  mkKPIConfig "revenueGrowth" "Revenue Growth" 0.09 false 0.50 (-0.20) true 2.

(** A stock whose revenue shrinks by a quarter in a sector whose median
    growth is a tenth of a percent: a deviation of -251. *)
Definition shrinking_stock : gmap string pyval :=
  <["revenueGrowth" := PyFloat (-0.25)]> no_kpis.

Definition flat_sector : gmap string pyval :=
  <["revenueGrowth" := PyFloat 0.001]> no_kpis.

(** The first value is on the better side of the second for this KPI. *)
Definition better_than (value avg : R) (cfg : KPIConfig) : Prop :=
  if lower_is_better cfg then value < avg else avg < value.

(** The same configuration with the direction of the KPI reversed. *)
Definition flip_direction (cfg : KPIConfig) : KPIConfig :=
  mkKPIConfig (key cfg) (display_name cfg) (weight cfg)
    (negb (lower_is_better cfg)) (abs_best cfg) (abs_worst cfg)
    (format_as_pct cfg) (format_decimals cfg).

(** The values at most, and at least, [m]. *)
Definition at_most (m : R) (vs : list R) : list R :=
  filter (fun x => x <= m) vs.

Definition at_least (m : R) (vs : list R) : list R :=
  filter (fun x => m <= x) vs.

(** A record without a value under any catalog key. *)
Definition reports_nothing (kpis : gmap string pyval) : Prop :=
  Forall (fun cfg => dict_get kpis (key cfg) = PyNone) KPI_CONFIGS.

(** The peer records that the data layer builds from provider records and
    their tickers: [extract_kpis(info)] with [kpis["_ticker"] = ticker],
    and no record where [extract_kpis] raises. *)
Definition peer_record (float_of_str : string -> option R)
    (p : gmap string rawval * string) : option (gmap string pyval) :=
  match extract_kpis float_of_str p.1 with
  | Ok kpis => Some (add_ticker kpis p.2)
  | Raise _ => None
  end.

Definition peer_records (float_of_str : string -> option R)
    (peers : list (gmap string rawval * string)) : list (gmap string pyval) :=
  omap (peer_record float_of_str) peers.

(** An integer that [float()] cannot convert. *)
Definition oversized (v : option rawval) : Prop :=
  match v with
  | Some (RawInt z) => (FLOAT_INT_LIMIT <= Z.abs z)%Z
  | _ => False
  end.

#[global] Instance oversized_decision (v : option rawval)
  : Decision (oversized v).
Proof. destruct v as [[| x | z | b | s | t] |]; simpl; apply _. Defined.

(** No catalog field of the provider record holds such an integer. *)
Definition convertible (info : gmap string rawval) : Prop :=
  Forall (fun cfg => ~ oversized (info !! key cfg)) KPI_CONFIGS.

(** The value that [extract_kpis] stores under a catalog key. *)
Definition extracted (float_of_str : string -> option R)
    (info : gmap string rawval) (cfg : KPIConfig) : pyval :=
  match extract_value float_of_str (info !! key cfg) with
  | Ok v => v
  | Raise _ => PyNone
  end.

(** The three figures of a rating lie in [1,10]. *)
Definition rating_in_range (res : rating) : Prop :=
  1 <= overall_rating res <= 10 /\
  1 <= absolute_score res <= 10 /\
  1 <= relative_score res <= 10.

(** A provider record with a number, a numeric string, a string that is
    not a number, an explicit [None] and a field outside the catalog. *)
Definition sample_info : gmap string rawval :=
  <["trailingPE" := RawFloat 10]>
    (<["forwardPE" := RawStr "12.5"]>
       (<["priceToBook" := RawStr "n/a"]>
          (<["debtToEquity" := RawNone]>
             (<["sector" := RawStr "Technology"]> ∅)))).

(** A parser that knows the one numeric string of [sample_info]. *)
Definition sample_parser (s : string) : option R :=
  if String.eqb s "12.5" then Some 12.5 else None.

(** Two runs end alike: both return, with results related by [P], or both
    raise the same exception. *)
Definition alike {A : Type} (P : A -> A -> Prop) (r1 r2 : result A) : Prop :=
  match r1, r2 with
  | Ok a1, Ok a2 => P a1 a2
  | Raise e1, Raise e2 => e1 = e2
  | _, _ => False
  end.

(** The two aggregates of a loop state after the renormalisation. *)
Definition normalised_abs (st : rating_state) : R :=
  if decide (total_weight_used st > 0)
  then total_abs_weighted st / total_weight_used st
  else total_abs_weighted st.

Definition normalised_rel (st : rating_state) : R :=
  if decide (total_weight_used st > 0)
  then total_rel_weighted st / total_weight_used st
  else total_rel_weighted st.

(** Two ratings with the same absolute and relative score. *)
Definition same_scores (r1 r2 : rating) : Prop :=
  absolute_score r1 = absolute_score r2 /\
  relative_score r1 = relative_score r2.

(** Every score that an entry holds lies in [0,1]. *)
Definition entry_in_unit (e : score_entry) : Prop :=
  forall x, absolute e = Some x \/ relative e = Some x \/ combined e = Some x ->
            0 <= x <= 1.

(** The sector aggregate offers no comparison: every catalog key holds
    [None] or an average of exactly zero. *)
Definition no_comparison (sector_averages : gmap string pyval) : Prop :=
  Forall (fun cfg => dict_get sector_averages (key cfg) = PyNone \/
                     dict_get sector_averages (key cfg) = PyFloat 0)
         KPI_CONFIGS.

(** The stock has a value for at least one catalog KPI. *)
Definition some_kpi_present (stock_kpis : gmap string pyval) : Prop :=
  exists cfg, cfg ∈ KPI_CONFIGS /\ dict_get stock_kpis (key cfg) <> PyNone.

(** A value at or beyond the best, and at or beyond the worst, bound. *)
Definition beyond_best (v : R) (cfg : KPIConfig) : Prop :=
  if lower_is_better cfg then v <= abs_best cfg else abs_best cfg <= v.

Definition beyond_worst (v : R) (cfg : KPIConfig) : Prop :=
  if lower_is_better cfg then abs_worst cfg <= v else v <= abs_worst cfg.

(** The sum of the weights of a list of configurations. *)
Definition total_weight (l : list KPIConfig) : R :=
  foldr (fun cfg acc => weight cfg + acc) 0 l.

(** A stock at the best bound of every catalog KPI. *)
Definition best_stock : gmap string pyval :=
  list_to_map ((fun cfg => (key cfg, PyFloat (abs_best cfg))) <$> KPI_CONFIGS).

(** The ticker a peer record carries, the empty string when it has none. *)
Definition ticker_of (k : gmap string pyval) : string :=
  match k !! "_ticker" with
  | Some (PyStr s) => s
  | _ => ""
  end.

(** A peer record as the data layer builds it: floats or [None] under the
    catalog keys and a string under ["_ticker"]. *)
Definition tagged (k : gmap string pyval) : Prop :=
  catalog_typed k /\ exists s, k !! "_ticker" = Some (PyStr s).

(** Every cached peer list consists of such records. *)
Definition cache_wf (cache : gmap string cache_entry) : Prop :=
  forall k e, cache !! k = Some e -> Forall tagged (cached_kpis e).

(** The record that the fetch loop appends for a ticker, if any. *)
Definition peer_of (py : pylib) (yf_info : string -> option (gmap string rawval))
    (cache_key : string) (ticker : string) : option (gmap string pyval) :=
  match yf_info ticker with
  | None => None
  | Some info =>
      match sector_matches py info cache_key with
      | Some true => peer_record (parse_float py) (info, ticker)
      | _ => None
      end
  end.

(** The peer is not the excluded ticker, compared in upper case. *)
Definition other_than (py : pylib) (excluded : string)
    (k : gmap string pyval) : bool :=
  negb (String.eqb (upper py (ticker_of k)) excluded).

(** The entry of the cache is missing or has reached its time to live. *)
Definition stale (cache : gmap string cache_entry) (cache_key : string)
    (now : R) : Prop :=
  match cache !! cache_key with
  | None => True
  | Some cached => ~ (now - cached_timestamp cached < CACHE_TTL_SECONDS)
  end.

(** A runtime and a provider for the concrete runs: strings that are
    already in their normal form, numbers printed as a fixed text, and a
    provider that knows the one ticker AAA. *)
Definition sample_pylib : pylib :=
  mkPylib sample_parser (fun s => s) (fun s => s) (fun s => s)
          (fun _ _ => "0.00") (fun _ _ => "+0.00") (fun _ => "0.0").

(** The record of [sample_info] with a market price. *)
Definition priced_info : gmap string rawval :=
  <["regularMarketPrice" := RawFloat 100]> sample_info.

Definition sample_provider (ticker : string) : option (gmap string rawval) :=
  if String.eqb ticker "AAA" then Some priced_info else None.

(** A record whose P/E ratio is an integer beyond the range of a float,
    and a provider that knows it as BIG. *)
Definition oversize_info : gmap string rawval :=
  <["trailingPE" := RawInt (10 ^ 400)]> priced_info.

Definition oversize_provider (ticker : string)
  : option (gmap string rawval) :=
  if String.eqb ticker "BIG" then Some oversize_info else None.

Definition sample_cache : gmap string cache_entry :=
  {["Technology" := mkCacheEntry three_peers 1000]}.

(** A provider record that [analyze_stock] accepts: not empty, with a
    market price and with a non-empty string as its sector. *)
Definition usable_info (info : gmap string rawval) (sector : string) : Prop :=
  size info <> 0%nat /\
  raw_get info "regularMarketPrice" <> RawNone /\
  raw_get info "sector" = RawStr sector /\ sector <> "".

(** The difference that a comparison row reports. *)
Definition diff_of (stock_val sector_val : pyval) : option R :=
  match stock_val, sector_val with
  | PyFloat x, PyFloat y => Some (x - y)
  | _, _ => None
  end.

(** A comparison row is the row of [cfg] for these maps and this rating. *)
Definition row_for (res : rating) (stock_kpis sector_averages : gmap string pyval)
    (cfg : KPIConfig) (row : comparison_row) : Prop :=
  row_key row = key cfg /\
  row_display_name row = display_name cfg /\
  row_lower_is_better row = lower_is_better cfg /\
  row_stock_raw row = dict_get stock_kpis (key cfg) /\
  row_sector_raw row = dict_get sector_averages (key cfg) /\
  row_diff_raw row = diff_of (dict_get stock_kpis (key cfg))
                             (dict_get sector_averages (key cfg)) /\
  (row_diff_raw row = None -> row_difference row = "N/A") /\
  row_kpi_score row = kpi_scores res !! key cfg.

(** * Properties *)

(** ** Division *)

Lemma py_div_ok (x y : R) : y <> 0 -> py_div x y = Ok (x / y).
Proof. intros Hy. unfold py_div. case_decide; [contradiction | reflexivity]. Qed.

Lemma div_unit_interval (a d : R) : 0 < d -> 0 <= a <= d -> 0 <= a / d <= 1.
Proof.
  intros Hd [Ha Had]. unfold Rdiv.
  assert (Hinv : 0 < / d) by (apply Rinv_0_lt_compat; exact Hd).
  assert (Hone : d * / d = 1) by (apply Rinv_r; lra).
  split; nra.
Qed.

Lemma div_le_mono (a b d : R) : 0 < d -> a <= b -> a / d <= b / d.
Proof.
  intros Hd Hab. unfold Rdiv.
  assert (Hinv : 0 < / d) by (apply Rinv_0_lt_compat; exact Hd).
  nra.
Qed.

(** ** The absolute score *)

(** [_score_absolute] never divides by zero: the two guards leave the
    interpolation only strictly between the bounds. *)
Lemma score_absolute_cases (v : R) (cfg : KPIConfig) :
  _score_absolute v cfg =
    Ok (if lower_is_better cfg then
          if decide (v <= abs_best cfg) then 1
          else if decide (v >= abs_worst cfg) then 0
          else 1 - (v - abs_best cfg) / (abs_worst cfg - abs_best cfg)
        else
          if decide (v >= abs_best cfg) then 1
          else if decide (v <= abs_worst cfg) then 0
          else (v - abs_worst cfg) / (abs_best cfg - abs_worst cfg)).
Proof.
  unfold _score_absolute.
  destruct (lower_is_better cfg); repeat case_decide;
    try (f_equal; lra); rewrite py_div_ok by lra;
    unfold mbind, result_bind; f_equal; lra.
Qed.

Lemma score_absolute_range (v : R) (cfg : KPIConfig) :
  exists s, _score_absolute v cfg = Ok s /\ 0 <= s <= 1.
Proof.
  rewrite score_absolute_cases. eexists; split; [reflexivity |].
  destruct (lower_is_better cfg); repeat case_decide; try lra.
  - pose proof (div_unit_interval (v - abs_best cfg)
                  (abs_worst cfg - abs_best cfg)); lra.
  - pose proof (div_unit_interval (v - abs_worst cfg)
                  (abs_best cfg - abs_worst cfg)); lra.
Qed.

(** C5: [_score_absolute] is monotone in the value, non-increasing for a
    lower-is-better definition and non-decreasing for a higher-is-better
    one, and its result always lies in [0,1]. *)
Theorem score_absolute_monotone (cfg : KPIConfig) (x y : R) :
  x <= y ->
  exists sx sy,
    _score_absolute x cfg = Ok sx /\ _score_absolute y cfg = Ok sy /\
    (if lower_is_better cfg then sy <= sx else sx <= sy) /\
    0 <= sx <= 1 /\ 0 <= sy <= 1.
Proof.
  intros Hxy.
  destruct (score_absolute_range x cfg) as (sx & Hx & Hsx).
  destruct (score_absolute_range y cfg) as (sy & Hy & Hsy).
  exists sx, sy. repeat split; try tauto.
  rewrite score_absolute_cases in Hx, Hy.
  injection Hx as <-. injection Hy as <-.
  pose proof (div_unit_interval (x - abs_best cfg) (abs_worst cfg - abs_best cfg)).
  pose proof (div_unit_interval (y - abs_best cfg) (abs_worst cfg - abs_best cfg)).
  pose proof (div_le_mono (x - abs_best cfg) (y - abs_best cfg)
                (abs_worst cfg - abs_best cfg)).
  pose proof (div_unit_interval (x - abs_worst cfg) (abs_best cfg - abs_worst cfg)).
  pose proof (div_unit_interval (y - abs_worst cfg) (abs_best cfg - abs_worst cfg)).
  pose proof (div_le_mono (x - abs_worst cfg) (y - abs_worst cfg)
                (abs_best cfg - abs_worst cfg)).
  destruct (lower_is_better cfg); repeat case_decide; lra.
Qed.

Lemma trailingPE_in_catalog : KPI_CONFIGS !! 0%nat = Some trailingPE_cfg.
Proof. reflexivity. Qed.

Lemma score_absolute_monotone_witness :
  10 <= 20 /\
  exists sx sy,
    _score_absolute 10 trailingPE_cfg = Ok sx /\
    _score_absolute 20 trailingPE_cfg = Ok sy /\
    sy <= sx /\ 0 <= sx <= 1 /\ 0 <= sy <= 1.
Proof.
  split; [lra | exact (score_absolute_monotone trailingPE_cfg 10 20 ltac:(lra))].
Defined.

Lemma catalog_oriented : Forall oriented KPI_CONFIGS.
Proof. repeat constructor; unfold oriented; simpl; lra. Qed.

Lemma score_absolute_best (cfg : KPIConfig) :
  _score_absolute (abs_best cfg) cfg = Ok 1.
Proof.
  rewrite score_absolute_cases.
  destruct (lower_is_better cfg); case_decide; try reflexivity; lra.
Qed.

(** C6, as stated, fails: the bounds of [inverted_cfg] differ, yet its
    [abs_worst] scores 1.0, not 0.0. *)
Lemma score_absolute_worst_inverted :
  abs_best inverted_cfg <> abs_worst inverted_cfg /\
  _score_absolute (abs_worst inverted_cfg) inverted_cfg = Ok 1 /\
  _score_absolute (abs_worst inverted_cfg) inverted_cfg <> Ok 0.
Proof.
  assert (H : _score_absolute (abs_worst inverted_cfg) inverted_cfg = Ok 1).
  { rewrite score_absolute_cases. simpl. case_decide; [reflexivity | lra]. }
  split; [simpl; lra |]. split; [exact H |].
  rewrite H. intros Heq. injection Heq. lra.
Qed.

(** C6 (amended): for a definition whose bounds are oriented as the catalog
    has them, and so for each of the ten catalog entries, [abs_best] scores
    exactly 1.0 and [abs_worst] exactly 0.0. *)
Theorem score_absolute_endpoints (cfg : KPIConfig) :
  oriented cfg \/ cfg ∈ KPI_CONFIGS ->
  _score_absolute (abs_best cfg) cfg = Ok 1 /\
  _score_absolute (abs_worst cfg) cfg = Ok 0.
Proof.
  intros Hcfg.
  assert (Ho : oriented cfg).
  { destruct Hcfg as [Ho | Hin]; [exact Ho |].
    pose proof catalog_oriented as Hall. rewrite List.Forall_forall in Hall.
    apply Hall. apply list_elem_of_In. exact Hin. }
  split; [apply score_absolute_best |].
  rewrite score_absolute_cases. unfold oriented in Ho.
  destruct (lower_is_better cfg); repeat case_decide; try reflexivity; lra.
Qed.

Lemma score_absolute_endpoints_witness :
  trailingPE_cfg ∈ KPI_CONFIGS /\
  _score_absolute 5.0 trailingPE_cfg = Ok 1 /\
  _score_absolute 60.0 trailingPE_cfg = Ok 0.
Proof.
  assert (Hin : trailingPE_cfg ∈ KPI_CONFIGS).
  { apply list_elem_of_lookup. exists 0%nat. reflexivity. }
  split; [exact Hin |].
  exact (score_absolute_endpoints trailingPE_cfg (or_intror Hin)).
Defined.

(** ** The relative score *)

Lemma Rabs_nonzero (avg : R) : avg <> 0 -> Rabs avg <> 0.
Proof. apply Rabs_no_R0. Qed.

Lemma logistic_denominator (t : R) : 1.0 + exp t <> 0.
Proof. pose proof (exp_pos t). lra. Qed.

Lemma py_exp_ok (x : R) : x <= EXP_MAX_ARG -> py_exp x = Ok (exp x).
Proof. intros Hx. unfold py_exp. case_decide; [reflexivity | contradiction]. Qed.

Lemma py_exp_overflow (x : R) :
  ~ x <= EXP_MAX_ARG -> py_exp x = Raise OverflowError.
Proof. intros Hx. unfold py_exp. case_decide; [contradiction | reflexivity]. Qed.

(** The second half of [_score_relative], from [math.exp] on. *)
Lemma score_relative_unfold (v avg : R) (cfg : KPIConfig) :
  avg <> 0 ->
  _score_relative v (Some avg) cfg =
    (e ← py_exp (- 4 * signed_deviation v avg cfg);
     Ok (Rmax 0 (Rmin 1 (1 / (1 + e))))).
Proof.
  intros Havg. unfold _score_relative, signed_deviation.
  case_decide; [contradiction |].
  rewrite py_div_ok by (apply Rabs_nonzero; exact Havg).
  unfold mbind at 1, result_bind at 1.
  replace (-4.0) with (-4) by lra. replace 1.0 with 1 by lra.
  replace 0.0 with 0 by lra.
  unfold py_exp. case_decide; [| reflexivity].
  unfold mbind at 1, result_bind at 1.
  rewrite py_div_ok by (replace 1 with 1.0 by lra; apply logistic_denominator).
  reflexivity.
Qed.

Lemma score_relative_cases (v avg : R) (cfg : KPIConfig) :
  avg <> 0 -> in_exp_range v avg cfg ->
  _score_relative v (Some avg) cfg =
    Ok (Rmax 0 (Rmin 1
          (1 / (1 + exp (- 4 * (if lower_is_better cfg
                                then - ((v - avg) / Rabs avg)
                                else (v - avg) / Rabs avg)))))).
Proof.
  intros Havg Hrange. rewrite score_relative_unfold by exact Havg.
  rewrite py_exp_ok by exact Hrange. reflexivity.
Qed.

(** Beyond the range of [math.exp] the call raises [OverflowError]. *)
Lemma score_relative_overflow (v avg : R) (cfg : KPIConfig) :
  avg <> 0 -> ~ in_exp_range v avg cfg ->
  _score_relative v (Some avg) cfg = Raise OverflowError.
Proof.
  intros Havg Hrange. rewrite score_relative_unfold by exact Havg.
  rewrite py_exp_overflow by exact Hrange. reflexivity.
Qed.

(** A value equal to the average, or an average of zero or [None], never
    reaches the range limit. *)
Lemma in_exp_range_better (v avg : R) (cfg : KPIConfig) :
  0 <= signed_deviation v avg cfg -> in_exp_range v avg cfg.
Proof. unfold in_exp_range, EXP_MAX_ARG. lra. Qed.

Lemma clamp_unit_interval (s : R) : 0 <= Rmax 0 (Rmin 1 s) <= 1.
Proof.
  split; [apply Rmax_l |].
  apply Rmax_lub; [lra | apply Rmin_l].
Qed.

(** [_score_relative] returns a score in [0,1] or raises [OverflowError]. *)
Lemma score_relative_range (v : R) (avg : option R) (cfg : KPIConfig) :
  (exists s, _score_relative v avg cfg = Ok s /\ 0 <= s <= 1) \/
  _score_relative v avg cfg = Raise OverflowError.
Proof.
  destruct avg as [avg |].
  - destruct (decide (avg = 0)) as [-> | Havg].
    + left. exists 0.5. unfold _score_relative. case_decide; [| contradiction].
      split; [reflexivity | lra].
    + destruct (decide (in_exp_range v avg cfg)) as [Hr | Hr].
      * left. rewrite score_relative_cases by assumption.
        eexists; split; [reflexivity | apply clamp_unit_interval].
      * right. apply score_relative_overflow; assumption.
  - left. exists 0.5. split; [reflexivity | lra].
Qed.

Lemma score_relative_unit (v : R) (avg : option R) (cfg : KPIConfig) (s : R) :
  _score_relative v avg cfg = Ok s -> 0 <= s <= 1.
Proof.
  intros Hs. destruct (score_relative_range v avg cfg) as [(s' & Hs' & Hb) | He].
  - rewrite Hs' in Hs. injection Hs as <-. exact Hb.
  - rewrite He in Hs. discriminate.
Qed.

(** C7: the relative score is the neutral 0.5, returned without any
    division, when the sector average is absent or zero; and a value equal
    to a nonzero sector average scores exactly 0.5. *)
Theorem score_relative_neutral (value : R) (cfg : KPIConfig) :
  _score_relative value None cfg = Ok 0.5 /\
  _score_relative value (Some 0) cfg = Ok 0.5 /\
  (forall avg : R, avg <> 0 -> _score_relative avg (Some avg) cfg = Ok 0.5).
Proof.
  split; [reflexivity |]. split.
  - unfold _score_relative. case_decide; [reflexivity | contradiction].
  - intros avg Havg.
    assert (Hpct : (avg - avg) / Rabs avg = 0) by (unfold Rdiv; ring).
    rewrite score_relative_cases;
      [| exact Havg
       | apply in_exp_range_better; unfold signed_deviation; rewrite Hpct;
         destruct (lower_is_better cfg); lra].
    rewrite Hpct.
    assert (Hexp : exp (- 4 * (if lower_is_better cfg then - 0 else 0)) = 1).
    { destruct (lower_is_better cfg).
      - replace (- 4 * - 0) with 0 by ring. apply exp_0.
      - replace (- 4 * 0) with 0 by ring. apply exp_0. }
    rewrite Hexp.
    replace (1 / (1 + 1)) with 0.5 by lra.
    rewrite Rmin_right by lra. rewrite Rmax_right by lra. reflexivity.
Qed.

Lemma score_relative_neutral_witness :
  20 <> 0 /\ _score_relative 20 (Some 20) trailingPE_cfg = Ok 0.5.
Proof.
  split; [lra |].
  apply (proj2 (proj2 (score_relative_neutral 20 trailingPE_cfg))). lra.
Defined.

(** ** Rounding *)

Lemma round_half_even_near (z : Z) (y : R) :
  IZR z - 1 / 2 < y < IZR z + 1 / 2 -> round_half_even y = z.
Proof.
  intros [Hlo Hhi]. unfold round_half_even.
  destruct (Rlt_le_dec y (IZR z)) as [Hlt | Hge].
  - assert (Hf : Zfloor y = (z - 1)%Z).
    { apply Zfloor_eq. rewrite minus_IZR. lra. }
    rewrite Hf, minus_IZR.
    case_decide; [lra |]. case_decide; [lia | lra].
  - assert (Hf : Zfloor y = z) by (apply Zfloor_eq; lra).
    rewrite Hf. case_decide; [reflexivity | lra].
Qed.

Lemma round_half_even_IZR (z : Z) : round_half_even (IZR z) = z.
Proof. apply round_half_even_near. lra. Qed.

Lemma round_half_even_between (a b : Z) (y : R) :
  IZR a <= y <= IZR b -> (a <= round_half_even y <= b)%Z.
Proof.
  intros [Hlo Hhi]. unfold round_half_even.
  pose proof (Zfloor_bound y) as [Hf1 Hf2].
  pose proof (Zfloor_lub a y Hlo) as Haf.
  assert (Hfb : (Zfloor y <= b)%Z) by (apply le_IZR; lra).
  repeat case_decide; try lia.
  - assert (Hlt : (Zfloor y < b)%Z) by (apply lt_IZR; lra). lia.
  - destruct (Z.even (Zfloor y)); [lia |].
    assert (Hlt : (Zfloor y < b)%Z) by (apply lt_IZR; lra). lia.
Qed.

Lemma pow10_pos (n : nat) : 0 < 10 ^ n.
Proof. apply pow_lt. lra. Qed.

(** A value within half a grid step of a grid point rounds to it. *)
Lemma py_round_near (z : Z) (x : R) (n : nat) :
  IZR z - 1 / 2 < x * 10 ^ n < IZR z + 1 / 2 ->
  py_round x n = IZR z / 10 ^ n.
Proof.
  intros H. unfold py_round. rewrite (round_half_even_near z) by exact H.
  reflexivity.
Qed.

(** Rounding stays between two grid points that enclose the value. *)
Lemma py_round_between (a b : Z) (x : R) (n : nat) :
  IZR a <= x * 10 ^ n <= IZR b ->
  IZR a / 10 ^ n <= py_round x n <= IZR b / 10 ^ n.
Proof.
  intros H. unfold py_round.
  destruct (round_half_even_between a b _ H) as [Ha Hb].
  apply IZR_le in Ha. apply IZR_le in Hb.
  pose proof (pow10_pos n).
  split; apply div_le_mono; assumption.
Qed.

Lemma py_round_rating_range (raw : R) :
  0 <= raw <= 1 -> 1 <= py_round (1.0 + raw * 9.0) 1 <= 10.
Proof.
  intros Hraw.
  pose proof (py_round_between 10 100 (1.0 + raw * 9.0) 1) as H.
  simpl in H. lra.
Qed.

(** ** The loop of [calculate_rating] *)

Section rating_loop.
Variables stock_kpis sector_averages : gmap string pyval.
Variables absolute_weight relative_weight : R.

Let step := rating_step stock_kpis sector_averages
              absolute_weight relative_weight.

Lemma rating_step_absent (st : rating_state) (cfg : KPIConfig) :
  dict_get stock_kpis (key cfg) = PyNone ->
  step st cfg =
    Ok (mkRatingState (total_abs_weighted st) (total_rel_weighted st)
          (total_weight_used st) (<[key cfg := absent_entry]> (scores st))).
Proof. intros H. unfold step, rating_step. rewrite H. reflexivity. Qed.

Lemma rating_step_present (st : rating_state) (cfg : KPIConfig) (v a r : R) :
  dict_get stock_kpis (key cfg) = PyFloat v ->
  _score_absolute v cfg = Ok a ->
  relative_or_neutral (dict_get sector_averages (key cfg)) v cfg = Ok r ->
  step st cfg =
    Ok (mkRatingState (total_abs_weighted st + a * weight cfg)
          (total_rel_weighted st + r * weight cfg)
          (total_weight_used st + weight cfg)
          (<[key cfg := present_entry absolute_weight relative_weight a r]>
             (scores st))).
Proof.
  intros Hv Ha Hr. unfold step, rating_step. rewrite Hv, Ha.
  unfold relative_or_neutral in Hr.
  destruct (dict_get sector_averages (key cfg)); try discriminate;
    unfold mbind at 1, result_bind at 1; rewrite Hr; reflexivity.
Qed.

(** What a turn of the loop that does not raise has done. *)
Lemma rating_step_inv (st st' : rating_state) (cfg : KPIConfig) :
  step st cfg = Ok st' ->
  (dict_get stock_kpis (key cfg) = PyNone /\
   st' = mkRatingState (total_abs_weighted st) (total_rel_weighted st)
           (total_weight_used st) (<[key cfg := absent_entry]> (scores st)))
  \/
  (exists v a r,
     dict_get stock_kpis (key cfg) = PyFloat v /\
     _score_absolute v cfg = Ok a /\ 0 <= a <= 1 /\
     relative_or_neutral (dict_get sector_averages (key cfg)) v cfg = Ok r /\
     0 <= r <= 1 /\
     st' = mkRatingState (total_abs_weighted st + a * weight cfg)
             (total_rel_weighted st + r * weight cfg)
             (total_weight_used st + weight cfg)
             (<[key cfg := present_entry absolute_weight relative_weight a r]>
                (scores st))).
Proof.
  intros Hstep.
  destruct (dict_get stock_kpis (key cfg)) as [| v | s] eqn:Hv.
  - left. rewrite rating_step_absent in Hstep by exact Hv.
    injection Hstep as <-. split; reflexivity.
  - right.
    destruct (score_absolute_range v cfg) as (a & Ha & Hra).
    assert (Hrel : exists r,
      relative_or_neutral (dict_get sector_averages (key cfg)) v cfg = Ok r
      /\ 0 <= r <= 1).
    { unfold relative_or_neutral.
      destruct (dict_get sector_averages (key cfg)) as [| avg | s] eqn:Havg.
      - exists 0.5. split; [reflexivity | lra].
      - destruct (score_relative_range v (Some avg) cfg) as [Hok | He];
          [exact Hok |].
        exfalso. unfold step, rating_step in Hstep.
        rewrite Hv, Ha, Havg in Hstep. cbn [mbind result_bind] in Hstep.
        rewrite He in Hstep. discriminate.
      - exfalso. unfold step, rating_step in Hstep.
        rewrite Hv, Ha, Havg in Hstep. discriminate. }
    destruct Hrel as (r & Hr & Hrr).
    rewrite (rating_step_present st cfg v a r Hv Ha Hr) in Hstep.
    injection Hstep as <-.
    exists v, a, r. repeat split; try assumption; lra.
  - unfold step, rating_step in Hstep. rewrite Hv in Hstep. discriminate.
Qed.

(** A turn of the loop raises only on a string and beyond the range of
    [math.exp]. *)
Lemma rating_step_ok (st : rating_state) (cfg : KPIConfig) :
  kpi_typed stock_kpis sector_averages cfg ->
  kpi_in_range stock_kpis sector_averages cfg ->
  exists st', step st cfg = Ok st'.
Proof.
  unfold kpi_typed, kpi_in_range. intros Ht Hrange.
  destruct (dict_get stock_kpis (key cfg)) as [| v | s] eqn:Hv.
  - eexists. apply rating_step_absent. exact Hv.
  - destruct (score_absolute_range v cfg) as (a & Habs & _).
    assert (Hrel : exists r,
      relative_or_neutral (dict_get sector_averages (key cfg)) v cfg = Ok r).
    { unfold relative_or_neutral.
      destruct (dict_get sector_averages (key cfg)) as [| avg | s].
      - eexists; reflexivity.
      - destruct Hrange as [-> | Hrange].
        + exists 0.5. unfold _score_relative.
          case_decide; [reflexivity | contradiction].
        + destruct (decide (avg = 0)) as [-> | Havg].
          * exists 0.5. unfold _score_relative.
            case_decide; [reflexivity | contradiction].
          * eexists. apply score_relative_cases; assumption.
      - destruct Ht. }
    destruct Hrel as (r & Hr).
    eexists. apply (rating_step_present st cfg v a r Hv Habs Hr).
  - destruct Ht.
Qed.

Lemma rating_step_overflow (st : rating_state) (cfg : KPIConfig) :
  kpi_typed stock_kpis sector_averages cfg ->
  ~ kpi_in_range stock_kpis sector_averages cfg ->
  step st cfg = Raise OverflowError.
Proof.
  unfold kpi_typed, kpi_in_range, step, rating_step. intros Ht Hrange.
  destruct (dict_get stock_kpis (key cfg)) as [| v | s];
    [destruct Hrange; exact I | | destruct Ht].
  destruct (score_absolute_range v cfg) as (a & -> & _).
  destruct (dict_get sector_averages (key cfg)) as [| avg | s];
    [destruct Hrange; exact I | | destruct Ht].
  cbn [mbind result_bind].
  rewrite score_relative_overflow; [reflexivity | tauto | tauto].
Qed.
End rating_loop.

Lemma bind_ok_inv {A B : Type} (m : result A) (f : A -> result B) (b : B) :
  m ≫= f = Ok b -> exists a, m = Ok a /\ f a = Ok b.
Proof. destruct m as [a | e]; [| discriminate]. intros H. exists a. auto. Qed.

Lemma bind_ok {A B : Type} (a : A) (f : A -> result B) : Ok a ≫= f = f a.
Proof. reflexivity. Qed.


(** Two loop bodies that agree on the elements of the list run alike. *)
Lemma for_each_ext {S X : Type} (body1 body2 : S -> X -> result S) (st : S)
    (l : list X) :
  Forall (fun x => forall s, body1 s x = body2 s x) l ->
  for_each body1 st l = for_each body2 st l.
Proof.
  intros H. revert st. induction H as [| x l Hx _ IH]; intros st;
    [reflexivity |].
  simpl. rewrite Hx. destruct (body2 st x); [apply IH | reflexivity].
Qed.

Section rating_loop_run.
Variables stock_kpis sector_averages : gmap string pyval.
Variables aw rw : R.

Lemma rating_step_scores (st st' : rating_state) (cfg : KPIConfig) :
  rating_step stock_kpis sector_averages aw rw st cfg = Ok st' ->
  exists e, entry_for stock_kpis sector_averages aw rw cfg e /\
            scores st' = <[key cfg := e]> (scores st).
Proof.
  intros H. apply rating_step_inv in H.
  destruct H as [[Hv ->] | (v & a & r & Hv & Ha & _ & Hr & _ & ->)].
  - exists absent_entry. split; [left; auto | reflexivity].
  - eexists. split; [right; exists v, a, r; eauto | reflexivity].
Qed.

Lemma rating_loop_ok (st : rating_state) (l : list KPIConfig) :
  Forall (kpi_typed stock_kpis sector_averages) l ->
  Forall (kpi_in_range stock_kpis sector_averages) l ->
  exists st',
    for_each (rating_step stock_kpis sector_averages aw rw) st l = Ok st'.
Proof.
  intros Ht. revert st. induction Ht as [| cfg l Hc _ IH]; intros st Hr.
  - exists st. reflexivity.
  - apply List.Forall_cons_iff in Hr as [Hrc Hr].
    destruct (rating_step_ok stock_kpis sector_averages aw rw st cfg Hc Hrc)
      as (st1 & H1).
    destruct (IH st1 Hr) as (st' & H'). exists st'.
    simpl. rewrite H1. exact H'.
Qed.

Lemma rating_loop_overflow (st : rating_state) (l : list KPIConfig) :
  Forall (kpi_typed stock_kpis sector_averages) l ->
  ~ Forall (kpi_in_range stock_kpis sector_averages) l ->
  for_each (rating_step stock_kpis sector_averages aw rw) st l
  = Raise OverflowError.
Proof.
  intros Ht. revert st. induction Ht as [| cfg l Hc _ IH]; intros st Hr.
  - destruct Hr. apply List.Forall_nil.
  - simpl.
    destruct (decide (kpi_in_range stock_kpis sector_averages cfg)) as [Hrc | Hrc].
    + destruct (rating_step_ok stock_kpis sector_averages aw rw st cfg Hc Hrc)
        as (st1 & ->).
      cbn [mbind result_bind]. apply IH. intros Hl. apply Hr.
      apply List.Forall_cons; assumption.
    + rewrite (rating_step_overflow stock_kpis sector_averages aw rw st cfg
                 Hc Hrc). reflexivity.
Qed.

Lemma rating_loop_bounded (st st' : rating_state) (l : list KPIConfig) :
  Forall (fun cfg => 0 <= weight cfg) l ->
  totals_bounded st ->
  for_each (rating_step stock_kpis sector_averages aw rw) st l = Ok st' ->
  totals_bounded st'.
Proof.
  intros Hw. revert st. induction Hw as [| cfg l Hc _ IH]; intros st Hb Hrun.
  - injection Hrun as <-. exact Hb.
  - simpl in Hrun. apply bind_ok_inv in Hrun as (st1 & H1 & Hrest).
    apply (IH st1); [| exact Hrest].
    apply rating_step_inv in H1.
    destruct H1 as [[_ ->] | (v & a & r & _ & _ & Ha & _ & Hr & ->)].
    + exact Hb.
    + destruct Hb as (Hb1 & Hb2 & Hb3). unfold totals_bounded. simpl.
      repeat split; nra.
Qed.

Lemma rating_loop_scores_other (st st' : rating_state) (l : list KPIConfig)
    (k : string) :
  for_each (rating_step stock_kpis sector_averages aw rw) st l = Ok st' ->
  k ∉ key <$> l ->
  scores st' !! k = scores st !! k.
Proof.
  revert st. induction l as [| cfg l IH]; intros st Hrun Hk.
  - injection Hrun as <-. reflexivity.
  - simpl in Hrun. apply bind_ok_inv in Hrun as (st1 & H1 & Hrest).
    rewrite fmap_cons in Hk. apply not_elem_of_cons in Hk as [Hne Hk].
    rewrite (IH st1 Hrest Hk).
    apply rating_step_scores in H1 as (e & _ & ->).
    apply lookup_insert_ne. congruence.
Qed.

Lemma rating_loop_scores_entry (st st' : rating_state) (l : list KPIConfig)
    (cfg : KPIConfig) :
  for_each (rating_step stock_kpis sector_averages aw rw) st l = Ok st' ->
  NoDup (key <$> l) ->
  cfg ∈ l ->
  exists e, entry_for stock_kpis sector_averages aw rw cfg e /\
            scores st' !! key cfg = Some e.
Proof.
  revert st. induction l as [| c l IH]; intros st Hrun Hnd Hin.
  - inversion Hin.
  - simpl in Hrun. apply bind_ok_inv in Hrun as (st1 & H1 & Hrest).
    rewrite fmap_cons in Hnd. apply NoDup_cons in Hnd as [Hc Hnd].
    apply elem_of_cons in Hin as [-> | Hin].
    + apply rating_step_scores in H1 as (e & He & Hsc).
      exists e. split; [exact He |].
      rewrite (rating_loop_scores_other st1 st' l (key c) Hrest Hc), Hsc.
      apply lookup_insert_eq.
    + apply (IH st1 Hrest Hnd Hin).
Qed.

Lemma rating_loop_dom (st st' : rating_state) (l : list KPIConfig) :
  for_each (rating_step stock_kpis sector_averages aw rw) st l = Ok st' ->
  dom (scores st') = dom (scores st) ∪ list_to_set (key <$> l).
Proof.
  revert st. induction l as [| c l IH]; intros st Hrun.
  - injection Hrun as <-. simpl. rewrite (right_id_L ∅ (∪)). reflexivity.
  - simpl in Hrun. apply bind_ok_inv in Hrun as (st1 & H1 & Hrest).
    rewrite (IH st1 Hrest).
    apply rating_step_scores in H1 as (e & _ & ->).
    rewrite dom_insert_L, fmap_cons. simpl.
    rewrite (comm_L (∪) {[key c]} (dom (scores st))).
    rewrite (assoc_L (∪)). reflexivity.
Qed.

(** KPIs without a stock value leave the three totals as they are. *)
Lemma rating_loop_absent (st : rating_state) (l : list KPIConfig) :
  Forall (fun cfg => dict_get stock_kpis (key cfg) = PyNone) l ->
  exists sc,
    for_each (rating_step stock_kpis sector_averages aw rw) st l =
      Ok (mkRatingState (total_abs_weighted st) (total_rel_weighted st)
            (total_weight_used st) sc).
Proof.
  intros H. revert st. induction H as [| cfg l Hc _ IH]; intros st.
  - exists (scores st). destruct st; reflexivity.
  - simpl. rewrite rating_step_absent by exact Hc.
    unfold mbind, result_bind.
    apply (IH (mkRatingState (total_abs_weighted st) (total_rel_weighted st)
                 (total_weight_used st)
                 (<[key cfg := absent_entry]> (scores st)))).
Qed.

(** The totals are those of a loop over the present KPIs alone. *)
Lemma rating_loop_present_only (st1 st2 st1' : rating_state)
    (l : list KPIConfig) :
  same_totals st1 st2 ->
  for_each (rating_step stock_kpis sector_averages aw rw) st1 l = Ok st1' ->
  exists st2',
    for_each (rating_step stock_kpis sector_averages aw rw) st2
      (present_configs stock_kpis l) = Ok st2' /\
    same_totals st1' st2'.
Proof.
  revert st1 st2. induction l as [| cfg l IH]; intros st1 st2 Hsame Hrun.
  - injection Hrun as <-. exists st2. split; [reflexivity | exact Hsame].
  - simpl in Hrun. apply bind_ok_inv in Hrun as (st1a & H1 & Hrest).
    destruct Hsame as (Ha & Hr & Hw).
    apply rating_step_inv in H1.
    destruct H1 as [[Hv ->] | (v & a & r & Hv & Habs & _ & Hrel & _ & ->)].
    + unfold present_configs. simpl. rewrite Hv. simpl.
      eapply IH; [| exact Hrest]. repeat split; assumption.
    + unfold present_configs. simpl. rewrite Hv. simpl.
      rewrite (rating_step_present stock_kpis sector_averages aw rw
                 st2 cfg v a r Hv Habs Hrel), bind_ok.
      eapply IH; [| exact Hrest].
      unfold same_totals. simpl. rewrite Ha, Hr, Hw. repeat split.
Qed.
End rating_loop_run.

Lemma catalog_typed_kpi_typed (stock_kpis sector_averages : gmap string pyval) :
  catalog_typed stock_kpis -> catalog_typed sector_averages ->
  Forall (kpi_typed stock_kpis sector_averages) KPI_CONFIGS.
Proof.
  unfold catalog_typed. rewrite !List.Forall_forall. intros Hs Ha cfg Hin.
  specialize (Hs cfg Hin). specialize (Ha cfg Hin). unfold kpi_typed.
  destruct (dict_get stock_kpis (key cfg)); [exact I | exact Ha | destruct Hs].
Qed.

(** On floats and [None], [calculate_rating] returns when every deviation
    is in the range of [math.exp] and raises [OverflowError] otherwise. *)
Lemma calculate_rating_ok (stock_kpis sector_averages : gmap string pyval)
    (aw rw : R) :
  Forall (kpi_typed stock_kpis sector_averages) KPI_CONFIGS ->
  within_exp_range stock_kpis sector_averages ->
  exists res, calculate_rating stock_kpis sector_averages aw rw = Ok res.
Proof.
  intros Ht Hr.
  destruct (rating_loop_ok stock_kpis sector_averages aw rw rating_init
              KPI_CONFIGS Ht Hr) as (st & Hrun).
  eexists. unfold calculate_rating. rewrite Hrun. reflexivity.
Qed.

Lemma calculate_rating_overflow (stock_kpis sector_averages : gmap string pyval)
    (aw rw : R) :
  Forall (kpi_typed stock_kpis sector_averages) KPI_CONFIGS ->
  ~ within_exp_range stock_kpis sector_averages ->
  calculate_rating stock_kpis sector_averages aw rw = Raise OverflowError.
Proof.
  intros Ht Hr. unfold calculate_rating.
  rewrite (rating_loop_overflow stock_kpis sector_averages aw rw rating_init
             KPI_CONFIGS Ht Hr). reflexivity.
Qed.

Lemma calculate_rating_outcome (stock_kpis sector_averages : gmap string pyval)
    (aw rw : R) :
  catalog_typed stock_kpis -> catalog_typed sector_averages ->
  (within_exp_range stock_kpis sector_averages ->
   exists res, calculate_rating stock_kpis sector_averages aw rw = Ok res) /\
  (~ within_exp_range stock_kpis sector_averages ->
   calculate_rating stock_kpis sector_averages aw rw = Raise OverflowError).
Proof.
  intros Hs Ha.
  pose proof (catalog_typed_kpi_typed _ _ Hs Ha) as Ht.
  split; intros Hr.
  - apply calculate_rating_ok; assumption.
  - apply calculate_rating_overflow; assumption.
Qed.

(** ** The catalog *)

Lemma catalog_keys_NoDup : NoDup (key <$> KPI_CONFIGS).
Proof. apply (bool_decide_unpack _). vm_compute. reflexivity. Qed.

Lemma catalog_weights_pos : Forall (fun cfg => 0 < weight cfg) KPI_CONFIGS.
Proof. repeat constructor; simpl; lra. Qed.

Lemma catalog_weights_nonneg : Forall (fun cfg => 0 <= weight cfg) KPI_CONFIGS.
Proof.
  eapply Forall_impl; [apply catalog_weights_pos |]. simpl. intros cfg H. lra.
Qed.

Lemma rating_init_bounded : totals_bounded rating_init.
Proof. unfold totals_bounded, rating_init. simpl. lra. Qed.

(** ** The final blend *)

Lemma py_round_one : py_round (1.0 + 0 * 9.0) 1 = 1.
Proof.
  rewrite (py_round_near 10); simpl; lra.
Qed.

Lemma rating_finish_scores (aw rw : R) (st : rating_state) :
  kpi_scores (rating_finish aw rw st) = scores st.
Proof. unfold rating_finish. case_decide; reflexivity. Qed.

Lemma rating_finish_range (st : rating_state) :
  totals_bounded st ->
  let res := rating_finish default_absolute_weight default_relative_weight st in
  1 <= overall_rating res <= 10 /\
  1 <= absolute_score res <= 10 /\
  1 <= relative_score res <= 10.
Proof.
  intros (Hw & Ha & Hr). unfold rating_finish.
  unfold default_absolute_weight, default_relative_weight.
  case_decide as Hpos; simpl.
  - pose proof (div_unit_interval (total_abs_weighted st) (total_weight_used st)).
    pose proof (div_unit_interval (total_rel_weighted st) (total_weight_used st)).
    repeat split; apply py_round_rating_range; lra.
  - repeat split; apply py_round_rating_range; lra.
Qed.

(** C8: when every catalog KPI is absent from the stock's map the three
    totals stay 0, nothing is renormalised, and the overall rating is 1.0. *)
Theorem all_absent_rating (stock_kpis sector_averages : gmap string pyval)
    (aw rw : R) :
  Forall (fun cfg => dict_get stock_kpis (key cfg) = PyNone) KPI_CONFIGS ->
  exists st res,
    for_each (rating_step stock_kpis sector_averages aw rw)
      rating_init KPI_CONFIGS = Ok st /\
    total_weight_used st = 0 /\
    total_abs_weighted st = 0 /\
    total_rel_weighted st = 0 /\
    calculate_rating stock_kpis sector_averages aw rw = Ok res /\
    overall_rating res = 1.
Proof.
  intros Habs.
  destruct (rating_loop_absent stock_kpis sector_averages aw rw rating_init
              KPI_CONFIGS Habs) as (sc & Hrun).
  eexists. eexists. split; [exact Hrun |].
  unfold calculate_rating. rewrite Hrun. simpl.
  repeat split; try lra.
  unfold rating_finish. simpl.
  case_decide; [lra |]. simpl.
  replace (aw * 0.0 + rw * 0.0) with 0 by lra. apply py_round_one.
Qed.

(** C9: with the default weights, whatever [calculate_rating] returns has
    its overall rating, absolute score and relative score in [1,10].  When
    the catalog keys of both maps hold floats or [None] it does return as
    long as no value is so far on the worse side of its sector average that
    [math.exp] leaves the range of a float, and raises [OverflowError]
    otherwise. *)
Theorem rating_range (stock_kpis sector_averages : gmap string pyval) :
  (forall res,
     calculate_rating stock_kpis sector_averages
       default_absolute_weight default_relative_weight = Ok res ->
     1 <= overall_rating res <= 10 /\
     1 <= absolute_score res <= 10 /\
     1 <= relative_score res <= 10) /\
  (catalog_typed stock_kpis -> catalog_typed sector_averages ->
   (within_exp_range stock_kpis sector_averages ->
    exists res,
      calculate_rating stock_kpis sector_averages
        default_absolute_weight default_relative_weight = Ok res) /\
   (~ within_exp_range stock_kpis sector_averages ->
    calculate_rating stock_kpis sector_averages
      default_absolute_weight default_relative_weight = Raise OverflowError)).
Proof.
  split.
  - intros res Hres. unfold calculate_rating in Hres.
    apply bind_ok_inv in Hres as (st & Hrun & Hfin).
    injection Hfin as <-.
    apply rating_finish_range.
    eapply rating_loop_bounded;
      [apply catalog_weights_nonneg | apply rating_init_bounded | exact Hrun].
  - intros Hs Ha. apply calculate_rating_outcome; assumption.
Qed.

(** ** Renormalisation over the KPIs that are present *)




(** ** Absent values *)

Lemma py_round_half : py_round 0.5 3 = 0.5.
Proof. rewrite (py_round_near 500); simpl; lra. Qed.

(** C4: the entry recorded for a catalog key has its three fields absent
    exactly when the stock has no value for the key, and no field is absent
    otherwise; a present value with an absent sector average gets the
    relative score 0.5; and a KPI without a value leaves both weighted sums
    and the weight used unchanged, so that the totals of the loop are those
    of the loop over the present KPIs alone.  On floats and [None] the
    function returns, unless a deviation is beyond the range of [math.exp]:
    then it raises [OverflowError]. *)
Theorem absent_value_entry (stock_kpis sector_averages : gmap string pyval)
    (aw rw : R) :
  (forall res cfg,
     calculate_rating stock_kpis sector_averages aw rw = Ok res ->
     cfg ∈ KPI_CONFIGS ->
     exists e,
       kpi_scores res !! key cfg = Some e /\
       ((absolute e = None /\ relative e = None /\ combined e = None) <->
        dict_get stock_kpis (key cfg) = PyNone) /\
       ((absolute e = None \/ relative e = None \/ combined e = None) ->
        dict_get stock_kpis (key cfg) = PyNone) /\
       (dict_get stock_kpis (key cfg) <> PyNone ->
        dict_get sector_averages (key cfg) = PyNone ->
        relative e = Some 0.5)) /\
  (forall st cfg,
     dict_get stock_kpis (key cfg) = PyNone ->
     exists st',
       rating_step stock_kpis sector_averages aw rw st cfg = Ok st' /\
       total_abs_weighted st' = total_abs_weighted st /\
       total_rel_weighted st' = total_rel_weighted st /\
       total_weight_used st' = total_weight_used st) /\
  (forall st,
     for_each (rating_step stock_kpis sector_averages aw rw)
       rating_init KPI_CONFIGS = Ok st ->
     exists st',
       for_each (rating_step stock_kpis sector_averages aw rw)
         rating_init (present_configs stock_kpis KPI_CONFIGS) = Ok st' /\
       same_totals st st') /\
  (catalog_typed stock_kpis -> catalog_typed sector_averages ->
   (within_exp_range stock_kpis sector_averages ->
    exists res, calculate_rating stock_kpis sector_averages aw rw = Ok res) /\
   (~ within_exp_range stock_kpis sector_averages ->
    calculate_rating stock_kpis sector_averages aw rw = Raise OverflowError)).
Proof.
  split; [| split; [| split]].
  - intros res cfg Hres Hin. unfold calculate_rating in Hres.
    apply bind_ok_inv in Hres as (st & Hrun & Hfin).
    injection Hfin as <-.
    destruct (rating_loop_scores_entry stock_kpis sector_averages aw rw
                rating_init st KPI_CONFIGS cfg Hrun catalog_keys_NoDup Hin)
      as (e & He & Hlook).
    exists e. rewrite rating_finish_scores. split; [exact Hlook |].
    destruct He as [[Hv ->] | (v & a & r & Hv & Ha & Hr & ->)].
    + repeat split; try reflexivity; try (intros; exact Hv).
      intros Hne. contradiction.
    + rewrite Hv. simpl. repeat split; try discriminate.
      * intros (H & _). discriminate.
      * intros [H | [H | H]]; discriminate.
      * intros _ Havg. rewrite Havg in Hr. simpl in Hr.
        injection Hr as <-. rewrite py_round_half. reflexivity.
  - intros st cfg Hv. eexists. split; [apply rating_step_absent; exact Hv |].
    simpl. repeat split.
  - intros st Hrun.
    apply (rating_loop_present_only stock_kpis sector_averages aw rw
             rating_init rating_init st KPI_CONFIGS); [| exact Hrun].
    repeat split.
  - intros Hs Ha. apply calculate_rating_outcome; assumption.
Qed.

(** ** Keys outside the catalog *)

Lemma rating_step_agree (s1 s2 a1 a2 : gmap string pyval) (aw rw : R)
    (st : rating_state) (cfg : KPIConfig) :
  dict_get s1 (key cfg) = dict_get s2 (key cfg) ->
  dict_get a1 (key cfg) = dict_get a2 (key cfg) ->
  rating_step s1 a1 aw rw st cfg = rating_step s2 a2 aw rw st cfg.
Proof. intros Hs Ha. unfold rating_step. rewrite Hs, Ha. reflexivity. Qed.

Lemma calculate_rating_agree (s1 s2 a1 a2 : gmap string pyval) (aw rw : R) :
  agree_on_catalog s1 s2 -> agree_on_catalog a1 a2 ->
  calculate_rating s1 a1 aw rw = calculate_rating s2 a2 aw rw.
Proof.
  intros Hs Ha. unfold calculate_rating. f_equal.
  apply for_each_ext.
  unfold agree_on_catalog in Hs, Ha.
  rewrite List.Forall_forall in Hs, Ha. apply List.Forall_forall.
  intros cfg Hin st. apply rating_step_agree; [apply Hs | apply Ha]; exact Hin.
Qed.

Lemma present_values_agree (p1 p2 : list (gmap string pyval)) (k : string) :
  Forall2 (fun d1 d2 => dict_get d1 k = dict_get d2 k) p1 p2 ->
  present_values p1 k = present_values p2 k.
Proof.
  intros H. unfold present_values. f_equal.
  induction H as [| d1 d2 p1 p2 Hd _ IH]; [reflexivity |].
  rewrite !fmap_cons, Hd, IH. reflexivity.
Qed.

Lemma compute_sector_averages_agree (p1 p2 : list (gmap string pyval)) :
  Forall2 agree_on_catalog p1 p2 ->
  compute_sector_averages p1 = compute_sector_averages p2.
Proof.
  intros H. unfold compute_sector_averages. apply for_each_ext.
  apply List.Forall_forall. intros cfg Hin averages.
  unfold sector_step.
  rewrite (present_values_agree p1 p2 (key cfg)); [reflexivity |].
  eapply Forall2_impl; [exact H |].
  intros d1 d2 Hd. unfold agree_on_catalog in Hd.
  rewrite List.Forall_forall in Hd. apply Hd. exact Hin.
Qed.

Lemma calculate_rating_keys (s a : gmap string pyval) (aw rw : R) (res : rating) :
  calculate_rating s a aw rw = Ok res ->
  dom (kpi_scores res) = list_to_set get_kpi_keys.
Proof.
  intros Hres. unfold calculate_rating in Hres.
  apply bind_ok_inv in Hres as (st & Hrun & Hfin). injection Hfin as <-.
  rewrite rating_finish_scores.
  rewrite (rating_loop_dom s a aw rw rating_init st KPI_CONFIGS Hrun).
  simpl scores. rewrite dom_empty_L, (left_id_L ∅ (∪)). reflexivity.
Qed.

(** The ticker that the data layer adds to a peer record is not read. *)
Lemma add_ticker_agree (kpis : gmap string pyval) (ticker : string) :
  agree_on_catalog (add_ticker kpis ticker) kpis.
Proof.
  unfold agree_on_catalog, KPI_CONFIGS.
  repeat (apply List.Forall_cons;
          [unfold dict_get, add_ticker; simpl key;
           rewrite lookup_insert_ne by discriminate; reflexivity |]).
  apply List.Forall_nil.
Qed.

(** C10: keys outside the catalog are inert.  Maps that agree on the
    catalog keys give the same rating, peer collections that agree pairwise
    on the catalog keys give the same aggregates, a record with the
    ["_ticker"] of the data layer agrees with the record without it, and
    the per-KPI scores of a rating are keyed by exactly the catalog keys.
    On floats and [None] a rating is returned, unless a deviation is beyond
    the range of [math.exp]: then [OverflowError] is raised. *)
Theorem catalog_noninterference :
  (forall (s1 s2 a1 a2 : gmap string pyval) (aw rw : R),
     agree_on_catalog s1 s2 -> agree_on_catalog a1 a2 ->
     calculate_rating s1 a1 aw rw = calculate_rating s2 a2 aw rw) /\
  (forall p1 p2 : list (gmap string pyval),
     Forall2 agree_on_catalog p1 p2 ->
     compute_sector_averages p1 = compute_sector_averages p2) /\
  (forall (kpis : gmap string pyval) (ticker : string),
     agree_on_catalog (add_ticker kpis ticker) kpis) /\
  (forall (s a : gmap string pyval) (aw rw : R) (res : rating),
     calculate_rating s a aw rw = Ok res ->
     dom (kpi_scores res) = list_to_set get_kpi_keys) /\
  (forall (s a : gmap string pyval) (aw rw : R),
     catalog_typed s -> catalog_typed a ->
     (within_exp_range s a ->
      exists res, calculate_rating s a aw rw = Ok res) /\
     (~ within_exp_range s a ->
      calculate_rating s a aw rw = Raise OverflowError)).
Proof.
  split; [exact calculate_rating_agree |].
  split; [exact compute_sector_averages_agree |].
  split; [exact add_ticker_agree |].
  split; [exact calculate_rating_keys |].
  intros s a aw rw Hs Ha. apply calculate_rating_outcome; assumption.
Qed.

(** ** Sorting floats *)

Lemma insert_sorted_perm {A : Type} (leb : A -> A -> bool) (x : A) (l : list A) :
  insert_sorted leb x l ≡ₚ x :: l.
Proof.
  induction l as [| y l IH]; simpl; [reflexivity |].
  destruct (leb x y); [reflexivity |].
  rewrite IH. apply perm_swap.
Qed.

Lemma sort_by_perm {A : Type} (leb : A -> A -> bool) (l : list A) :
  sort_by leb l ≡ₚ l.
Proof.
  induction l as [| x l IH]; simpl; [reflexivity |].
  rewrite insert_sorted_perm, IH. reflexivity.
Qed.

Lemma sort_by_length {A : Type} (leb : A -> A -> bool) (l : list A) :
  length (sort_by leb l) = length l.
Proof. apply Permutation_length, sort_by_perm. Qed.

Lemma insert_sorted_Rle (x : R) (l : list R) :
  Sorted Rle l -> Sorted Rle (insert_sorted Rleb x l).
Proof.
  induction 1 as [| y l Hs IH Hhd]; simpl.
  - repeat constructor.
  - unfold Rleb at 1. case_bool_decide as Hxy.
    + constructor; [constructor; assumption | constructor; exact Hxy].
    + constructor; [exact IH |].
      destruct l as [| z l]; simpl.
      * constructor. lra.
      * unfold Rleb. case_bool_decide; constructor; [lra |].
        inversion Hhd; assumption.
Qed.

Lemma sort_by_Rle (l : list R) : Sorted Rle (sort_by Rleb l).
Proof.
  induction l as [| x l IH]; simpl; [constructor |].
  apply insert_sorted_Rle. exact IH.
Qed.

(** ** The median *)

Lemma present_values_floats (all_kpis : list (gmap string pyval)) (k : string) :
  Forall (fun kpi => float_or_none (dict_get kpi k)) all_kpis ->
  present_values all_kpis k = PyFloat <$> peer_floats all_kpis k.
Proof.
  unfold present_values, peer_floats.
  induction 1 as [| kpi l Hk _ IH]; [reflexivity |].
  rewrite fmap_cons. simpl. rewrite IH.
  destruct (dict_get kpi k); simpl; [reflexivity | reflexivity | destruct Hk].
Qed.

Lemma py_sort_floats (xs : list R) :
  py_sort (PyFloat <$> xs) = Ok (PyFloat <$> sort_by Rleb xs).
Proof.
  unfold py_sort.
  rewrite (mapM_fmap_Some as_float PyFloat xs); [reflexivity |].
  intros x. reflexivity.
Qed.

Lemma py_index_floats (xs : list R) (i : nat) (x : R) :
  xs !! i = Some x -> py_index (PyFloat <$> xs) i = Ok (PyFloat x).
Proof.
  intros H. unfold py_index. rewrite list_lookup_fmap, H. reflexivity.
Qed.

Lemma half_lt (n : nat) : (0 < n)%nat -> (n / 2 < n)%nat.
Proof. intros H. apply Nat.div_lt; lia. Qed.

(** On a non-empty list of floats [median] returns the statistical median. *)
Lemma median_floats (xs : list R) :
  xs <> [] ->
  exists m, median (PyFloat <$> xs) = Ok (PyFloat m) /\ is_median xs m.
Proof.
  intros Hne. unfold median. rewrite py_sort_floats, bind_ok.
  set (s := sort_by Rleb xs).
  assert (Hlen : length s = length xs) by apply sort_by_length.
  assert (Hpos : (0 < length s)%nat).
  { rewrite Hlen. destruct xs; [contradiction | simpl; lia]. }
  rewrite length_fmap.
  destruct (lookup_lt_is_Some_2 s (length s / 2)%nat (half_lt _ Hpos))
    as (b & Hb).
  case_decide as Hpar.
  - assert (Hlt : (length s / 2 - 1 < length s)%nat).
    { pose proof (half_lt _ Hpos). lia. }
    destruct (lookup_lt_is_Some_2 s _ Hlt) as (a & Ha).
    exists ((a + b) / 2).
    rewrite (py_index_floats s _ a Ha), bind_ok.
    rewrite (py_index_floats s _ b Hb), bind_ok.
    split; [reflexivity |].
    exists s. split; [apply sort_by_perm |]. split; [apply sort_by_Rle |].
    case_decide; [| contradiction]. exists a, b. auto.
  - exists b. rewrite (py_index_floats s _ b Hb).
    split; [reflexivity |].
    exists s. split; [apply sort_by_perm |]. split; [apply sort_by_Rle |].
    case_decide; [contradiction | exact Hb].
Qed.

Lemma Rleb_true (x y : R) : x <= y -> Rleb x y = true.
Proof. intros H. unfold Rleb. apply bool_decide_eq_true_2. exact H. Qed.

Lemma Rleb_false (x y : R) : y < x -> Rleb x y = false.
Proof. intros H. unfold Rleb. apply bool_decide_eq_false_2. lra. Qed.

(** Runs [sort_by Rleb] on a list of literals. *)
Ltac sort_floats :=
  simpl;
  repeat (first [rewrite Rleb_true by lra | rewrite Rleb_false by lra]; simpl).

Lemma median_10_20_30 :
  median [PyFloat 10; PyFloat 20; PyFloat 30] = Ok (PyFloat 20).
Proof.
  change [PyFloat 10; PyFloat 20; PyFloat 30] with (PyFloat <$> [10; 20; 30]).
  unfold median. rewrite py_sort_floats, bind_ok.
  assert (Hs : sort_by Rleb [10; 20; 30] = [10; 20; 30]).
  { sort_floats. reflexivity. }
  rewrite Hs. reflexivity.
Qed.

Lemma median_10_20_30_40 :
  median [PyFloat 10; PyFloat 20; PyFloat 30; PyFloat 40] = Ok (PyFloat 25).
Proof.
  change [PyFloat 10; PyFloat 20; PyFloat 30; PyFloat 40]
    with (PyFloat <$> [10; 20; 30; 40]).
  unfold median. rewrite py_sort_floats, bind_ok.
  assert (Hs : sort_by Rleb [10; 20; 30; 40] = [10; 20; 30; 40]).
  { sort_floats. reflexivity. }
  rewrite Hs. simpl. do 2 f_equal. lra.
Qed.

(** The order in which the peers report does not matter. *)
Lemma median_30_10_20 :
  median [PyFloat 30; PyFloat 10; PyFloat 20] = Ok (PyFloat 20).
Proof.
  change [PyFloat 30; PyFloat 10; PyFloat 20] with (PyFloat <$> [30; 10; 20]).
  unfold median. rewrite py_sort_floats, bind_ok.
  assert (Hs : sort_by Rleb [30; 10; 20] = [10; 20; 30]).
  { sort_floats. reflexivity. }
  rewrite Hs. reflexivity.
Qed.

(** ** The loop of [compute_sector_averages] *)

Section sector_loop.
Variable all_kpis : list (gmap string pyval).

Lemma sector_step_inv (averages averages' : gmap string pyval)
    (cfg : KPIConfig) :
  sector_step all_kpis averages cfg = Ok averages' ->
  exists v, aggregate_for all_kpis cfg v /\
            averages' = <[key cfg := v]> averages.
Proof.
  unfold sector_step, aggregate_for.
  destruct (present_values all_kpis (key cfg)) as [| x values] eqn:Hvals.
  - intros H. injection H as <-. exists PyNone. split; [left; auto | auto].
  - intros H. apply bind_ok_inv in H as (m & Hm & H). injection H as <-.
    exists m. split; [right; split; [discriminate | exact Hm] | reflexivity].
Qed.

Lemma sector_step_ok (averages : gmap string pyval) (cfg : KPIConfig) :
  Forall (fun kpi => float_or_none (dict_get kpi (key cfg))) all_kpis ->
  exists averages', sector_step all_kpis averages cfg = Ok averages'.
Proof.
  intros Ht. unfold sector_step.
  rewrite (present_values_floats all_kpis (key cfg) Ht).
  destruct (peer_floats all_kpis (key cfg)) as [| x xs] eqn:Hxs.
  - eexists; reflexivity.
  - destruct (median_floats (x :: xs)) as (m & Hm & _); [discriminate |].
    rewrite fmap_cons in Hm |- *. rewrite Hm. eexists; reflexivity.
Qed.

Lemma sector_loop_ok (averages : gmap string pyval) (l : list KPIConfig) :
  Forall (fun cfg =>
    Forall (fun kpi => float_or_none (dict_get kpi (key cfg))) all_kpis) l ->
  exists averages',
    for_each (sector_step all_kpis) averages l = Ok averages'.
Proof.
  intros H. revert averages. induction H as [| cfg l Hc _ IH]; intros averages.
  - exists averages. reflexivity.
  - destruct (sector_step_ok averages cfg Hc) as (av1 & H1).
    destruct (IH av1) as (av' & H'). exists av'.
    simpl. rewrite H1. exact H'.
Qed.

Lemma sector_loop_other (averages averages' : gmap string pyval)
    (l : list KPIConfig) (k : string) :
  for_each (sector_step all_kpis) averages l = Ok averages' ->
  k ∉ key <$> l ->
  averages' !! k = averages !! k.
Proof.
  revert averages. induction l as [| cfg l IH]; intros averages Hrun Hk.
  - injection Hrun as <-. reflexivity.
  - simpl in Hrun. apply bind_ok_inv in Hrun as (av1 & H1 & Hrest).
    rewrite fmap_cons in Hk. apply not_elem_of_cons in Hk as [Hne Hk].
    rewrite (IH av1 Hrest Hk).
    apply sector_step_inv in H1 as (v & _ & ->).
    apply lookup_insert_ne. congruence.
Qed.

Lemma sector_loop_entry (averages averages' : gmap string pyval)
    (l : list KPIConfig) (cfg : KPIConfig) :
  for_each (sector_step all_kpis) averages l = Ok averages' ->
  NoDup (key <$> l) ->
  cfg ∈ l ->
  exists v, aggregate_for all_kpis cfg v /\
            averages' !! key cfg = Some v.
Proof.
  revert averages. induction l as [| c l IH]; intros averages Hrun Hnd Hin.
  - inversion Hin.
  - simpl in Hrun. apply bind_ok_inv in Hrun as (av1 & H1 & Hrest).
    rewrite fmap_cons in Hnd. apply NoDup_cons in Hnd as [Hc Hnd].
    apply elem_of_cons in Hin as [-> | Hin].
    + apply sector_step_inv in H1 as (v & Hv & Hav).
      exists v. split; [exact Hv |].
      rewrite (sector_loop_other av1 averages' l (key c) Hrest Hc), Hav.
      apply lookup_insert_eq.
    + apply (IH av1 Hrest Hnd Hin).
Qed.
End sector_loop.

Lemma peers_typed_at (all_kpis : list (gmap string pyval)) (cfg : KPIConfig) :
  Forall catalog_typed all_kpis ->
  cfg ∈ KPI_CONFIGS ->
  Forall (fun kpi => float_or_none (dict_get kpi (key cfg))) all_kpis.
Proof.
  intros Ht Hin. eapply Forall_impl; [exact Ht |].
  intros kpi Hk. unfold catalog_typed in Hk.
  rewrite List.Forall_forall in Hk. apply Hk.
  apply list_elem_of_In. exact Hin.
Qed.

(** C3: for peers whose catalog keys hold floats or [None], the aggregate of
    every catalog key is the statistical median of the values that the
    peers report for it, and [None] exactly when no peer reports one; the
    values 10, 20, 30 give 20 and 10, 20, 30, 40 give 25. *)
Theorem sector_median (all_kpis : list (gmap string pyval)) :
  Forall catalog_typed all_kpis ->
  (exists averages,
     compute_sector_averages all_kpis = Ok averages /\
     forall cfg, cfg ∈ KPI_CONFIGS ->
       (peer_floats all_kpis (key cfg) = [] <->
        averages !! key cfg = Some PyNone) /\
       (peer_floats all_kpis (key cfg) <> [] ->
        exists m, averages !! key cfg = Some (PyFloat m) /\
                  is_median (peer_floats all_kpis (key cfg)) m)) /\
  median [PyFloat 10; PyFloat 20; PyFloat 30] = Ok (PyFloat 20) /\
  median [PyFloat 10; PyFloat 20; PyFloat 30; PyFloat 40] = Ok (PyFloat 25).
Proof.
  intros Ht. split; [| split; [exact median_10_20_30 | exact median_10_20_30_40]].
  destruct (sector_loop_ok all_kpis ∅ KPI_CONFIGS) as (averages & Hrun).
  { apply Forall_forall. intros cfg Hin. apply peers_typed_at; assumption. }
  exists averages. split; [exact Hrun |].
  intros cfg Hin.
  destruct (sector_loop_entry all_kpis ∅ averages KPI_CONFIGS cfg Hrun
              catalog_keys_NoDup Hin) as (v & Hv & Hlook).
  unfold aggregate_for in Hv.
  rewrite (present_values_floats all_kpis (key cfg)
             (peers_typed_at all_kpis cfg Ht Hin)) in Hv.
  destruct (peer_floats all_kpis (key cfg)) as [| x xs] eqn:Hxs.
  - destruct Hv as [[_ ->] | [Hne _]]; [| contradiction].
    split; [split; auto | intros Hne; contradiction].
  - destruct Hv as [[Hnil _] | [_ Hmed]]; [discriminate |].
    destruct (median_floats (x :: xs)) as (m & Hm & Hspec); [discriminate |].
    rewrite Hm in Hmed. injection Hmed as <-.
    split.
    + split; [discriminate |]. rewrite Hlook. discriminate.
    + intros _. exists m. split; [exact Hlook | exact Hspec].
Qed.

(** ** Bounds on the exponential *)

Lemma exp_double_lower (t L L' : R) :
  0 <= L -> L <= exp t -> L' <= L * L -> L' <= exp (2 * t).
Proof.
  intros HL Ht HL'. replace (2 * t) with (t + t) by lra. rewrite exp_plus.
  apply Rle_trans with (L * L); [exact HL' |].
  apply Rmult_le_compat; assumption.
Qed.

(** [1 + x <= exp x] at [x = -1/1024], squared eleven times, each square
    rounded down to ten decimals. *)
Lemma exp_neg2_lower : 0.1352030798 <= exp (- 2).
Proof.
  assert (H0 : 0.9990234375 <= exp (- (1 / 1024))).
  { pose proof (exp_ineq1_le (- (1 / 1024))). lra. }
  assert (H1 : 0.9980478286 <= exp (- (1 / 512))).
  { replace (- (1 / 512)) with (2 * (- (1 / 1024))) by lra.
    apply (exp_double_lower _ 0.9990234375); [lra | exact H0 | lra]. }
  assert (H2 : 0.9960994681 <= exp (- (1 / 256))).
  { replace (- (1 / 256)) with (2 * (- (1 / 512))) by lra.
    apply (exp_double_lower _ 0.9980478286); [lra | exact H1 | lra]. }
  assert (H3 : 0.9922141503 <= exp (- (1 / 128))).
  { replace (- (1 / 128)) with (2 * (- (1 / 256))) by lra.
    apply (exp_double_lower _ 0.9960994681); [lra | exact H2 | lra]. }
  assert (H4 : 0.98448892 <= exp (- (1 / 64))).
  { replace (- (1 / 64)) with (2 * (- (1 / 128))) by lra.
    apply (exp_double_lower _ 0.9922141503); [lra | exact H3 | lra]. }
  assert (H5 : 0.9692184336 <= exp (- (1 / 32))).
  { replace (- (1 / 32)) with (2 * (- (1 / 64))) by lra.
    apply (exp_double_lower _ 0.98448892); [lra | exact H4 | lra]. }
  assert (H6 : 0.939384372 <= exp (- (1 / 16))).
  { replace (- (1 / 16)) with (2 * (- (1 / 32))) by lra.
    apply (exp_double_lower _ 0.9692184336); [lra | exact H5 | lra]. }
  assert (H7 : 0.8824429983 <= exp (- (1 / 8))).
  { replace (- (1 / 8)) with (2 * (- (1 / 16))) by lra.
    apply (exp_double_lower _ 0.939384372); [lra | exact H6 | lra]. }
  assert (H8 : 0.7787056452 <= exp (- (1 / 4))).
  { replace (- (1 / 4)) with (2 * (- (1 / 8))) by lra.
    apply (exp_double_lower _ 0.8824429983); [lra | exact H7 | lra]. }
  assert (H9 : 0.6063824818 <= exp (- (1 / 2))).
  { replace (- (1 / 2)) with (2 * (- (1 / 4))) by lra.
    apply (exp_double_lower _ 0.7787056452); [lra | exact H8 | lra]. }
  assert (H10 : 0.3676997142 <= exp (- 1)).
  { replace (- 1) with (2 * (- (1 / 2))) by lra.
    apply (exp_double_lower _ 0.6063824818); [lra | exact H9 | lra]. }
  assert (H11 : 0.1352030798 <= exp (- 2)).
  { replace (- 2) with (2 * (- 1)) by lra.
    apply (exp_double_lower _ 0.3676997142); [lra | exact H10 | lra]. }
  exact H11.
Qed.

(** The same from [x = 1/1024]. *)
Lemma exp_2_lower : 7.3818476421 <= exp (2).
Proof.
  assert (H0 : 1.0009765625 <= exp (1 / 1024)).
  { pose proof (exp_ineq1_le (1 / 1024)). lra. }
  assert (H1 : 1.0019540786 <= exp (1 / 512)).
  { replace (1 / 512) with (2 * (1 / 1024)) by lra.
    apply (exp_double_lower _ 1.0009765625); [lra | exact H0 | lra]. }
  assert (H2 : 1.0039119756 <= exp (1 / 256)).
  { replace (1 / 256) with (2 * (1 / 512)) by lra.
    apply (exp_double_lower _ 1.0019540786); [lra | exact H1 | lra]. }
  assert (H3 : 1.0078392547 <= exp (1 / 128)).
  { replace (1 / 128) with (2 * (1 / 256)) by lra.
    apply (exp_double_lower _ 1.0039119756); [lra | exact H2 | lra]. }
  assert (H4 : 1.0157399633 <= exp (1 / 64)).
  { replace (1 / 64) with (2 * (1 / 128)) by lra.
    apply (exp_double_lower _ 1.0078392547); [lra | exact H3 | lra]. }
  assert (H5 : 1.031727673 <= exp (1 / 32)).
  { replace (1 / 32) with (2 * (1 / 64)) by lra.
    apply (exp_double_lower _ 1.0157399633); [lra | exact H4 | lra]. }
  assert (H6 : 1.0644619912 <= exp (1 / 16)).
  { replace (1 / 16) with (2 * (1 / 32)) by lra.
    apply (exp_double_lower _ 1.031727673); [lra | exact H5 | lra]. }
  assert (H7 : 1.1330793307 <= exp (1 / 8)).
  { replace (1 / 8) with (2 * (1 / 16)) by lra.
    apply (exp_double_lower _ 1.0644619912); [lra | exact H6 | lra]. }
  assert (H8 : 1.2838687696 <= exp (1 / 4)).
  { replace (1 / 4) with (2 * (1 / 8)) by lra.
    apply (exp_double_lower _ 1.1330793307); [lra | exact H7 | lra]. }
  assert (H9 : 1.6483190175 <= exp (1 / 2)).
  { replace (1 / 2) with (2 * (1 / 4)) by lra.
    apply (exp_double_lower _ 1.2838687696); [lra | exact H8 | lra]. }
  assert (H10 : 2.7169555834 <= exp (1)).
  { replace (1) with (2 * (1 / 2)) by lra.
    apply (exp_double_lower _ 1.6483190175); [lra | exact H9 | lra]. }
  assert (H11 : 7.3818476421 <= exp (2)).
  { replace (2) with (2 * (1)) by lra.
    apply (exp_double_lower _ 2.7169555834); [lra | exact H10 | lra]. }
  exact H11.
Qed.

Lemma exp_neg2_bounds : 0.1352 < exp (- 2) < 0.1355.
Proof.
  pose proof exp_neg2_lower as Hlo. pose proof exp_2_lower as Hhi.
  pose proof (exp_pos (- 2)) as Hpos.
  assert (Hinv : exp (- 2) * exp 2 = 1).
  { rewrite <- exp_plus. replace (- 2 + 2) with 0 by lra. apply exp_0. }
  assert (Hmul : exp (- 2) * 7.3818476421 <= exp (- 2) * exp 2).
  { apply Rmult_le_compat_l; lra. }
  replace (- 2) with (- 2) in Hlo by lra.
  split; lra.
Qed.

(** ** The end-to-end scenario *)

Lemma scenario_relative_bounds : 0.8806 < scenario_relative < 0.8810.
Proof.
  unfold scenario_relative. pose proof exp_neg2_bounds as [Hlo Hhi].
  assert (Hden : 0 < 1 + exp (- 2)) by lra.
  assert (Hmul : 1 / (1 + exp (- 2)) * (1 + exp (- 2)) = 1) by (field; lra).
  assert (Hpos : 0 < 1 / (1 + exp (- 2))).
  { apply Rdiv_lt_0_compat; lra. }
  assert (H1 : 1 / (1 + exp (- 2)) * (1 + 0.1352)
               < 1 / (1 + exp (- 2)) * (1 + exp (- 2))).
  { apply Rmult_lt_compat_l; lra. }
  assert (H2 : 1 / (1 + exp (- 2)) * (1 + exp (- 2))
               < 1 / (1 + exp (- 2)) * (1 + 0.1355)).
  { apply Rmult_lt_compat_l; lra. }
  split; lra.
Qed.

Lemma scenario_absolute_score :
  _score_absolute 10.0 trailingPE_cfg = Ok (1 - (10 - 5) / (60 - 5)).
Proof.
  rewrite score_absolute_cases. simpl.
  case_decide; [lra |]. case_decide; [lra |]. f_equal. lra.
Qed.

(** Proves a [Forall] over the catalog entry by entry. *)
Ltac over_catalog tac :=
  unfold KPI_CONFIGS;
  repeat (apply List.Forall_cons; [cbv beta; tac |]);
  apply List.Forall_nil.

(** Settles [in_exp_range] for numerals with a positive average. *)
Ltac exp_range :=
  unfold in_exp_range, signed_deviation, EXP_MAX_ARG; simpl;
  rewrite ?Rabs_pos_eq by lra; lra.

Lemma kpi_in_range_absent (stock_kpis sector_averages : gmap string pyval)
    (cfg : KPIConfig) :
  dict_get stock_kpis (key cfg) = PyNone ->
  kpi_in_range stock_kpis sector_averages cfg.
Proof. intros H. unfold kpi_in_range. rewrite H. exact I. Qed.

Lemma kpi_in_range_no_average (stock_kpis sector_averages : gmap string pyval)
    (cfg : KPIConfig) :
  dict_get sector_averages (key cfg) = PyNone ->
  kpi_in_range stock_kpis sector_averages cfg.
Proof.
  intros H. unfold kpi_in_range. rewrite H.
  destruct (dict_get stock_kpis (key cfg)); exact I.
Qed.

Lemma kpi_in_range_at (stock_kpis sector_averages : gmap string pyval)
    (cfg : KPIConfig) (v avg : R) :
  dict_get stock_kpis (key cfg) = PyFloat v ->
  dict_get sector_averages (key cfg) = PyFloat avg ->
  in_exp_range v avg cfg ->
  kpi_in_range stock_kpis sector_averages cfg.
Proof.
  intros Hv Ha Hr. unfold kpi_in_range. rewrite Hv, Ha. right. exact Hr.
Qed.

Lemma scenario_relative_score :
  _score_relative 10.0 (Some 20.0) trailingPE_cfg = Ok scenario_relative.
Proof.
  rewrite score_relative_cases; [| lra | exp_range]. simpl.
  assert (Habs : Rabs 20.0 = 20) by (rewrite Rabs_pos_eq; lra).
  rewrite Habs.
  replace (-4 * - ((10.0 - 20.0) / 20)) with (- 2) by lra.
  fold scenario_relative. pose proof scenario_relative_bounds.
  rewrite Rmin_right by lra. rewrite Rmax_right by lra. reflexivity.
Qed.

Lemma scenario_entry_rounded :
  present_entry 0.40 0.60 (1 - (10 - 5) / (60 - 5)) scenario_relative =
    mkScoreEntry (Some 0.909) (Some 0.881) (Some 0.892).
Proof.
  pose proof scenario_relative_bounds.
  unfold present_entry.
  rewrite (py_round_near 909) by (simpl; lra).
  rewrite (py_round_near 881) by (simpl; lra).
  rewrite (py_round_near 892) by (simpl; lra).
  simpl. repeat f_equal; lra.
Qed.

Lemma scenario_stock_typed (sector_averages : gmap string pyval) :
  dict_get sector_averages "trailingPE" = PyFloat 20.0 ->
  dict_get sector_averages "returnOnEquity" = PyFloat 0.15 ->
  Forall (kpi_typed scenario_stock sector_averages) KPI_CONFIGS.
Proof.
  intros Hpe Hroe. unfold KPI_CONFIGS.
  repeat (apply List.Forall_cons;
          [unfold kpi_typed; simpl key;
           first [rewrite Hpe | rewrite Hroe | idtac]; vm_compute; exact I |]).
  apply List.Forall_nil.
Qed.

Lemma scenario_stock_in_range (sector_averages : gmap string pyval) :
  dict_get sector_averages "trailingPE" = PyFloat 20.0 ->
  dict_get sector_averages "returnOnEquity" = PyFloat 0.15 ->
  within_exp_range scenario_stock sector_averages.
Proof.
  intros Hpe Hroe. unfold within_exp_range.
  over_catalog ltac:(first
    [ apply kpi_in_range_absent; reflexivity
    | apply (kpi_in_range_at _ _ _ 10.0 20.0);
        [reflexivity | exact Hpe | exp_range]
    | apply (kpi_in_range_at _ _ _ 0.20 0.15);
        [reflexivity | exact Hroe | exp_range] ]).
Qed.

(** The entry of the scenario for [trailingPE], for any sector map with the
    two averages of the scenario. *)
Lemma scenario_entry (sector_averages : gmap string pyval) :
  dict_get sector_averages "trailingPE" = PyFloat 20.0 ->
  dict_get sector_averages "returnOnEquity" = PyFloat 0.15 ->
  exists res,
    calculate_rating scenario_stock sector_averages 0.40 0.60 = Ok res /\
    kpi_scores res !! "trailingPE" =
      Some (mkScoreEntry (Some 0.909) (Some 0.881) (Some 0.892)).
Proof.
  intros Hpe Hroe.
  destruct (calculate_rating_ok scenario_stock sector_averages 0.40 0.60
              (scenario_stock_typed sector_averages Hpe Hroe)
              (scenario_stock_in_range sector_averages Hpe Hroe))
    as (res & Hres).
  exists res. split; [exact Hres |].
  unfold calculate_rating in Hres.
  apply bind_ok_inv in Hres as (st & Hrun & Hfin). injection Hfin as <-.
  rewrite rating_finish_scores.
  destruct (rating_loop_scores_entry scenario_stock sector_averages 0.40 0.60
              rating_init st KPI_CONFIGS trailingPE_cfg Hrun catalog_keys_NoDup)
    as (e & He & Hlook).
  { apply list_elem_of_lookup. exists 0%nat. exact trailingPE_in_catalog. }
  change (key trailingPE_cfg) with "trailingPE" in Hlook.
  rewrite Hlook. f_equal.
  assert (Hstock : dict_get scenario_stock (key trailingPE_cfg) = PyFloat 10.0)
    by reflexivity.
  destruct He as [[Hv _] | (v & a & r & Hv & Ha & Hr & ->)].
  - rewrite Hstock in Hv. discriminate.
  - rewrite Hstock in Hv. injection Hv as <-.
    change (key trailingPE_cfg) with "trailingPE" in Hr.
    rewrite Hpe in Hr. unfold relative_or_neutral in Hr.
    rewrite scenario_absolute_score in Ha. injection Ha as <-.
    rewrite scenario_relative_score in Hr. injection Hr as <-.
    apply scenario_entry_rounded.
Qed.

(** C1, as stated, fails: the relative score of the scenario is
    [1/(1+exp(-2))], reported as 0.881 with a combined score of 0.892; it
    does not agree with the claimed 0.982. *)
Lemma scenario_relative_not_0982 :
  _score_relative 10.0 (Some 20.0) trailingPE_cfg = Ok scenario_relative /\
  ~ agrees_to_3 scenario_relative 0.982 /\
  exists res e,
    calculate_rating scenario_stock scenario_sector 0.40 0.60 = Ok res /\
    kpi_scores res !! "trailingPE" = Some e /\
    relative e = Some 0.881 /\ combined e = Some 0.892 /\
    0.881 <> 0.982 /\ 0.892 <> 0.953.
Proof.
  split; [exact scenario_relative_score |]. split.
  - unfold agrees_to_3. pose proof scenario_relative_bounds.
    rewrite Rabs_left by lra. lra.
  - destruct (scenario_entry scenario_sector) as (res & Hres & Hlook);
      [reflexivity | reflexivity |].
    exists res. eexists. split; [exact Hres |]. split; [exact Hlook |].
    simpl. repeat split; lra.
Qed.

(** C1 (amended): in the scenario the absolute score of [trailingPE] is
    [1 - (10-5)/(60-5)], about 0.909; the relative score is
    [1/(1+exp(-4 * 0.5))], about 0.881, the deviation of -50% being negated
    to +0.5; the combined score is about 0.892; and these three rounded
    values are what the engine reports. *)
Theorem scenario_scores (sector_averages : gmap string pyval) :
  dict_get sector_averages "trailingPE" = PyFloat 20.0 ->
  dict_get sector_averages "returnOnEquity" = PyFloat 0.15 ->
  _score_absolute 10.0 trailingPE_cfg = Ok (1 - (10 - 5) / (60 - 5)) /\
  agrees_to_3 (1 - (10 - 5) / (60 - 5)) 0.909 /\
  _score_relative 10.0 (Some 20.0) trailingPE_cfg
    = Ok (1 / (1 + exp (- 4 * 0.5))) /\
  agrees_to_3 (1 / (1 + exp (- 4 * 0.5))) 0.881 /\
  agrees_to_3 (0.40 * (1 - (10 - 5) / (60 - 5))
               + 0.60 * (1 / (1 + exp (- 4 * 0.5)))) 0.892 /\
  exists res,
    calculate_rating scenario_stock sector_averages 0.40 0.60 = Ok res /\
    kpi_scores res !! "trailingPE" =
      Some (mkScoreEntry (Some 0.909) (Some 0.881) (Some 0.892)).
Proof.
  intros Hpe Hroe.
  replace (- 4 * 0.5) with (- 2) by lra. fold scenario_relative.
  pose proof scenario_relative_bounds.
  split; [exact scenario_absolute_score |].
  split; [unfold agrees_to_3; apply Rabs_le; lra |].
  split; [exact scenario_relative_score |].
  split; [unfold agrees_to_3; apply Rabs_le; lra |].
  split; [unfold agrees_to_3; apply Rabs_le; lra |].
  apply scenario_entry; assumption.
Qed.

Lemma scenario_scores_witness :
  dict_get scenario_sector "trailingPE" = PyFloat 20.0 /\
  dict_get scenario_sector "returnOnEquity" = PyFloat 0.15 /\
  exists res,
    calculate_rating scenario_stock scenario_sector 0.40 0.60 = Ok res /\
    kpi_scores res !! "trailingPE" =
      Some (mkScoreEntry (Some 0.909) (Some 0.881) (Some 0.892)).
Proof.
  split; [reflexivity |]. split; [reflexivity |].
  apply (scenario_scores scenario_sector); reflexivity.
Defined.

(** ** Concrete runs *)

Lemma no_kpis_absent :
  Forall (fun cfg => dict_get no_kpis (key cfg) = PyNone) KPI_CONFIGS.
Proof. over_catalog ltac:(reflexivity). Qed.

Lemma scenario_stock_catalog_typed : catalog_typed scenario_stock.
Proof. unfold catalog_typed. over_catalog ltac:(vm_compute; exact I). Qed.

Lemma scenario_sector_catalog_typed : catalog_typed scenario_sector.
Proof. unfold catalog_typed. over_catalog ltac:(vm_compute; exact I). Qed.


(** A sector without comparison keeps [math.exp] out of the loop. *)
Lemma no_comparison_in_range (stock_kpis sector_averages : gmap string pyval) :
  no_comparison sector_averages ->
  within_exp_range stock_kpis sector_averages.
Proof.
  unfold no_comparison, within_exp_range. intros H.
  eapply Forall_impl; [exact H |].
  intros cfg [Hn | Hz].
  - apply kpi_in_range_no_average. exact Hn.
  - unfold kpi_in_range. rewrite Hz.
    destruct (dict_get stock_kpis (key cfg)); try exact I. left. reflexivity.
Qed.

Lemma no_kpis_no_comparison : no_comparison no_kpis.
Proof. unfold no_comparison. over_catalog ltac:(left; reflexivity). Qed.

Lemma no_kpis_catalog_typed : catalog_typed no_kpis.
Proof. unfold catalog_typed. over_catalog ltac:(vm_compute; exact I). Qed.

Lemma scenario_in_range : within_exp_range scenario_stock scenario_sector.
Proof. apply scenario_stock_in_range; reflexivity. Qed.



(** A rating that is not returned: the deviation of -251 takes [math.exp]
    to an argument of 1004. *)
Lemma shrinking_stock_overflow (aw rw : R) :
  calculate_rating shrinking_stock flat_sector aw rw = Raise OverflowError.
Proof.
  apply calculate_rating_overflow.
  - apply catalog_typed_kpi_typed; unfold catalog_typed;
      over_catalog ltac:(vm_compute; exact I).
  - unfold within_exp_range. intros Hall. rewrite List.Forall_forall in Hall.
    assert (Hin : List.In revenueGrowth_cfg KPI_CONFIGS).
    { apply list_elem_of_In, list_elem_of_lookup. exists 7%nat. reflexivity. }
    specialize (Hall _ Hin). unfold kpi_in_range in Hall.
    change (dict_get shrinking_stock (key revenueGrowth_cfg))
      with (PyFloat (-0.25)) in Hall.
    change (dict_get flat_sector (key revenueGrowth_cfg))
      with (PyFloat 0.001) in Hall.
    cbv beta iota in Hall. destruct Hall as [Hz | Hr]; [lra |].
    unfold in_exp_range, signed_deviation, EXP_MAX_ARG in Hr. simpl in Hr.
    rewrite Rabs_pos_eq in Hr by lra. lra.
Qed.

Lemma all_absent_rating_witness :
  Forall (fun cfg => dict_get no_kpis (key cfg) = PyNone) KPI_CONFIGS /\
  exists res,
    calculate_rating no_kpis scenario_sector
      default_absolute_weight default_relative_weight = Ok res /\
    overall_rating res = 1.
Proof.
  split; [exact no_kpis_absent |].
  destruct (all_absent_rating no_kpis scenario_sector
              default_absolute_weight default_relative_weight no_kpis_absent)
    as (st & res & _ & _ & _ & _ & Hres & Hone).
  exists res. split; [exact Hres | exact Hone].
Defined.

Lemma rating_range_witness :
  catalog_typed scenario_stock /\ catalog_typed scenario_sector /\
  within_exp_range scenario_stock scenario_sector /\
  exists res,
    calculate_rating scenario_stock scenario_sector
      default_absolute_weight default_relative_weight = Ok res /\
    1 <= overall_rating res <= 10 /\
    1 <= absolute_score res <= 10 /\
    1 <= relative_score res <= 10.
Proof.
  split; [exact scenario_stock_catalog_typed |].
  split; [exact scenario_sector_catalog_typed |].
  split; [exact scenario_in_range |].
  destruct (rating_range scenario_stock scenario_sector) as [Hrange Hok].
  destruct (proj1 (Hok scenario_stock_catalog_typed
                     scenario_sector_catalog_typed) scenario_in_range)
    as (res & Hres).
  exists res. split; [exact Hres | exact (Hrange res Hres)].
Defined.

Lemma absent_value_entry_witness :
  catalog_typed scenario_stock /\ catalog_typed scenario_sector /\
  within_exp_range scenario_stock scenario_sector /\
  dict_get scenario_stock "forwardPE" = PyNone /\
  exists res e,
    calculate_rating scenario_stock scenario_sector 0.40 0.60 = Ok res /\
    kpi_scores res !! "forwardPE" = Some e /\
    absolute e = None /\ relative e = None /\ combined e = None.
Proof.
  split; [exact scenario_stock_catalog_typed |].
  split; [exact scenario_sector_catalog_typed |].
  split; [exact scenario_in_range |].
  split; [reflexivity |].
  destruct (absent_value_entry scenario_stock scenario_sector 0.40 0.60)
    as (Hentry & _ & _ & Hok).
  destruct (proj1 (Hok scenario_stock_catalog_typed
                     scenario_sector_catalog_typed) scenario_in_range)
    as (res & Hres).
  destruct (Hentry res (mkKPIConfig "forwardPE" "Forward P/E" 0.12 true
                          5.0 50.0 false 2) Hres)
    as (e & Hlook & Hiff & _).
  { apply list_elem_of_lookup. exists 1%nat. reflexivity. }
  exists res, e. split; [exact Hres |]. split; [exact Hlook |].
  apply Hiff. reflexivity.
Defined.

(** ** The median is unique *)

Lemma is_median_unique (vs : list R) (m m' : R) :
  is_median vs m -> is_median vs m' -> m = m'.
Proof.
  intros (s & Hp & Hs & Hm) (s' & Hp' & Hs' & Hm').
  assert (Heq : s = s').
  { apply (Sorted_unique Rle); [assumption | assumption |].
    rewrite Hp, Hp'. reflexivity. }
  subst s'. case_decide.
  - destruct Hm as (a & b & Ha & Hb & ->).
    destruct Hm' as (a' & b' & Ha' & Hb' & ->).
    congruence.
  - congruence.
Qed.

Lemma is_median_10_20_30 : is_median [10; 20; 30] 20.
Proof.
  exists [10; 20; 30]. split; [reflexivity |]. split.
  - repeat constructor; lra.
  - reflexivity.
Qed.

Lemma three_peers_typed : Forall catalog_typed three_peers.
Proof.
  repeat (apply List.Forall_cons;
          [unfold catalog_typed; over_catalog ltac:(vm_compute; exact I) |]).
  apply List.Forall_nil.
Qed.

Lemma sector_median_witness :
  Forall catalog_typed three_peers /\
  exists averages,
    compute_sector_averages three_peers = Ok averages /\
    averages !! "trailingPE" = Some (PyFloat 20) /\
    averages !! "forwardPE" = Some PyNone.
Proof.
  split; [exact three_peers_typed |].
  destruct (sector_median three_peers three_peers_typed)
    as ((averages & Hrun & Hkeys) & _).
  exists averages. split; [exact Hrun |]. split.
  - destruct (Hkeys trailingPE_cfg) as (_ & Hmed).
    { apply list_elem_of_lookup. exists 0%nat. reflexivity. }
    destruct Hmed as (m & Hlook & Hm); [discriminate |].
    change (key trailingPE_cfg) with "trailingPE" in Hlook.
    rewrite Hlook.
    rewrite (is_median_unique [10; 20; 30] m 20 Hm is_median_10_20_30).
    reflexivity.
  - destruct (Hkeys (mkKPIConfig "forwardPE" "Forward P/E" 0.12 true
                       5.0 50.0 false 2)) as (Habs & _).
    { apply list_elem_of_lookup. exists 1%nat. reflexivity. }
    apply Habs. reflexivity.
Defined.

Lemma three_peers_agree : Forall2 agree_on_catalog three_peers three_plain.
Proof.
  unfold three_peers, three_plain.
  repeat (apply List.Forall2_cons;
          [unfold agree_on_catalog; over_catalog ltac:(reflexivity) |]).
  apply List.Forall2_nil.
Qed.

Lemma peer_a_agree : agree_on_catalog peer_a plain_a.
Proof. unfold agree_on_catalog. over_catalog ltac:(reflexivity). Qed.

Lemma scenario_sector_agree : agree_on_catalog scenario_sector scenario_sector.
Proof. unfold agree_on_catalog. over_catalog ltac:(reflexivity). Qed.

Lemma catalog_noninterference_witness :
  Forall2 agree_on_catalog three_peers three_plain /\
  compute_sector_averages three_peers = compute_sector_averages three_plain /\
  agree_on_catalog peer_a plain_a /\
  calculate_rating peer_a scenario_sector 0.40 0.60 =
    calculate_rating plain_a scenario_sector 0.40 0.60.
Proof.
  destruct catalog_noninterference as (Hrate & Hsector & _).
  split; [exact three_peers_agree |].
  split; [exact (Hsector three_peers three_plain three_peers_agree) |].
  split; [exact peer_a_agree |].
  exact (Hrate peer_a plain_a scenario_sector scenario_sector 0.40 0.60
           peer_a_agree scenario_sector_agree).
Defined.

(** * Further properties of the code *)

(** ** The logistic transform of [_score_relative] *)

Lemma logistic_open_unit (t : R) : 0 < 1 / (1 + exp t) < 1.
Proof.
  pose proof (exp_pos t) as He.
  assert (Hmul : 1 / (1 + exp t) * (1 + exp t) = 1) by (field; lra).
  assert (Hpos : 0 < 1 / (1 + exp t)) by (apply Rdiv_lt_0_compat; lra).
  split; [exact Hpos | nra].
Qed.

Lemma logistic_le (t u : R) : t <= u -> 1 / (1 + exp u) <= 1 / (1 + exp t).
Proof.
  intros Htu. pose proof (exp_pos t). pose proof (exp_pos u).
  assert (Hexp : exp t <= exp u).
  { destruct Htu as [Hlt | ->]; [left; apply exp_increasing; exact Hlt | lra]. }
  unfold Rdiv. rewrite !Rmult_1_l.
  apply Rinv_le_contravar; lra.
Qed.

Lemma logistic_half (t : R) : 1 / 2 < 1 / (1 + exp t) <-> t < 0.
Proof.
  pose proof (exp_pos t) as He.
  assert (Hmul : 1 / (1 + exp t) * (1 + exp t) = 1) by (field; lra).
  assert (Hpos : 0 < 1 / (1 + exp t)) by (apply Rdiv_lt_0_compat; lra).
  split.
  - intros Hs. apply exp_lt_inv. rewrite exp_0. nra.
  - intros Ht. apply exp_increasing in Ht. rewrite exp_0 in Ht. nra.
Qed.

Lemma logistic_mirror (t : R) : 1 / (1 + exp t) + 1 / (1 + exp (- t)) = 1.
Proof.
  pose proof (exp_pos t). pose proof (exp_pos (- t)).
  assert (Hinv : exp t * exp (- t) = 1).
  { rewrite <- exp_plus. replace (t + - t) with 0 by lra. apply exp_0. }
  replace (1 / (1 + exp (- t))) with (exp t / (1 + exp t)).
  - field. lra.
  - apply (Rmult_eq_reg_r ((1 + exp t) * (1 + exp (- t)))).
    + field_simplify; [nra | lra | lra].
    + apply Rmult_integral_contrapositive_currified; lra.
Qed.

(** With a nonzero sector average the clamp of [_score_relative] never
    cuts: the score is the logistic value itself. *)
Lemma score_relative_logistic (v avg : R) (cfg : KPIConfig) :
  avg <> 0 -> in_exp_range v avg cfg ->
  _score_relative v (Some avg) cfg =
    Ok (1 / (1 + exp (- 4 * signed_deviation v avg cfg))).
Proof.
  intros Havg Hrange. rewrite score_relative_cases by assumption.
  fold (signed_deviation v avg cfg).
  pose proof (logistic_open_unit (- 4 * signed_deviation v avg cfg)).
  rewrite Rmin_right by lra. rewrite Rmax_right by lra. reflexivity.
Qed.

Lemma Rabs_pos_nonzero (avg : R) : avg <> 0 -> 0 < Rabs avg.
Proof. apply Rabs_pos_lt. Qed.

Lemma signed_deviation_pos (v avg : R) (cfg : KPIConfig) :
  avg <> 0 -> (0 < signed_deviation v avg cfg <-> better_than v avg cfg).
Proof.
  intros Havg. pose proof (Rabs_pos_nonzero avg Havg) as Hpos.
  assert (Hinv : 0 < / Rabs avg) by (apply Rinv_0_lt_compat; exact Hpos).
  unfold signed_deviation, better_than, Rdiv.
  destruct (lower_is_better cfg); split; intros H; nra.
Qed.

Lemma signed_deviation_mono (x y avg : R) (cfg : KPIConfig) :
  avg <> 0 -> x <= y ->
  if lower_is_better cfg
  then signed_deviation y avg cfg <= signed_deviation x avg cfg
  else signed_deviation x avg cfg <= signed_deviation y avg cfg.
Proof.
  intros Havg Hxy. pose proof (Rabs_pos_nonzero avg Havg) as Hpos.
  pose proof (div_le_mono (x - avg) (y - avg) (Rabs avg) Hpos).
  unfold signed_deviation. destruct (lower_is_better cfg); lra.
Qed.

(** X1: the one fault of [_score_relative] is the [OverflowError] of
    [math.exp], raised exactly when the sector average is not zero and the
    value is so far on the worse side of it that the argument of [math.exp]
    is beyond its range; the division by [abs(sector_avg)] never raises.
    In every other case a score [0 < s <= 1] is returned: 0.5 without an
    average or with an average of zero, and otherwise the logistic value of
    the deviation, which the final clamp leaves as it is. *)
Theorem score_relative_outcome (value : R) (avg : option R) (cfg : KPIConfig) :
  (overflows value avg cfg ->
   _score_relative value avg cfg = Raise OverflowError) /\
  (~ overflows value avg cfg ->
   exists s,
     _score_relative value avg cfg = Ok s /\ 0 < s <= 1 /\
     (avg = None \/ avg = Some 0 -> s = 0.5) /\
     (forall a, avg = Some a -> a <> 0 ->
                s = 1 / (1 + exp (- 4 * signed_deviation value a cfg)))).
Proof.
  split.
  - destruct avg as [a |]; [| intros []].
    intros [Ha Hr]. apply score_relative_overflow; assumption.
  - intros Hno. destruct avg as [a |].
    + destruct (decide (a = 0)) as [-> | Ha].
      * exists 0.5. unfold _score_relative. case_decide; [| contradiction].
        split; [reflexivity |]. split; [lra |]. split; [reflexivity |].
        intros a Heq Hne. injection Heq as <-. contradiction.
      * assert (Hr : in_exp_range value a cfg).
        { destruct (decide (in_exp_range value a cfg)) as [Hr | Hr];
            [exact Hr |]. destruct Hno. split; assumption. }
        eexists. split; [apply score_relative_logistic; assumption |].
        pose proof (logistic_open_unit (- 4 * signed_deviation value a cfg)).
        split; [lra |]. split.
        -- intros [Hn | Hz]; [discriminate |]. injection Hz as ->.
           contradiction.
        -- intros a' Heq _. injection Heq as <-. reflexivity.
    + exists 0.5. split; [reflexivity |]. split; [lra |].
      split; [reflexivity | discriminate].
Qed.

Lemma score_relative_outcome_witness :
  overflows (-0.25) (Some 0.001) revenueGrowth_cfg /\
  _score_relative (-0.25) (Some 0.001) revenueGrowth_cfg = Raise OverflowError.
Proof.
  assert (H : overflows (-0.25) (Some 0.001) revenueGrowth_cfg).
  { split; [lra |].
    unfold in_exp_range, signed_deviation, EXP_MAX_ARG. simpl.
    rewrite Rabs_pos_eq by lra. lra. }
  split; [exact H |].
  exact (proj1 (score_relative_outcome (-0.25) (Some 0.001) revenueGrowth_cfg) H).
Defined.

(** X2: against a nonzero sector average, a relative score that is returned
    is above 0.5 exactly when the value is on the better side of the average
    (below it for a lower-is-better KPI, above it otherwise), below 0.5
    exactly when it is on the worse side, and 0.5 exactly when the two are
    equal.  A score is returned whenever the deviation is in the range of
    [math.exp]; beyond it the value is on the worse side and the call
    raises [OverflowError]. *)
Theorem score_relative_direction (value avg : R) (cfg : KPIConfig) :
  avg <> 0 ->
  (in_exp_range value avg cfg ->
   exists s,
     _score_relative value (Some avg) cfg = Ok s /\
     (0.5 < s <-> better_than value avg cfg) /\
     (s < 0.5 <-> better_than avg value cfg) /\
     (s = 0.5 <-> value = avg)) /\
  (~ in_exp_range value avg cfg ->
   better_than avg value cfg /\
   _score_relative value (Some avg) cfg = Raise OverflowError).
Proof.
  intros Havg.
  set (d := signed_deviation value avg cfg).
  pose proof (signed_deviation_pos value avg cfg Havg) as Hpos. fold d in Hpos.
  assert (Hneg : d < 0 <-> better_than avg value cfg).
  { pose proof (Rabs_pos_nonzero avg Havg) as Habs.
    assert (Hinv : 0 < / Rabs avg) by (apply Rinv_0_lt_compat; exact Habs).
    unfold d, signed_deviation, better_than, Rdiv.
    destruct (lower_is_better cfg); split; intros H; nra. }
  assert (Hzero : d = 0 <-> value = avg).
  { unfold better_than in Hpos, Hneg.
    destruct (lower_is_better cfg); split; intros H; lra. }
  split.
  - intros Hrange.
    eexists. split; [apply score_relative_logistic; assumption |].
    fold d.
    pose proof (logistic_half (- 4 * d)) as Hhalf.
    pose proof (logistic_mirror (- 4 * d)) as Hmir.
    pose proof (logistic_half (- (- 4 * d))) as Hhalf'.
    split; [| split].
    + rewrite <- Hpos. split; intros H.
      * assert (- 4 * d < 0) by (apply Hhalf; lra). lra.
      * assert (1 / 2 < 1 / (1 + exp (- 4 * d))) by (apply Hhalf; lra). lra.
    + rewrite <- Hneg. split; intros H.
      * assert (- (- 4 * d) < 0) by (apply Hhalf'; lra). lra.
      * assert (1 / 2 < 1 / (1 + exp (- (- 4 * d)))) by (apply Hhalf'; lra). lra.
    + rewrite <- Hzero. split; intros H.
      * destruct (Rtotal_order d 0) as [Hlt | [Heq | Hgt]]; [| exact Heq |].
        -- assert (1 / 2 < 1 / (1 + exp (- (- 4 * d)))) by (apply Hhalf'; lra).
           lra.
        -- assert (1 / 2 < 1 / (1 + exp (- 4 * d))) by (apply Hhalf; lra). lra.
      * rewrite H. replace (- 4 * 0) with 0 by lra. rewrite exp_0. lra.
  - intros Hrange. split; [| apply score_relative_overflow; assumption].
    apply Hneg. unfold in_exp_range, EXP_MAX_ARG in Hrange. fold d in Hrange. lra.
Qed.

Lemma score_relative_direction_witness :
  20 <> 0 /\ in_exp_range 10 20 trailingPE_cfg /\
  better_than 10 20 trailingPE_cfg /\
  exists s, _score_relative 10 (Some 20) trailingPE_cfg = Ok s /\ 0.5 < s.
Proof.
  assert (Hne : 20 <> 0) by lra.
  assert (Hr : in_exp_range 10 20 trailingPE_cfg) by exp_range.
  assert (Hb : better_than 10 20 trailingPE_cfg) by (unfold better_than; simpl; lra).
  split; [exact Hne |]. split; [exact Hr |]. split; [exact Hb |].
  destruct (proj1 (score_relative_direction 10 20 trailingPE_cfg Hne) Hr)
    as (s & Hs & Hgt & _).
  exists s. split; [exact Hs | apply Hgt; exact Hb].
Defined.

(** X3: [_score_relative] is monotone in the value, also in whether it
    returns: for a higher-is-better KPI, when the call returns at a value it
    returns at every larger value, with a score that is not smaller; for a
    lower-is-better KPI, when it returns at a value it returns at every
    smaller value, with a score that is not smaller. *)
Theorem score_relative_monotone (x y : R) (avg : option R) (cfg : KPIConfig) :
  x <= y ->
  if lower_is_better cfg
  then forall sy, _score_relative y avg cfg = Ok sy ->
         exists sx, _score_relative x avg cfg = Ok sx /\ sy <= sx
  else forall sx, _score_relative x avg cfg = Ok sx ->
         exists sy, _score_relative y avg cfg = Ok sy /\ sx <= sy.
Proof.
  intros Hxy.
  assert (Hneutral : forall v, avg = None \/ avg = Some 0 ->
            _score_relative v avg cfg = Ok 0.5).
  { intros v [-> | ->]; [reflexivity |]. unfold _score_relative.
    case_decide; [reflexivity | contradiction]. }
  assert (Hcase : (avg = None \/ avg = Some 0) \/ exists a, avg = Some a /\ a <> 0).
  { destruct avg as [a |]; [| left; left; reflexivity].
    destruct (decide (a = 0)) as [-> | Ha];
      [left; right; reflexivity | right; exists a; auto]. }
  destruct Hcase as [Hn | (a & -> & Ha)].
  - rewrite !Hneutral by exact Hn.
    destruct (lower_is_better cfg); intros s Hs; exists 0.5;
      injection Hs as <-; split; [reflexivity | lra | reflexivity | lra].
  - pose proof (signed_deviation_mono x y a cfg Ha Hxy) as Hd.
    assert (Hret : forall v s, _score_relative v (Some a) cfg = Ok s ->
              in_exp_range v a cfg /\
              s = 1 / (1 + exp (- 4 * signed_deviation v a cfg))).
    { intros v s Hs.
      destruct (decide (in_exp_range v a cfg)) as [Hr | Hr].
      - rewrite score_relative_logistic in Hs by assumption.
        injection Hs as <-. split; [exact Hr | reflexivity].
      - rewrite score_relative_overflow in Hs by assumption. discriminate. }
    destruct (lower_is_better cfg); intros s Hs;
      destruct (Hret _ _ Hs) as [Hr ->].
    + assert (Hrx : in_exp_range x a cfg).
      { unfold in_exp_range in *. lra. }
      eexists. split; [apply score_relative_logistic; assumption |].
      apply logistic_le. lra.
    + assert (Hry : in_exp_range y a cfg).
      { unfold in_exp_range in *. lra. }
      eexists. split; [apply score_relative_logistic; assumption |].
      apply logistic_le. lra.
Qed.

Lemma score_relative_monotone_witness :
  10 <= 30 /\
  exists sx sy,
    _score_relative 10 (Some 20) trailingPE_cfg = Ok sx /\
    _score_relative 30 (Some 20) trailingPE_cfg = Ok sy /\ sy <= sx.
Proof.
  split; [lra |].
  assert (Hy : _score_relative 30 (Some 20) trailingPE_cfg =
               Ok (1 / (1 + exp (- 4 * signed_deviation 30 20 trailingPE_cfg)))).
  { apply score_relative_logistic; [lra | exp_range]. }
  destruct (score_relative_monotone 10 30 (Some 20) trailingPE_cfg ltac:(lra)
              _ Hy) as (sx & Hx & Hle).
  exists sx. eexists. split; [exact Hx |]. split; [exact Hy | exact Hle].
Defined.

(** X4: within the range of [math.exp] on both sides the relative score is
    symmetric about 0.5: reversing the direction of the KPI turns a score
    [s] into [1 - s], and so does mirroring the value about the sector
    average.  The faults are not symmetric: for a value so far on the
    better side that its mirror image is beyond the range, the call returns
    while the reversed and the mirrored call raise [OverflowError]. *)
Theorem score_relative_mirror (value avg : R) (cfg : KPIConfig) :
  avg <> 0 ->
  (Rabs (4 * signed_deviation value avg cfg) <= EXP_MAX_ARG ->
   exists s s' s'',
     _score_relative value (Some avg) cfg = Ok s /\
     _score_relative value (Some avg) (flip_direction cfg) = Ok s' /\
     _score_relative (avg - (value - avg)) (Some avg) cfg = Ok s'' /\
     s + s' = 1 /\ s + s'' = 1) /\
  (EXP_MAX_ARG < 4 * signed_deviation value avg cfg ->
   (exists s, _score_relative value (Some avg) cfg = Ok s) /\
   _score_relative value (Some avg) (flip_direction cfg)
     = Raise OverflowError /\
   _score_relative (avg - (value - avg)) (Some avg) cfg
     = Raise OverflowError).
Proof.
  intros Ha.
  set (d := signed_deviation value avg cfg).
  assert (Hflip : signed_deviation value avg (flip_direction cfg) = - d).
  { unfold d, signed_deviation, flip_direction. simpl.
    destruct (lower_is_better cfg); simpl; lra. }
  assert (Hmir : signed_deviation (avg - (value - avg)) avg cfg = - d).
  { unfold d, signed_deviation, Rdiv.
    destruct (lower_is_better cfg); simpl; lra. }
  split.
  - intros Hd. fold d in Hd.
    pose proof (Rle_abs (4 * d)) as Hup.
    pose proof (Rle_abs (- (4 * d))) as Hdown. rewrite Rabs_Ropp in Hdown.
    eexists. eexists. eexists.
    split; [apply score_relative_logistic;
            [exact Ha | unfold in_exp_range; fold d; lra] |].
    split; [apply score_relative_logistic;
            [exact Ha | unfold in_exp_range; rewrite Hflip; lra] |].
    split; [apply score_relative_logistic;
            [exact Ha | unfold in_exp_range; rewrite Hmir; lra] |].
    fold d. rewrite Hflip, Hmir.
    replace (- 4 * - d) with (- (- 4 * d)) by lra.
    split; apply logistic_mirror.
  - intros Hd. unfold EXP_MAX_ARG in Hd. split; [| split].
    + eexists. apply score_relative_logistic;
        [exact Ha | unfold in_exp_range, EXP_MAX_ARG; fold d; lra].
    + apply score_relative_overflow; [exact Ha |].
      unfold in_exp_range, EXP_MAX_ARG. rewrite Hflip. lra.
    + apply score_relative_overflow; [exact Ha |].
      unfold in_exp_range, EXP_MAX_ARG. rewrite Hmir. lra.
Qed.

Lemma score_relative_mirror_witness :
  20 <> 0 /\
  Rabs (4 * signed_deviation 10 20 trailingPE_cfg) <= EXP_MAX_ARG /\
  exists s s',
    _score_relative 10 (Some 20) trailingPE_cfg = Ok s /\
    _score_relative 30 (Some 20) trailingPE_cfg = Ok s' /\ s + s' = 1.
Proof.
  assert (Hne : 20 <> 0) by lra.
  assert (Hd : Rabs (4 * signed_deviation 10 20 trailingPE_cfg) <= EXP_MAX_ARG).
  { unfold signed_deviation, EXP_MAX_ARG. simpl.
    rewrite (Rabs_pos_eq 20) by lra. apply Rabs_le. lra. }
  split; [exact Hne |]. split; [exact Hd |].
  destruct (proj1 (score_relative_mirror 10 20 trailingPE_cfg Hne) Hd)
    as (s & _ & s'' & Hs & _ & Hm & _ & Hsum).
  replace (20 - (10 - 20)) with 30 in Hm by lra.
  exists s, s''. split; [exact Hs |]. split; [exact Hm | exact Hsum].
Defined.

(** X5: the relative score does not depend on the unit of the KPI: scaling
    the value and the sector average by the same positive factor leaves it
    unchanged. *)
Theorem score_relative_scale (k value avg : R) (cfg : KPIConfig) :
  0 < k ->
  _score_relative (k * value) (Some (k * avg)) cfg =
    _score_relative value (Some avg) cfg.
Proof.
  intros Hk. destruct (decide (avg = 0)) as [-> | Ha].
  - rewrite Rmult_0_r. unfold _score_relative.
    case_decide; [reflexivity | contradiction].
  - assert (Hka : k * avg <> 0) by (apply Rmult_integral_contrapositive_currified; lra).
    rewrite !score_relative_unfold by assumption.
    assert (Hdev : signed_deviation (k * value) (k * avg) cfg
                   = signed_deviation value avg cfg).
    { pose proof (Rabs_pos_nonzero avg Ha) as Habs.
      unfold signed_deviation. rewrite Rabs_mult, (Rabs_pos_eq k) by lra.
      destruct (lower_is_better cfg); field; lra. }
    rewrite Hdev. reflexivity.
Qed.

Lemma score_relative_scale_witness :
  0 < 100 /\
  _score_relative (100 * 0.20) (Some (100 * 0.15)) trailingPE_cfg =
    _score_relative 0.20 (Some 0.15) trailingPE_cfg.
Proof.
  split; [lra |].
  exact (score_relative_scale 100 0.20 0.15 trailingPE_cfg ltac:(lra)).
Defined.

(** ** Saturation of the absolute score *)

(** X6: for a definition with oriented bounds the absolute score is exactly
    1.0 precisely for values at or beyond [abs_best], exactly 0.0 precisely
    for values at or beyond [abs_worst], and strictly between 0 and 1 for
    the values strictly between the two bounds. *)
Theorem score_absolute_saturation (value : R) (cfg : KPIConfig) :
  oriented cfg ->
  exists s,
    _score_absolute value cfg = Ok s /\
    (s = 1 <-> if lower_is_better cfg then value <= abs_best cfg
               else abs_best cfg <= value) /\
    (s = 0 <-> if lower_is_better cfg then abs_worst cfg <= value
               else value <= abs_worst cfg).
Proof.
  intros Ho. rewrite score_absolute_cases. eexists. split; [reflexivity |].
  unfold oriented in Ho.
  pose proof (div_unit_interval (value - abs_best cfg)
                (abs_worst cfg - abs_best cfg)) as H1.
  pose proof (div_unit_interval (value - abs_worst cfg)
                (abs_best cfg - abs_worst cfg)) as H2.
  assert (H3 : 0 < abs_worst cfg - abs_best cfg ->
               (value - abs_best cfg) / (abs_worst cfg - abs_best cfg)
               * (abs_worst cfg - abs_best cfg) = value - abs_best cfg).
  { intros Hd. field. lra. }
  assert (H4 : 0 < abs_best cfg - abs_worst cfg ->
               (value - abs_worst cfg) / (abs_best cfg - abs_worst cfg)
               * (abs_best cfg - abs_worst cfg) = value - abs_worst cfg).
  { intros Hd. field. lra. }
  destruct (lower_is_better cfg); repeat case_decide;
    (split; split; intros Hgoal; try lra; nra).
Qed.

Lemma score_absolute_saturation_witness :
  oriented trailingPE_cfg /\
  exists s, _score_absolute 3 trailingPE_cfg = Ok s /\ s = 1.
Proof.
  assert (Ho : oriented trailingPE_cfg) by (unfold oriented; simpl; lra).
  split; [exact Ho |].
  destruct (score_absolute_saturation 3 trailingPE_cfg Ho) as (s & Hs & H1 & _).
  exists s. split; [exact Hs |]. apply H1. simpl. lra.
Defined.

(** ** More on sorted lists and the median *)

Lemma sorted_lookup_le (s : list R) (i j : nat) (a b : R) :
  Sorted Rle s -> (i <= j)%nat -> s !! i = Some a -> s !! j = Some b -> a <= b.
Proof.
  intros Hs. apply Sorted_StronglySorted in Hs; [| exact Rle_trans].
  revert i j. induction Hs as [| x l _ IH Hall]; intros i j Hij Hi Hj.
  - discriminate.
  - destruct i as [| i]; destruct j as [| j]; simpl in Hi, Hj.
    + injection Hi as <-. injection Hj as <-. lra.
    + injection Hi as <-. rewrite List.Forall_forall in Hall.
      apply Hall. apply list_elem_of_In. apply (list_elem_of_lookup_2 l j b Hj).
    + lia.
    + apply (IH i j); [lia | exact Hi | exact Hj].
Qed.

Lemma filter_all {A : Type} (P : A -> Prop) `{!forall x, Decision (P x)}
    (l : list A) :
  Forall P l -> filter P l = l.
Proof.
  induction 1 as [| x l Hx _ IH]; [reflexivity |].
  rewrite filter_cons_True by exact Hx. rewrite IH. reflexivity.
Qed.

Lemma count_prefix {A : Type} (P : A -> Prop) `{!forall x, Decision (P x)}
    (l : list A) (k : nat) :
  (forall i x, (i < k)%nat -> l !! i = Some x -> P x) ->
  (k <= length l)%nat ->
  (k <= length (filter P l))%nat.
Proof.
  intros Hpre Hk. rewrite <- (take_drop k l), filter_app, length_app.
  rewrite (filter_all P (take k l)).
  - rewrite length_take. lia.
  - apply Forall_lookup. intros i x Hi.
    apply lookup_take_Some in Hi as [Hi Hlt]. apply (Hpre i x Hlt Hi).
Qed.

Lemma count_suffix {A : Type} (P : A -> Prop) `{!forall x, Decision (P x)}
    (l : list A) (k : nat) :
  (forall i x, (k <= i)%nat -> l !! i = Some x -> P x) ->
  (length l - k <= length (filter P l))%nat.
Proof.
  intros Hsuf. rewrite <- (take_drop k l) at 2. rewrite filter_app, length_app.
  rewrite (filter_all P (drop k l)).
  - rewrite length_drop. lia.
  - apply Forall_lookup. intros i x Hi.
    rewrite lookup_drop in Hi. apply (Hsuf (k + i)%nat x); [lia | exact Hi].
Qed.

(** A median splits the values in two halves. *)
Lemma is_median_halves (vs : list R) (m : R) :
  is_median vs m ->
  (length vs <= 2 * length (at_most m vs))%nat /\
  (length vs <= 2 * length (at_least m vs))%nat.
Proof.
  intros (s & Hp & Hs & Hm). unfold at_most, at_least.
  rewrite <- !Hp.
  pose proof (Nat.div_mod_eq (length s) 2) as Hdm.
  pose proof (Nat.mod_upper_bound (length s) 2 ltac:(lia)) as Hmod.
  case_decide as Hpar.
  - destruct Hm as (a & b & Ha & Hb & ->).
    pose proof (lookup_lt_Some _ _ _ Hb) as Hlt.
    assert (Hab : a <= b).
    { apply (sorted_lookup_le s (length s / 2 - 1) (length s / 2) a b Hs);
        [lia | exact Ha | exact Hb]. }
    split.
    + pose proof (count_prefix (fun x => x <= (a + b) / 2) s (length s / 2)) as Hc.
      assert (length s / 2 <= length (filter (fun x => (x <= (a + b) / 2)%R) s))%nat;
        [| lia].
      apply Hc; [| lia]. intros i x Hi Hx.
      assert (x <= a); [| lra].
      apply (sorted_lookup_le s i (length s / 2 - 1) x a Hs);
        [lia | exact Hx | exact Ha].
    + pose proof (count_suffix (fun x => (a + b) / 2 <= x) s (length s / 2)) as Hc.
      assert (length s - length s / 2
              <= length (filter (fun x => ((a + b) / 2 <= x)%R) s))%nat; [| lia].
      apply Hc. intros i x Hi Hx.
      pose proof (sorted_lookup_le s _ i b x Hs Hi Hb Hx). lra.
  - pose proof (lookup_lt_Some _ _ _ Hm) as Hlt.
    split.
    + pose proof (count_prefix (fun x => x <= m) s (S (length s / 2))) as Hc.
      assert (S (length s / 2) <= length (filter (fun x => (x <= m)%R) s))%nat;
        [| lia].
      apply Hc; [| lia]. intros i x Hi Hx.
      apply (sorted_lookup_le s i (length s / 2) x m Hs);
        [lia | exact Hx | exact Hm].
    + pose proof (count_suffix (fun x => m <= x) s (length s / 2)) as Hc.
      assert (length s - length s / 2
              <= length (filter (fun x => (m <= x)%R) s))%nat; [| lia].
      apply Hc. intros i x Hi Hx.
      apply (sorted_lookup_le s _ i m x Hs Hi Hm Hx).
Qed.

(** The median of values that are all [v] is [v]. *)
Lemma is_median_constant (vs : list R) (v m : R) :
  Forall (fun x => x = v) vs -> is_median vs m -> m = v.
Proof.
  intros Hall (s & Hp & _ & Hm).
  rewrite <- Hp in Hall. rewrite Forall_lookup in Hall.
  case_decide.
  - destruct Hm as (a & b & Ha & Hb & ->).
    rewrite (Hall _ _ Ha), (Hall _ _ Hb). lra.
  - apply (Hall _ _ Hm).
Qed.

(** ** More on [compute_sector_averages] *)

(** What the aggregate of typed peers holds under a catalog key. *)
Lemma sector_averages_lookup (all_kpis : list (gmap string pyval))
    (averages : gmap string pyval) (cfg : KPIConfig) :
  Forall catalog_typed all_kpis ->
  compute_sector_averages all_kpis = Ok averages ->
  cfg ∈ KPI_CONFIGS ->
  (peer_floats all_kpis (key cfg) = [] /\
   averages !! key cfg = Some PyNone) \/
  (exists m, peer_floats all_kpis (key cfg) <> [] /\
             averages !! key cfg = Some (PyFloat m) /\
             is_median (peer_floats all_kpis (key cfg)) m).
Proof.
  intros Ht Hrun Hin.
  destruct (sector_loop_entry all_kpis ∅ averages KPI_CONFIGS cfg Hrun
              catalog_keys_NoDup Hin) as (v & Hv & Hlook).
  unfold aggregate_for in Hv.
  rewrite (present_values_floats all_kpis (key cfg)
             (peers_typed_at all_kpis cfg Ht Hin)) in Hv.
  destruct (peer_floats all_kpis (key cfg)) as [| x xs] eqn:Hxs.
  - destruct Hv as [[_ ->] | [Hne _]]; [| contradiction]. left. auto.
  - destruct Hv as [[Hnil _] | [_ Hmed]]; [discriminate |].
    destruct (median_floats (x :: xs)) as (m & Hm & Hspec); [discriminate |].
    rewrite Hm in Hmed. injection Hmed as <-.
    right. exists m. split; [discriminate |]. split; assumption.
Qed.

Lemma sector_averages_ok (all_kpis : list (gmap string pyval)) :
  Forall catalog_typed all_kpis ->
  exists averages, compute_sector_averages all_kpis = Ok averages.
Proof.
  intros Ht. apply sector_loop_ok.
  apply Forall_forall. intros cfg Hin. apply peers_typed_at; assumption.
Qed.

Lemma sector_loop_dom (all_kpis : list (gmap string pyval))
    (averages averages' : gmap string pyval) (l : list KPIConfig) :
  for_each (sector_step all_kpis) averages l = Ok averages' ->
  dom averages' = dom averages ∪ list_to_set (key <$> l).
Proof.
  revert averages. induction l as [| c l IH]; intros averages Hrun.
  - injection Hrun as <-. simpl. rewrite (right_id_L ∅ (∪)). reflexivity.
  - simpl in Hrun. apply bind_ok_inv in Hrun as (av1 & H1 & Hrest).
    rewrite (IH av1 Hrest).
    apply sector_step_inv in H1 as (v & _ & ->).
    rewrite dom_insert_L, fmap_cons. simpl.
    rewrite (comm_L (∪) {[key c]} (dom averages)).
    rewrite (assoc_L (∪)). reflexivity.
Qed.

Lemma sector_averages_typed (all_kpis : list (gmap string pyval))
    (averages : gmap string pyval) :
  Forall catalog_typed all_kpis ->
  compute_sector_averages all_kpis = Ok averages ->
  catalog_typed averages.
Proof.
  intros Ht Hrun. unfold catalog_typed. apply Forall_forall. intros cfg Hin.
  unfold dict_get.
  destruct (sector_averages_lookup all_kpis averages cfg Ht Hrun Hin)
    as [[_ ->] | (m & _ & -> & _)]; exact I.
Qed.

(** X7: the aggregate that [compute_sector_averages] returns is keyed by
    exactly the catalog keys, and for peers whose catalog keys hold floats
    or [None] it is returned and holds floats or [None] itself, so that it
    can be handed to [calculate_rating]. *)
Theorem sector_averages_shape (all_kpis : list (gmap string pyval)) :
  (forall averages,
     compute_sector_averages all_kpis = Ok averages ->
     dom averages = list_to_set get_kpi_keys) /\
  (Forall catalog_typed all_kpis ->
   exists averages,
     compute_sector_averages all_kpis = Ok averages /\
     catalog_typed averages).
Proof.
  split.
  - intros averages Hrun.
    rewrite (sector_loop_dom all_kpis ∅ averages KPI_CONFIGS Hrun).
    rewrite dom_empty_L, (left_id_L ∅ (∪)). reflexivity.
  - intros Ht. destruct (sector_averages_ok all_kpis Ht) as (averages & Hrun).
    exists averages. split; [exact Hrun |].
    apply (sector_averages_typed all_kpis averages Ht Hrun).
Qed.

Lemma sector_averages_shape_witness :
  Forall catalog_typed three_peers /\
  exists averages,
    compute_sector_averages three_peers = Ok averages /\
    catalog_typed averages /\
    dom averages = list_to_set get_kpi_keys.
Proof.
  split; [exact three_peers_typed |].
  destruct (sector_averages_shape three_peers) as [Hdom Hok].
  destruct (Hok three_peers_typed) as (averages & Hrun & Ht).
  exists averages. split; [exact Hrun |]. split; [exact Ht |].
  exact (Hdom averages Hrun).
Defined.

(** X8: the aggregate of a KPI splits the peers in two halves: at least
    half of the values that the peers report for it are at most the
    aggregate, and at least half are at least the aggregate. *)
Theorem sector_median_halves (all_kpis : list (gmap string pyval))
    (cfg : KPIConfig) :
  Forall catalog_typed all_kpis ->
  cfg ∈ KPI_CONFIGS ->
  exists averages,
    compute_sector_averages all_kpis = Ok averages /\
    (peer_floats all_kpis (key cfg) <> [] ->
     exists m,
       averages !! key cfg = Some (PyFloat m) /\
       (length (peer_floats all_kpis (key cfg))
        <= 2 * length (at_most m (peer_floats all_kpis (key cfg))))%nat /\
       (length (peer_floats all_kpis (key cfg))
        <= 2 * length (at_least m (peer_floats all_kpis (key cfg))))%nat).
Proof.
  intros Ht Hin. destruct (sector_averages_ok all_kpis Ht) as (averages & Hrun).
  exists averages. split; [exact Hrun |]. intros Hne.
  destruct (sector_averages_lookup all_kpis averages cfg Ht Hrun Hin)
    as [[Hnil _] | (m & _ & Hlook & Hmed)]; [contradiction |].
  exists m. split; [exact Hlook |]. apply is_median_halves. exact Hmed.
Qed.

Lemma peer_floats_three_peers :
  peer_floats three_peers (key trailingPE_cfg) = [10; 20; 30].
Proof. reflexivity. Qed.

Lemma sector_median_halves_witness :
  Forall catalog_typed three_peers /\ trailingPE_cfg ∈ KPI_CONFIGS /\
  peer_floats three_peers (key trailingPE_cfg) <> [] /\
  exists averages m,
    compute_sector_averages three_peers = Ok averages /\
    averages !! "trailingPE" = Some (PyFloat m) /\
    (3 <= 2 * length (at_most m [10; 20; 30]%R))%nat.
Proof.
  assert (Hin : trailingPE_cfg ∈ KPI_CONFIGS).
  { apply list_elem_of_lookup. exists 0%nat. reflexivity. }
  assert (Hne : peer_floats three_peers (key trailingPE_cfg) <> [])
    by (rewrite peer_floats_three_peers; discriminate).
  split; [exact three_peers_typed |]. split; [exact Hin |].
  split; [exact Hne |].
  destruct (sector_median_halves three_peers trailingPE_cfg
              three_peers_typed Hin) as (averages & Hrun & Hhalf).
  destruct (Hhalf Hne) as (m & Hlook & Hle & _).
  exists averages, m. split; [exact Hrun |]. split; [exact Hlook |].
  rewrite peer_floats_three_peers in Hle. exact Hle.
Defined.

(** X9: when every peer that reports a KPI reports the same value [v], the
    aggregate of that KPI is [v]; in particular the aggregate of a single
    peer is that peer's own value. *)
Theorem sector_same_value (all_kpis : list (gmap string pyval))
    (cfg : KPIConfig) (v : R) :
  Forall catalog_typed all_kpis ->
  cfg ∈ KPI_CONFIGS ->
  peer_floats all_kpis (key cfg) <> [] ->
  Forall (fun x => x = v) (peer_floats all_kpis (key cfg)) ->
  exists averages,
    compute_sector_averages all_kpis = Ok averages /\
    averages !! key cfg = Some (PyFloat v).
Proof.
  intros Ht Hin Hne Hall.
  destruct (sector_averages_ok all_kpis Ht) as (averages & Hrun).
  exists averages. split; [exact Hrun |].
  destruct (sector_averages_lookup all_kpis averages cfg Ht Hrun Hin)
    as [[Hnil _] | (m & _ & Hlook & Hmed)]; [contradiction |].
  rewrite Hlook. rewrite (is_median_constant _ v m Hall Hmed). reflexivity.
Qed.

Lemma sector_same_value_witness :
  Forall catalog_typed [peer_b] /\ trailingPE_cfg ∈ KPI_CONFIGS /\
  peer_floats [peer_b] (key trailingPE_cfg) <> [] /\
  Forall (fun x => x = 20) (peer_floats [peer_b] (key trailingPE_cfg)) /\
  exists averages,
    compute_sector_averages [peer_b] = Ok averages /\
    averages !! "trailingPE" = Some (PyFloat 20).
Proof.
  assert (Ht : Forall catalog_typed [peer_b]).
  { pose proof three_peers_typed as H. unfold three_peers in H.
    inversion H as [| ? ? _ H']; subst. inversion H'; subst.
    apply List.Forall_cons; [assumption | apply List.Forall_nil]. }
  assert (Hin : trailingPE_cfg ∈ KPI_CONFIGS).
  { apply list_elem_of_lookup. exists 0%nat. reflexivity. }
  assert (Hf : peer_floats [peer_b] (key trailingPE_cfg) = [20]) by reflexivity.
  assert (Hne : peer_floats [peer_b] (key trailingPE_cfg) <> [])
    by (rewrite Hf; discriminate).
  assert (Hall : Forall (fun x => x = 20) (peer_floats [peer_b] (key trailingPE_cfg))).
  { rewrite Hf. apply List.Forall_cons; [reflexivity | apply List.Forall_nil]. }
  split; [exact Ht |]. split; [exact Hin |]. split; [exact Hne |].
  split; [exact Hall |].
  exact (sector_same_value [peer_b] trailingPE_cfg 20 Ht Hin Hne Hall).
Defined.

Lemma present_values_none (all_kpis : list (gmap string pyval)) (k : string) :
  Forall (fun kpi => dict_get kpi k = PyNone) all_kpis ->
  present_values all_kpis k = [].
Proof.
  unfold present_values. induction 1 as [| kpi l Hk _ IH]; [reflexivity |].
  rewrite fmap_cons. simpl. rewrite Hk. simpl. exact IH.
Qed.

Lemma sector_step_no_data (all_kpis : list (gmap string pyval))
    (averages : gmap string pyval) (cfg : KPIConfig) :
  present_values all_kpis (key cfg) = [] ->
  sector_step all_kpis averages cfg = Ok (<[key cfg := PyNone]> averages).
Proof. intros H. unfold sector_step. rewrite H. reflexivity. Qed.

Lemma sector_loop_no_data (all_kpis : list (gmap string pyval))
    (averages : gmap string pyval) (l : list KPIConfig) :
  Forall (fun cfg => present_values all_kpis (key cfg) = []) l ->
  for_each (sector_step all_kpis) averages l =
    Ok (foldl (fun m cfg => <[key cfg := PyNone]> m) averages l).
Proof.
  intros H. revert averages. induction H as [| cfg l Hc _ IH]; intros averages.
  - reflexivity.
  - change (for_each (sector_step all_kpis) averages (cfg :: l))
      with (sector_step all_kpis averages cfg
            ≫= fun av => for_each (sector_step all_kpis) av l).
    rewrite (sector_step_no_data all_kpis averages cfg Hc), bind_ok. apply IH.
Qed.

Lemma no_kpis_by_insertion :
  foldl (fun m cfg => <[key cfg := PyNone]> m) (∅ : gmap string pyval)
    KPI_CONFIGS = no_kpis.
Proof. vm_compute. reflexivity. Qed.

Lemma sector_averages_nothing (peers : list (gmap string pyval)) :
  Forall reports_nothing peers -> compute_sector_averages peers = Ok no_kpis.
Proof.
  intros Hp. unfold compute_sector_averages.
  rewrite sector_loop_no_data; [rewrite no_kpis_by_insertion; reflexivity |].
  apply Forall_forall. intros cfg Hin. apply present_values_none.
  eapply Forall_impl; [exact Hp |]. intros kpi Hk.
  unfold reports_nothing in Hk. rewrite List.Forall_forall in Hk.
  apply Hk. apply list_elem_of_In. exact Hin.
Qed.

(** X10: when no peer reports any catalog KPI, and in particular when there
    is no peer at all, the aggregate holds [None] under every catalog key
    and nothing else. *)
Theorem sector_no_data (all_kpis : list (gmap string pyval)) :
  Forall reports_nothing all_kpis ->
  compute_sector_averages all_kpis = Ok no_kpis /\
  compute_sector_averages [] = Ok no_kpis /\
  reports_nothing no_kpis /\ dom no_kpis = list_to_set get_kpi_keys.
Proof.
  assert (Hgen : forall peers, Forall reports_nothing peers ->
                 compute_sector_averages peers = Ok no_kpis).
  { intros peers Hp. unfold compute_sector_averages.
    rewrite sector_loop_no_data; [rewrite no_kpis_by_insertion; reflexivity |].
    apply Forall_forall. intros cfg Hin. apply present_values_none.
    eapply Forall_impl; [exact Hp |]. intros kpi Hk.
    unfold reports_nothing in Hk. rewrite List.Forall_forall in Hk.
    apply Hk. apply list_elem_of_In. exact Hin. }
  intros Hnone. split; [apply Hgen; exact Hnone |].
  split; [apply Hgen; apply List.Forall_nil |].
  split; [exact no_kpis_absent |].
  vm_compute. reflexivity.
Qed.

Lemma sector_no_data_witness :
  Forall reports_nothing [add_ticker no_kpis "AAA"; no_kpis] /\
  compute_sector_averages [add_ticker no_kpis "AAA"; no_kpis] = Ok no_kpis.
Proof.
  assert (H : Forall reports_nothing [add_ticker no_kpis "AAA"; no_kpis]).
  { apply List.Forall_cons;
      [unfold reports_nothing; over_catalog ltac:(reflexivity) |].
    apply List.Forall_cons; [exact no_kpis_absent | apply List.Forall_nil]. }
  split; [exact H |].
  exact (proj1 (sector_no_data _ H)).
Defined.

(** ** The order of the peers *)

Lemma sort_by_Rleb_perm (xs ys : list R) :
  xs ≡ₚ ys -> sort_by Rleb xs = sort_by Rleb ys.
Proof.
  intros Hp. apply (Sorted_unique Rle); [apply sort_by_Rle | apply sort_by_Rle |].
  rewrite !sort_by_perm. exact Hp.
Qed.

Lemma median_floats_perm (xs ys : list R) :
  xs ≡ₚ ys -> median (PyFloat <$> xs) = median (PyFloat <$> ys).
Proof.
  intros Hp. unfold median. rewrite !py_sort_floats.
  rewrite (sort_by_Rleb_perm xs ys Hp). reflexivity.
Qed.

Lemma sector_step_floats (all_kpis : list (gmap string pyval))
    (averages : gmap string pyval) (cfg : KPIConfig) :
  Forall (fun kpi => float_or_none (dict_get kpi (key cfg))) all_kpis ->
  sector_step all_kpis averages cfg =
    match peer_floats all_kpis (key cfg) with
    | [] => Ok (<[key cfg := PyNone]> averages)
    | _ :: _ =>
        m ← median (PyFloat <$> peer_floats all_kpis (key cfg));
        Ok (<[key cfg := m]> averages)
    end.
Proof.
  intros Ht. unfold sector_step.
  rewrite (present_values_floats all_kpis (key cfg) Ht).
  destruct (peer_floats all_kpis (key cfg)); reflexivity.
Qed.

(** X11: the aggregate does not depend on the order in which the peers are
    listed. *)
Theorem sector_order_irrelevant (peers1 peers2 : list (gmap string pyval)) :
  Forall catalog_typed peers1 ->
  peers1 ≡ₚ peers2 ->
  compute_sector_averages peers1 = compute_sector_averages peers2.
Proof.
  intros Ht1 Hp.
  assert (Ht2 : Forall catalog_typed peers2) by (rewrite <- Hp; exact Ht1).
  unfold compute_sector_averages. apply for_each_ext.
  apply List.Forall_forall. intros cfg Hin averages.
  apply list_elem_of_In in Hin.
  rewrite !sector_step_floats by (apply peers_typed_at; assumption).
  assert (Hf : peer_floats peers1 (key cfg) ≡ₚ peer_floats peers2 (key cfg)).
  { unfold peer_floats. rewrite Hp. reflexivity. }
  rewrite (median_floats_perm _ _ Hf).
  destruct (peer_floats peers1 (key cfg)) as [| x xs].
  - apply Permutation_nil in Hf. rewrite Hf. reflexivity.
  - destruct (peer_floats peers2 (key cfg)) as [| y ys]; [| reflexivity].
    symmetry in Hf. apply Permutation_nil in Hf. discriminate.
Qed.

Lemma sector_order_irrelevant_witness :
  Forall catalog_typed three_peers /\
  three_peers ≡ₚ [peer_c; peer_a; peer_b] /\
  compute_sector_averages three_peers =
    compute_sector_averages [peer_c; peer_a; peer_b].
Proof.
  assert (Hp : three_peers ≡ₚ [peer_c; peer_a; peer_b]).
  { unfold three_peers. symmetry.
    apply (Permutation_cons_append [peer_a; peer_b] peer_c). }
  split; [exact three_peers_typed |]. split; [exact Hp |].
  exact (sector_order_irrelevant three_peers [peer_c; peer_a; peer_b]
           three_peers_typed Hp).
Defined.

(** ** A dictionary filled key by key *)

Section filled_by_key.
Context {V : Type} (f : KPIConfig -> V).

Lemma foldl_insert_other (m0 : gmap string V) (l : list KPIConfig) (k : string) :
  k ∉ key <$> l ->
  foldl (fun m c => <[key c := f c]> m) m0 l !! k = m0 !! k.
Proof.
  revert m0. induction l as [| c l IH]; intros m0 Hk; [reflexivity |].
  rewrite fmap_cons in Hk. apply not_elem_of_cons in Hk as [Hne Hk].
  simpl. rewrite (IH _ Hk). apply lookup_insert_ne. congruence.
Qed.

Lemma foldl_insert_lookup (m0 : gmap string V) (l : list KPIConfig)
    (cfg : KPIConfig) :
  NoDup (key <$> l) -> cfg ∈ l ->
  foldl (fun m c => <[key c := f c]> m) m0 l !! key cfg = Some (f cfg).
Proof.
  revert m0. induction l as [| c l IH]; intros m0 Hnd Hin; [inversion Hin |].
  rewrite fmap_cons in Hnd. apply NoDup_cons in Hnd as [Hc Hnd].
  simpl. apply elem_of_cons in Hin as [-> | Hin].
  - rewrite (foldl_insert_other _ l (key c) Hc). apply lookup_insert_eq.
  - apply (IH _ Hnd Hin).
Qed.

Lemma foldl_insert_dom (m0 : gmap string V) (l : list KPIConfig) :
  dom (foldl (fun m c => <[key c := f c]> m) m0 l)
  = dom m0 ∪ list_to_set (key <$> l).
Proof.
  revert m0. induction l as [| c l IH]; intros m0.
  - simpl. rewrite (right_id_L ∅ (∪)). reflexivity.
  - simpl. rewrite IH, dom_insert_L.
    rewrite (comm_L (∪) {[key c]} (dom m0)).
    rewrite (assoc_L (∪)). reflexivity.
Qed.
End filled_by_key.

(** ** The extractor *)

Lemma extract_value_typed (float_of_str : string -> option R)
    (val : option rawval) (v : pyval) :
  extract_value float_of_str val = Ok v -> float_or_none v.
Proof.
  destruct val as [[| x | z | b | s | t] |]; simpl;
    try (intros Hv; injection Hv as <-; exact I).
  - case_decide; [intros Hv; injection Hv as <-; exact I | discriminate].
  - destruct (float_of_str s); intros Hv; injection Hv as <-; exact I.
Qed.

(** [float()] lets one fault through the [try]: an integer too large. *)
Lemma extract_value_ok (float_of_str : string -> option R)
    (val : option rawval) :
  ~ oversized val -> exists v, extract_value float_of_str val = Ok v.
Proof.
  destruct val as [[| x | z | b | s | t] |]; simpl; intros Hz;
    try (eexists; reflexivity).
  - case_decide; [eexists; reflexivity | lia].
  - destruct (float_of_str s); eexists; reflexivity.
Qed.

Lemma extract_value_overflow (float_of_str : string -> option R)
    (val : option rawval) :
  oversized val -> extract_value float_of_str val = Raise OverflowError.
Proof.
  destruct val as [[| x | z | b | s | t] |]; simpl; intros Hz;
    try contradiction.
  case_decide; [lia | reflexivity].
Qed.

Lemma extract_step_ok (float_of_str : string -> option R)
    (info : gmap string rawval) (m : gmap string pyval) (cfg : KPIConfig) :
  ~ oversized (info !! key cfg) ->
  extract_step float_of_str info m cfg
  = Ok (<[key cfg := extracted float_of_str info cfg]> m).
Proof.
  intros Hc. unfold extract_step, extracted.
  destruct (extract_value_ok float_of_str _ Hc) as (v & ->). reflexivity.
Qed.

Lemma extract_step_overflow (float_of_str : string -> option R)
    (info : gmap string rawval) (m : gmap string pyval) (cfg : KPIConfig) :
  oversized (info !! key cfg) ->
  extract_step float_of_str info m cfg = Raise OverflowError.
Proof.
  intros Hc. unfold extract_step.
  rewrite (extract_value_overflow _ _ Hc). reflexivity.
Qed.

Lemma extract_loop_ok (float_of_str : string -> option R)
    (info : gmap string rawval) (l : list KPIConfig) (m0 : gmap string pyval) :
  Forall (fun cfg => ~ oversized (info !! key cfg)) l ->
  for_each (extract_step float_of_str info) m0 l =
    Ok (foldl (fun m c => <[key c := extracted float_of_str info c]> m) m0 l).
Proof.
  intros H. revert m0. induction H as [| cfg l Hc _ IH]; intros m0;
    [reflexivity |].
  cbn [for_each foldl]. rewrite (extract_step_ok _ _ _ _ Hc).
  cbn [mbind result_bind]. apply IH.
Qed.

Lemma extract_loop_overflow (float_of_str : string -> option R)
    (info : gmap string rawval) (l : list KPIConfig) (m0 : gmap string pyval) :
  ~ Forall (fun cfg => ~ oversized (info !! key cfg)) l ->
  for_each (extract_step float_of_str info) m0 l = Raise OverflowError.
Proof.
  revert m0. induction l as [| cfg l IH]; intros m0 H.
  - destruct H. apply List.Forall_nil.
  - cbn [for_each].
    destruct (decide (oversized (info !! key cfg))) as [Hc | Hc].
    + rewrite (extract_step_overflow _ _ _ _ Hc). reflexivity.
    + rewrite (extract_step_ok _ _ _ _ Hc).
      cbn [mbind result_bind]. apply IH. intros Hl. apply H.
      apply List.Forall_cons; assumption.
Qed.

Lemma extract_kpis_ok (float_of_str : string -> option R)
    (info : gmap string rawval) :
  convertible info ->
  extract_kpis float_of_str info =
    Ok (foldl (fun m c => <[key c := extracted float_of_str info c]> m)
          ∅ KPI_CONFIGS).
Proof. apply extract_loop_ok. Qed.

Lemma extract_kpis_overflow (float_of_str : string -> option R)
    (info : gmap string rawval) :
  ~ convertible info -> extract_kpis float_of_str info = Raise OverflowError.
Proof. apply extract_loop_overflow. Qed.

(** What [extract_kpis] has built when it returns. *)
Lemma extract_kpis_inv (float_of_str : string -> option R)
    (info : gmap string rawval) (kpis : gmap string pyval) :
  extract_kpis float_of_str info = Ok kpis ->
  convertible info /\
  kpis = foldl (fun m c => <[key c := extracted float_of_str info c]> m)
           ∅ KPI_CONFIGS.
Proof.
  intros H. destruct (decide (convertible info)) as [Hc | Hc].
  - rewrite (extract_kpis_ok _ _ Hc) in H. injection H as <-. auto.
  - rewrite (extract_kpis_overflow _ _ Hc) in H. discriminate.
Qed.

Lemma extract_kpis_lookup (float_of_str : string -> option R)
    (info : gmap string rawval) (kpis : gmap string pyval) (cfg : KPIConfig) :
  extract_kpis float_of_str info = Ok kpis ->
  cfg ∈ KPI_CONFIGS ->
  extract_value float_of_str (info !! key cfg) = Ok (dict_get kpis (key cfg)).
Proof.
  intros H Hin. apply extract_kpis_inv in H as [Hc ->].
  unfold dict_get.
  rewrite (foldl_insert_lookup (extracted float_of_str info) ∅ KPI_CONFIGS cfg
             catalog_keys_NoDup Hin). simpl.
  unfold convertible in Hc. rewrite List.Forall_forall in Hc.
  apply list_elem_of_In in Hin.
  destruct (extract_value_ok float_of_str _ (Hc cfg Hin)) as (v & Hv).
  unfold extracted. rewrite Hv. reflexivity.
Qed.

Lemma extract_kpis_typed (float_of_str : string -> option R)
    (info : gmap string rawval) (kpis : gmap string pyval) :
  extract_kpis float_of_str info = Ok kpis -> catalog_typed kpis.
Proof.
  intros H. unfold catalog_typed. apply Forall_forall. intros cfg Hin.
  apply (extract_value_typed float_of_str (info !! key cfg)).
  apply extract_kpis_lookup; assumption.
Qed.

Lemma extract_kpis_agree (float_of_str : string -> option R)
    (info info' : gmap string rawval) :
  (forall cfg, cfg ∈ KPI_CONFIGS -> info !! key cfg = info' !! key cfg) ->
  extract_kpis float_of_str info = extract_kpis float_of_str info'.
Proof.
  intros Hagree. unfold extract_kpis. apply for_each_ext.
  apply Forall_forall. intros cfg Hin m. unfold extract_step.
  rewrite (Hagree cfg Hin). reflexivity.
Qed.

(** X12: the one fault of [extract_kpis] is the [OverflowError] of
    [float()], raised exactly when a catalog field of the provider record
    holds an integer too large for a float; a missing field, [None], a
    string that is not a number and an object that is not a number all
    become [None].  When it returns, the record is keyed by exactly the
    catalog keys and holds floats or [None].  Either way the outcome is
    decided by the catalog fields alone: provider records that agree on
    them give the same result. *)
Theorem extract_kpis_shape (float_of_str : string -> option R)
    (info : gmap string rawval) :
  (convertible info ->
   exists kpis,
     extract_kpis float_of_str info = Ok kpis /\
     dom kpis = list_to_set get_kpi_keys /\
     catalog_typed kpis /\
     (forall cfg, cfg ∈ KPI_CONFIGS ->
        extract_value float_of_str (info !! key cfg)
        = Ok (dict_get kpis (key cfg)))) /\
  (~ convertible info ->
   extract_kpis float_of_str info = Raise OverflowError) /\
  (forall info' : gmap string rawval,
     (forall cfg, cfg ∈ KPI_CONFIGS -> info !! key cfg = info' !! key cfg) ->
     extract_kpis float_of_str info = extract_kpis float_of_str info').
Proof.
  split; [| split].
  - intros Hc. pose proof (extract_kpis_ok float_of_str info Hc) as Hrun.
    eexists. split; [exact Hrun |]. split; [| split].
    + rewrite foldl_insert_dom.
      rewrite dom_empty_L, (left_id_L ∅ (∪)). reflexivity.
    + apply (extract_kpis_typed float_of_str info). exact Hrun.
    + intros cfg Hin. apply extract_kpis_lookup; assumption.
  - apply extract_kpis_overflow.
  - apply extract_kpis_agree.
Qed.

Lemma sample_info_convertible : convertible sample_info.
Proof. unfold convertible. over_catalog ltac:(exact (fun H : False => H)). Qed.

Lemma extract_kpis_shape_witness :
  convertible sample_info /\
  exists kpis,
    extract_kpis sample_parser sample_info = Ok kpis /\
    dom kpis = list_to_set get_kpi_keys /\
    catalog_typed kpis.
Proof.
  split; [exact sample_info_convertible |].
  destruct (proj1 (extract_kpis_shape sample_parser sample_info)
              sample_info_convertible) as (kpis & Hrun & Hdom & Ht & _).
  exists kpis. split; [exact Hrun |]. split; [exact Hdom | exact Ht].
Defined.

(** ** From provider records to a rating *)

Lemma catalog_typed_agree (d1 d2 : gmap string pyval) :
  agree_on_catalog d1 d2 -> catalog_typed d2 -> catalog_typed d1.
Proof.
  unfold agree_on_catalog, catalog_typed. rewrite !List.Forall_forall.
  intros Hag Ht cfg Hin. rewrite (Hag cfg Hin). apply (Ht cfg Hin).
Qed.

Lemma peer_record_typed (float_of_str : string -> option R)
    (p : gmap string rawval * string) (k : gmap string pyval) :
  peer_record float_of_str p = Some k -> catalog_typed k.
Proof.
  unfold peer_record.
  destruct (extract_kpis float_of_str p.1) as [kpis | e] eqn:Hk; [| discriminate].
  intros H. injection H as <-.
  apply (catalog_typed_agree _ kpis); [apply add_ticker_agree |].
  apply (extract_kpis_typed float_of_str p.1). exact Hk.
Qed.

Lemma peer_records_typed (float_of_str : string -> option R)
    (peers : list (gmap string rawval * string)) :
  Forall catalog_typed (peer_records float_of_str peers).
Proof.
  unfold peer_records. induction peers as [| p peers IH]; [constructor |].
  change (omap (peer_record float_of_str) (p :: peers))
    with (match peer_record float_of_str p with
          | Some k => k :: omap (peer_record float_of_str) peers
          | None => omap (peer_record float_of_str) peers
          end).
  destruct (peer_record float_of_str p) as [k |] eqn:Hk; [| exact IH].
  apply List.Forall_cons; [| exact IH].
  apply (peer_record_typed float_of_str p). exact Hk.
Qed.

Lemma calculate_rating_bounded (stock_kpis sector_averages : gmap string pyval)
    (aw rw : R) (res : rating) :
  calculate_rating stock_kpis sector_averages aw rw = Ok res ->
  exists st,
    res = rating_finish aw rw st /\ totals_bounded st /\
    for_each (rating_step stock_kpis sector_averages aw rw)
      rating_init KPI_CONFIGS = Ok st.
Proof.
  intros Hres. unfold calculate_rating in Hres.
  apply bind_ok_inv in Hres as (st & Hrun & Hfin). injection Hfin as <-.
  exists st. split; [reflexivity |]. split; [| exact Hrun].
  eapply rating_loop_bounded;
    [apply catalog_weights_nonneg | apply rating_init_bounded | exact Hrun].
Qed.

Lemma calculate_rating_default_range
    (stock_kpis sector_averages : gmap string pyval) (res : rating) :
  calculate_rating stock_kpis sector_averages
    default_absolute_weight default_relative_weight = Ok res ->
  rating_in_range res.
Proof.
  intros Hres. apply calculate_rating_bounded in Hres as (st & -> & Hb & _).
  apply rating_finish_range. exact Hb.
Qed.

(** X13: the extractor, the aggregator and the rating compose with
    [OverflowError] as their only fault.  Whatever the provider's records
    hold, the peer records that the data layer builds (a peer whose
    extraction raises is left out) have an aggregate of floats and [None];
    and for a stock whose extraction returns, the rating against that
    aggregate is returned with its three figures in [1,10] and one score
    entry per catalog key, unless a deviation is beyond the range of
    [math.exp]: then [calculate_rating] raises [OverflowError]. *)
Theorem extract_aggregate_rate (float_of_str : string -> option R)
    (info : gmap string rawval)
    (peers : list (gmap string rawval * string)) :
  exists averages,
    compute_sector_averages (peer_records float_of_str peers) = Ok averages /\
    catalog_typed averages /\
    forall stock_kpis,
      extract_kpis float_of_str info = Ok stock_kpis ->
      (within_exp_range stock_kpis averages ->
       exists res,
         calculate_rating stock_kpis averages
           default_absolute_weight default_relative_weight = Ok res /\
         rating_in_range res /\
         dom (kpi_scores res) = list_to_set get_kpi_keys) /\
      (~ within_exp_range stock_kpis averages ->
       calculate_rating stock_kpis averages
         default_absolute_weight default_relative_weight
       = Raise OverflowError).
Proof.
  pose proof (peer_records_typed float_of_str peers) as Hpeers.
  destruct (sector_averages_ok _ Hpeers) as (averages & Hav).
  pose proof (sector_averages_typed _ _ Hpeers Hav) as Hat.
  exists averages. split; [exact Hav |]. split; [exact Hat |].
  intros stock_kpis Hstock.
  pose proof (extract_kpis_typed float_of_str info stock_kpis Hstock) as Hst.
  destruct (calculate_rating_outcome stock_kpis averages
              default_absolute_weight default_relative_weight Hst Hat)
    as [Hok Hover].
  split; [| exact Hover].
  intros Hrange. destruct (Hok Hrange) as (res & Hres).
  exists res. split; [exact Hres |].
  split; [apply (calculate_rating_default_range _ _ _ Hres) |].
  apply (calculate_rating_keys _ _ _ _ _ Hres).
Qed.

Lemma extract_aggregate_rate_witness :
  exists stock_kpis res,
    extract_kpis sample_parser sample_info = Ok stock_kpis /\
    compute_sector_averages (peer_records sample_parser []) = Ok no_kpis /\
    within_exp_range stock_kpis no_kpis /\
    calculate_rating stock_kpis no_kpis
      default_absolute_weight default_relative_weight = Ok res /\
    rating_in_range res.
Proof.
  destruct (extract_aggregate_rate sample_parser sample_info [])
    as (averages & Hav & _ & Hrate).
  assert (Hnone : compute_sector_averages (peer_records sample_parser [])
                  = Ok no_kpis).
  { apply sector_averages_nothing. apply List.Forall_nil. }
  rewrite Hnone in Hav. injection Hav as <-.
  pose proof (extract_kpis_ok sample_parser sample_info
                sample_info_convertible) as Hext.
  assert (Hrange : forall stock_kpis, within_exp_range stock_kpis no_kpis).
  { intros stock_kpis. apply no_comparison_in_range.
    exact no_kpis_no_comparison. }
  destruct (proj1 (Hrate _ Hext) (Hrange _)) as (res & Hres & Hr & _).
  eexists. exists res. split; [exact Hext |]. split; [exact Hnone |].
  split; [apply Hrange |]. split; [exact Hres | exact Hr].
Defined.

(** ** The blend weights *)

Lemma rating_finish_figures (aw rw : R) (st : rating_state) :
  overall_rating (rating_finish aw rw st)
  = py_round (1.0 + (aw * normalised_abs st + rw * normalised_rel st) * 9.0) 1 /\
  absolute_score (rating_finish aw rw st)
  = py_round (1.0 + normalised_abs st * 9.0) 1 /\
  relative_score (rating_finish aw rw st)
  = py_round (1.0 + normalised_rel st * 9.0) 1.
Proof.
  unfold rating_finish, normalised_abs, normalised_rel.
  case_decide; simpl; repeat split.
Qed.

Lemma normalised_same_totals (st1 st2 : rating_state) :
  same_totals st1 st2 ->
  normalised_abs st1 = normalised_abs st2 /\
  normalised_rel st1 = normalised_rel st2.
Proof.
  intros (Ha & Hr & Hw). unfold normalised_abs, normalised_rel.
  rewrite Ha, Hr, Hw. split; reflexivity.
Qed.

Lemma rating_step_weights (stock_kpis sector_averages : gmap string pyval)
    (aw rw aw' rw' : R) (st1 st2 : rating_state) (cfg : KPIConfig) :
  same_totals st1 st2 ->
  alike same_totals
    (rating_step stock_kpis sector_averages aw rw st1 cfg)
    (rating_step stock_kpis sector_averages aw' rw' st2 cfg).
Proof.
  intros (Ha & Hr & Hw). unfold rating_step.
  destruct (dict_get stock_kpis (key cfg)) as [| v | s].
  - repeat split; assumption.
  - destruct (_score_absolute v cfg) as [a | e]; [| reflexivity].
    rewrite !bind_ok.
    destruct (dict_get sector_averages (key cfg)) as [| avg | s].
    + rewrite !bind_ok. unfold alike, same_totals. simpl.
      rewrite Ha, Hr, Hw. repeat split.
    + destruct (_score_relative v (Some avg) cfg) as [r | e]; [| reflexivity].
      rewrite !bind_ok. unfold alike, same_totals. simpl.
      rewrite Ha, Hr, Hw. repeat split.
    + reflexivity.
  - reflexivity.
Qed.

Lemma rating_loop_weights (stock_kpis sector_averages : gmap string pyval)
    (aw rw aw' rw' : R) (l : list KPIConfig) (st1 st2 : rating_state) :
  same_totals st1 st2 ->
  alike same_totals
    (for_each (rating_step stock_kpis sector_averages aw rw) st1 l)
    (for_each (rating_step stock_kpis sector_averages aw' rw') st2 l).
Proof.
  revert st1 st2. induction l as [| cfg l IH]; intros st1 st2 Hsame.
  - exact Hsame.
  - simpl.
    pose proof (rating_step_weights stock_kpis sector_averages
                  aw rw aw' rw' st1 st2 cfg Hsame) as Hstep.
    destruct (rating_step stock_kpis sector_averages aw rw st1 cfg)
      as [st1' | e1];
      destruct (rating_step stock_kpis sector_averages aw' rw' st2 cfg)
      as [st2' | e2]; simpl in Hstep |- *; try contradiction.
    + apply IH. exact Hstep.
    + exact Hstep.
Qed.

(** X14: the blend weights enter the overall rating and the combined
    per-KPI scores only: for any two pairs of weights [calculate_rating]
    either returns the same absolute score and the same relative score, or
    raises the same exception. *)
Theorem blend_weights_scores (stock_kpis sector_averages : gmap string pyval)
    (aw rw aw' rw' : R) :
  alike same_scores
    (calculate_rating stock_kpis sector_averages aw rw)
    (calculate_rating stock_kpis sector_averages aw' rw').
Proof.
  unfold calculate_rating.
  pose proof (rating_loop_weights stock_kpis sector_averages aw rw aw' rw'
                KPI_CONFIGS rating_init rating_init) as Hloop.
  destruct (for_each (rating_step stock_kpis sector_averages aw rw)
              rating_init KPI_CONFIGS) as [st1 | e1];
    destruct (for_each (rating_step stock_kpis sector_averages aw' rw')
                rating_init KPI_CONFIGS) as [st2 | e2]; simpl in Hloop |- *.
  - assert (Hsame : same_totals st1 st2) by (apply Hloop; repeat split).
    destruct (normalised_same_totals st1 st2 Hsame) as [Hna Hnr].
    destruct (rating_finish_figures aw rw st1) as (_ & Ha1 & Hr1).
    destruct (rating_finish_figures aw' rw' st2) as (_ & Ha2 & Hr2).
    unfold same_scores. rewrite Ha1, Ha2, Hr1, Hr2, Hna, Hnr. split; reflexivity.
  - apply Hloop. repeat split.
  - apply Hloop. repeat split.
  - apply Hloop. repeat split.
Qed.

(** ** The absolute score and the sector *)

Lemma rating_loop_abs_totals (stock_kpis sector1 sector2 : gmap string pyval)
    (aw rw : R) (l : list KPIConfig) (st1 st2 st1' st2' : rating_state) :
  total_abs_weighted st1 = total_abs_weighted st2 ->
  total_weight_used st1 = total_weight_used st2 ->
  for_each (rating_step stock_kpis sector1 aw rw) st1 l = Ok st1' ->
  for_each (rating_step stock_kpis sector2 aw rw) st2 l = Ok st2' ->
  total_abs_weighted st1' = total_abs_weighted st2' /\
  total_weight_used st1' = total_weight_used st2'.
Proof.
  revert st1 st2. induction l as [| cfg l IH]; intros st1 st2 Ha Hw H1 H2.
  - injection H1 as <-. injection H2 as <-. split; assumption.
  - simpl in H1, H2.
    apply bind_ok_inv in H1 as (s1 & Hs1 & H1).
    apply bind_ok_inv in H2 as (s2 & Hs2 & H2).
    apply (IH s1 s2); [| | exact H1 | exact H2];
      apply rating_step_inv in Hs1, Hs2;
      destruct Hs1 as [[Hv1 ->] | (v1 & a1 & r1 & Hv1 & Ha1 & _ & _ & _ & ->)];
      destruct Hs2 as [[Hv2 ->] | (v2 & a2 & r2 & Hv2 & Ha2 & _ & _ & _ & ->)];
      simpl; try congruence;
      rewrite Hv1 in Hv2; injection Hv2 as <-;
      rewrite Ha1 in Ha2; injection Ha2 as <-; congruence.
Qed.

Lemma entry_for_absolute (stock_kpis sector1 sector2 : gmap string pyval)
    (aw rw : R) (cfg : KPIConfig) (e1 e2 : score_entry) :
  entry_for stock_kpis sector1 aw rw cfg e1 ->
  entry_for stock_kpis sector2 aw rw cfg e2 ->
  absolute e1 = absolute e2.
Proof.
  intros [[Hv1 ->] | (v1 & a1 & r1 & Hv1 & Ha1 & _ & ->)]
         [[Hv2 ->] | (v2 & a2 & r2 & Hv2 & Ha2 & _ & ->)];
    simpl; congruence.
Qed.

(** X15: the absolute side of a rating is decided by the stock alone: two
    ratings of the same stock against different sector aggregates have the
    same absolute score and, for every catalog KPI, the same absolute
    entry. *)
Theorem absolute_score_ignores_sector
    (stock_kpis sector1 sector2 : gmap string pyval) (aw rw : R)
    (res1 res2 : rating) :
  calculate_rating stock_kpis sector1 aw rw = Ok res1 ->
  calculate_rating stock_kpis sector2 aw rw = Ok res2 ->
  absolute_score res1 = absolute_score res2 /\
  (forall cfg, cfg ∈ KPI_CONFIGS ->
     absolute <$> (kpi_scores res1 !! key cfg)
     = absolute <$> (kpi_scores res2 !! key cfg)).
Proof.
  intros H1 H2. unfold calculate_rating in H1, H2.
  apply bind_ok_inv in H1 as (st1 & Hrun1 & Hfin1). injection Hfin1 as <-.
  apply bind_ok_inv in H2 as (st2 & Hrun2 & Hfin2). injection Hfin2 as <-.
  split.
  - destruct (rating_loop_abs_totals stock_kpis sector1 sector2 aw rw
                KPI_CONFIGS rating_init rating_init st1 st2
                eq_refl eq_refl Hrun1 Hrun2) as [Ha Hw].
    destruct (rating_finish_figures aw rw st1) as (_ & -> & _).
    destruct (rating_finish_figures aw rw st2) as (_ & -> & _).
    unfold normalised_abs. rewrite Ha, Hw. reflexivity.
  - intros cfg Hin. rewrite !rating_finish_scores.
    destruct (rating_loop_scores_entry stock_kpis sector1 aw rw rating_init
                st1 KPI_CONFIGS cfg Hrun1 catalog_keys_NoDup Hin)
      as (e1 & He1 & ->).
    destruct (rating_loop_scores_entry stock_kpis sector2 aw rw rating_init
                st2 KPI_CONFIGS cfg Hrun2 catalog_keys_NoDup Hin)
      as (e2 & He2 & ->).
    simpl. f_equal. apply (entry_for_absolute _ _ _ _ _ _ _ _ He1 He2).
Qed.

Lemma absolute_score_ignores_sector_witness :
  exists res1 res2,
    calculate_rating scenario_stock scenario_sector 0.40 0.60 = Ok res1 /\
    calculate_rating scenario_stock no_kpis 0.40 0.60 = Ok res2 /\
    absolute_score res1 = absolute_score res2.
Proof.
  destruct (calculate_rating_ok scenario_stock scenario_sector 0.40 0.60)
    as (res1 & H1).
  { apply catalog_typed_kpi_typed;
      [exact scenario_stock_catalog_typed | exact scenario_sector_catalog_typed]. }
  { exact scenario_in_range. }
  destruct (calculate_rating_ok scenario_stock no_kpis 0.40 0.60)
    as (res2 & H2).
  { apply catalog_typed_kpi_typed;
      [exact scenario_stock_catalog_typed | exact no_kpis_catalog_typed]. }
  { apply no_comparison_in_range. exact no_kpis_no_comparison. }
  exists res1, res2. split; [exact H1 |]. split; [exact H2 |].
  exact (proj1 (absolute_score_ignores_sector scenario_stock scenario_sector
                  no_kpis 0.40 0.60 res1 res2 H1 H2)).
Defined.

(** ** Rounding is monotone *)

Lemma round_half_even_le (x y : R) :
  x <= y -> (round_half_even x <= round_half_even y)%Z.
Proof.
  intros Hxy. pose proof (Zfloor_le x y Hxy) as Hf.
  pose proof (Zfloor_bound x) as [Hx1 Hx2].
  pose proof (Zfloor_bound y) as [Hy1 Hy2].
  destruct (Z.eq_dec (Zfloor x) (Zfloor y)) as [Heq | Hne].
  - unfold round_half_even. rewrite <- Heq.
    repeat case_decide; try lia; try lra; destruct (Z.even (Zfloor x)); lia.
  - assert (Hlt : (Zfloor x + 1 <= Zfloor y)%Z) by lia.
    assert (Hrx : (round_half_even x <= Zfloor x + 1)%Z).
    { unfold round_half_even.
      repeat case_decide; try lia; destruct (Z.even (Zfloor x)); lia. }
    assert (Hry : (Zfloor y <= round_half_even y)%Z).
    { unfold round_half_even.
      repeat case_decide; try lia; destruct (Z.even (Zfloor y)); lia. }
    lia.
Qed.

Lemma py_round_le (x y : R) (n : nat) :
  x <= y -> py_round x n <= py_round y n.
Proof.
  intros Hxy. unfold py_round. pose proof (pow10_pos n) as Hp.
  apply div_le_mono; [exact Hp |]. apply IZR_le. apply round_half_even_le.
  apply Rmult_le_compat_r; lra.
Qed.

(** ** Convex blend weights *)

Lemma normalised_unit (st : rating_state) :
  totals_bounded st ->
  0 <= normalised_abs st <= 1 /\ 0 <= normalised_rel st <= 1.
Proof.
  intros (Hw & Ha & Hr). unfold normalised_abs, normalised_rel.
  case_decide.
  - split; apply div_unit_interval; lra.
  - split; lra.
Qed.

Lemma relative_or_neutral_range (avg : pyval) (v r : R) (cfg : KPIConfig) :
  relative_or_neutral avg v cfg = Ok r -> 0 <= r <= 1.
Proof.
  unfold relative_or_neutral. destruct avg as [| a | s]; intros H.
  - injection H as <-. lra.
  - apply (score_relative_unit v (Some a) cfg). exact H.
  - discriminate.
Qed.

Lemma score_absolute_ok_range (v a : R) (cfg : KPIConfig) :
  _score_absolute v cfg = Ok a -> 0 <= a <= 1.
Proof.
  intros H. destruct (score_absolute_range v cfg) as (a' & Ha' & Hrange).
  rewrite Ha' in H. injection H as <-. exact Hrange.
Qed.

Lemma py_round_unit (x : R) : 0 <= x <= 1 -> 0 <= py_round x 3 <= 1.
Proof.
  intros Hx. pose proof (py_round_between 0 1000 x 3) as H.
  simpl in H. lra.
Qed.

Lemma entry_for_unit (stock_kpis sector_averages : gmap string pyval)
    (aw rw : R) (cfg : KPIConfig) (e : score_entry) :
  0 <= aw -> 0 <= rw -> aw + rw = 1 ->
  entry_for stock_kpis sector_averages aw rw cfg e -> entry_in_unit e.
Proof.
  intros Haw Hrw Hsum [[_ ->] | (v & a & r & _ & Ha & Hr & ->)] x.
  - simpl. intros [H | [H | H]]; discriminate.
  - apply score_absolute_ok_range in Ha.
    apply relative_or_neutral_range in Hr.
    simpl. intros [H | [H | H]]; injection H as <-; apply py_round_unit;
      try assumption.
    split; nra.
Qed.

Lemma rating_loop_scores_any (stock_kpis sector_averages : gmap string pyval)
    (aw rw : R) (l : list KPIConfig) (st st' : rating_state)
    (k : string) (e : score_entry) :
  for_each (rating_step stock_kpis sector_averages aw rw) st l = Ok st' ->
  scores st' !! k = Some e ->
  scores st !! k = Some e \/
  exists cfg, cfg ∈ l /\ entry_for stock_kpis sector_averages aw rw cfg e.
Proof.
  revert st. induction l as [| c l IH]; intros st Hrun Hlook.
  - injection Hrun as <-. left. exact Hlook.
  - simpl in Hrun. apply bind_ok_inv in Hrun as (st1 & H1 & Hrest).
    destruct (IH st1 Hrest Hlook) as [Hst1 | (cfg & Hin & He)].
    + apply rating_step_scores in H1 as (e1 & He1 & Hsc).
      rewrite Hsc in Hst1.
      destruct (decide (key c = k)) as [<- | Hne].
      * rewrite lookup_insert_eq in Hst1. injection Hst1 as <-.
        right. exists c. split; [apply elem_of_cons; left; reflexivity | exact He1].
      * rewrite lookup_insert_ne in Hst1 by exact Hne. left. exact Hst1.
    + right. exists cfg. split; [apply elem_of_cons; right; exact Hin | exact He].
Qed.

(** X16: for blend weights that are non-negative and sum to 1 every rating
    returned has its three figures in [1,10], its overall rating between
    its absolute and its relative score, and every per-KPI score in [0,1].
    When the catalog keys hold floats or [None] a rating is returned as
    long as every deviation is in the range of [math.exp]; otherwise
    [OverflowError] is raised. *)
Theorem convex_blend (stock_kpis sector_averages : gmap string pyval)
    (aw rw : R) :
  0 <= aw -> 0 <= rw -> aw + rw = 1 ->
  (forall res,
     calculate_rating stock_kpis sector_averages aw rw = Ok res ->
     rating_in_range res /\
     Rmin (absolute_score res) (relative_score res) <= overall_rating res
       <= Rmax (absolute_score res) (relative_score res) /\
     (forall k e, kpi_scores res !! k = Some e -> entry_in_unit e)) /\
  (catalog_typed stock_kpis -> catalog_typed sector_averages ->
   (within_exp_range stock_kpis sector_averages ->
    exists res, calculate_rating stock_kpis sector_averages aw rw = Ok res) /\
   (~ within_exp_range stock_kpis sector_averages ->
    calculate_rating stock_kpis sector_averages aw rw = Raise OverflowError)).
Proof.
  intros Haw Hrw Hsum. split.
  - intros res Hres.
    apply calculate_rating_bounded in Hres as (st & -> & Hb & Hrun).
    destruct (normalised_unit st Hb) as [Ha Hr].
    destruct (rating_finish_figures aw rw st) as (Ho & Habs & Hrel).
    set (A := normalised_abs st) in *. set (Rr := normalised_rel st) in *.
    assert (Hraw : 0 <= aw * A + rw * Rr <= 1) by (split; nra).
    split; [| split].
    + unfold rating_in_range. rewrite Ho, Habs, Hrel.
      repeat split; apply py_round_rating_range; assumption.
    + rewrite Ho, Habs, Hrel.
      destruct (Rle_dec A Rr) as [Hle | Hgt].
      * assert (H1 : py_round (1.0 + A * 9.0) 1 <= py_round (1.0 + Rr * 9.0) 1)
          by (apply py_round_le; lra).
        rewrite Rmin_left, Rmax_right by exact H1.
        split; apply py_round_le; nra.
      * assert (H1 : py_round (1.0 + Rr * 9.0) 1 <= py_round (1.0 + A * 9.0) 1)
          by (apply py_round_le; lra).
        rewrite Rmin_right, Rmax_left by exact H1.
        split; apply py_round_le; nra.
    + intros k e Hlook. rewrite rating_finish_scores in Hlook.
      destruct (rating_loop_scores_any _ _ _ _ _ _ _ k e Hrun Hlook)
        as [Hinit | (cfg & _ & He)].
      * simpl in Hinit. rewrite lookup_empty in Hinit. discriminate.
      * apply (entry_for_unit _ _ _ _ _ _ Haw Hrw Hsum He).
  - intros Hs Ht. apply calculate_rating_outcome; assumption.
Qed.

Lemma convex_blend_witness :
  0 <= 0.25 /\ 0 <= 0.75 /\ 0.25 + 0.75 = 1 /\
  within_exp_range scenario_stock scenario_sector /\
  exists res,
    calculate_rating scenario_stock scenario_sector 0.25 0.75 = Ok res /\
    rating_in_range res /\
    Rmin (absolute_score res) (relative_score res) <= overall_rating res
      <= Rmax (absolute_score res) (relative_score res).
Proof.
  assert (H1 : 0 <= 0.25) by lra. assert (H2 : 0 <= 0.75) by lra.
  assert (H3 : 0.25 + 0.75 = 1) by lra.
  split; [exact H1 |]. split; [exact H2 |]. split; [exact H3 |].
  split; [exact scenario_in_range |].
  destruct (convex_blend scenario_stock scenario_sector 0.25 0.75 H1 H2 H3)
    as [Hprop Hok].
  destruct (proj1 (Hok scenario_stock_catalog_typed
                     scenario_sector_catalog_typed) scenario_in_range)
    as (res & Hres).
  destruct (Hprop res Hres) as (Hr & Hb & _).
  exists res. split; [exact Hres |]. split; [exact Hr | exact Hb].
Defined.

(** ** Totals of equal scores *)

Section equal_scores.
Variables stock_kpis sector_averages : gmap string pyval.
Variables aw rw c : R.

Lemma rating_loop_rel_constant (l : list KPIConfig) (st st' : rating_state) :
  (forall cfg v r, cfg ∈ l ->
     dict_get stock_kpis (key cfg) = PyFloat v ->
     relative_or_neutral (dict_get sector_averages (key cfg)) v cfg = Ok r ->
     r = c) ->
  total_rel_weighted st = c * total_weight_used st ->
  for_each (rating_step stock_kpis sector_averages aw rw) st l = Ok st' ->
  total_rel_weighted st' = c * total_weight_used st'.
Proof.
  revert st. induction l as [| cfg l IH]; intros st Hc Hst Hrun.
  - injection Hrun as <-. exact Hst.
  - simpl in Hrun. apply bind_ok_inv in Hrun as (st1 & H1 & Hrest).
    apply (IH st1); [| | exact Hrest].
    + intros cfg' v r Hin. apply Hc. apply elem_of_cons. right. exact Hin.
    + apply rating_step_inv in H1.
      destruct H1 as [[_ ->] | (v & a & r & Hv & _ & _ & Hr & _ & ->)].
      * exact Hst.
      * simpl. rewrite (Hc cfg v r (list_elem_of_here _ _) Hv Hr). lra.
Qed.

Lemma rating_loop_abs_constant (l : list KPIConfig) (st st' : rating_state) :
  (forall cfg v a, cfg ∈ l ->
     dict_get stock_kpis (key cfg) = PyFloat v ->
     _score_absolute v cfg = Ok a -> a = c) ->
  total_abs_weighted st = c * total_weight_used st ->
  for_each (rating_step stock_kpis sector_averages aw rw) st l = Ok st' ->
  total_abs_weighted st' = c * total_weight_used st'.
Proof.
  revert st. induction l as [| cfg l IH]; intros st Hc Hst Hrun.
  - injection Hrun as <-. exact Hst.
  - simpl in Hrun. apply bind_ok_inv in Hrun as (st1 & H1 & Hrest).
    apply (IH st1); [| | exact Hrest].
    + intros cfg' v r Hin. apply Hc. apply elem_of_cons. right. exact Hin.
    + apply rating_step_inv in H1.
      destruct H1 as [[_ ->] | (v & a & r & Hv & Ha & _ & _ & _ & ->)].
      * exact Hst.
      * simpl. rewrite (Hc cfg v a (list_elem_of_here _ _) Hv Ha). lra.
Qed.

(** The weight used grows with every KPI that has a value. *)
Lemma rating_loop_weight_grows (l : list KPIConfig) (st st' : rating_state) :
  Forall (fun cfg => 0 < weight cfg) l ->
  for_each (rating_step stock_kpis sector_averages aw rw) st l = Ok st' ->
  total_weight_used st <= total_weight_used st' /\
  ((exists cfg, cfg ∈ l /\ dict_get stock_kpis (key cfg) <> PyNone) ->
   total_weight_used st < total_weight_used st').
Proof.
  intros Hw. revert st. induction Hw as [| cfg l Hc _ IH]; intros st Hrun.
  - injection Hrun as <-. split; [lra |].
    intros (cfg & Hin & _). inversion Hin.
  - simpl in Hrun. apply bind_ok_inv in Hrun as (st1 & H1 & Hrest).
    destruct (IH st1 Hrest) as [Hle Hlt].
    apply rating_step_inv in H1.
    destruct H1 as [[Hv ->] | (v & a & r & Hv & _ & _ & _ & _ & ->)];
      simpl in Hle, Hlt |- *.
    + split; [exact Hle |]. intros (cfg' & Hin & Hp).
      apply elem_of_cons in Hin as [-> | Hin]; [contradiction |].
      apply Hlt. exists cfg'. auto.
    + split; lra.
Qed.
End equal_scores.

Lemma normalised_rel_constant (st : rating_state) (c : R) :
  total_rel_weighted st = c * total_weight_used st ->
  0 < total_weight_used st -> normalised_rel st = c.
Proof.
  intros Hc Hw. unfold normalised_rel. case_decide; [| lra].
  rewrite Hc. field. lra.
Qed.

Lemma normalised_abs_constant (st : rating_state) (c : R) :
  total_abs_weighted st = c * total_weight_used st ->
  0 < total_weight_used st -> normalised_abs st = c.
Proof.
  intros Hc Hw. unfold normalised_abs. case_decide; [| lra].
  rewrite Hc. field. lra.
Qed.

Lemma calculate_rating_loop (stock_kpis sector_averages : gmap string pyval)
    (aw rw : R) (res : rating) :
  calculate_rating stock_kpis sector_averages aw rw = Ok res ->
  exists st,
    for_each (rating_step stock_kpis sector_averages aw rw)
      rating_init KPI_CONFIGS = Ok st /\
    res = rating_finish aw rw st.
Proof.
  intros Hres. unfold calculate_rating in Hres.
  apply bind_ok_inv in Hres as (st & Hrun & Hfin). injection Hfin as <-.
  exists st. split; [exact Hrun | reflexivity].
Qed.

Lemma weight_used_positive (stock_kpis sector_averages : gmap string pyval)
    (aw rw : R) (st : rating_state) :
  for_each (rating_step stock_kpis sector_averages aw rw)
    rating_init KPI_CONFIGS = Ok st ->
  some_kpi_present stock_kpis ->
  0 < total_weight_used st.
Proof.
  intros Hrun Hsome.
  destruct (rating_loop_weight_grows stock_kpis sector_averages aw rw
              KPI_CONFIGS rating_init st catalog_weights_pos Hrun) as [_ Hlt].
  specialize (Hlt Hsome). simpl in Hlt. lra.
Qed.

(** ** A sector without comparison *)

Lemma py_round_five_and_a_half : py_round (1.0 + 0.5 * 9.0) 1 = 5.5.
Proof. rewrite (py_round_near 55); simpl; lra. Qed.

Lemma no_comparison_typed (sector_averages : gmap string pyval) :
  no_comparison sector_averages -> catalog_typed sector_averages.
Proof.
  unfold no_comparison, catalog_typed. intros H.
  eapply Forall_impl; [exact H |].
  intros cfg [-> | ->]; exact I.
Qed.

(** X17: against a sector aggregate that offers no comparison (every
    average absent or exactly zero, as for a sector without peers) a stock
    with at least one KPI gets the relative score 5.5, the middle of the
    scale, and every rating is returned. *)
Theorem neutral_sector (stock_kpis sector_averages : gmap string pyval)
    (aw rw : R) :
  no_comparison sector_averages ->
  (forall res,
     calculate_rating stock_kpis sector_averages aw rw = Ok res ->
     some_kpi_present stock_kpis ->
     relative_score res = 5.5) /\
  (catalog_typed stock_kpis ->
   exists res, calculate_rating stock_kpis sector_averages aw rw = Ok res).
Proof.
  intros Hno. split.
  - intros res Hres Hsome.
    apply calculate_rating_loop in Hres as (st & Hrun & ->).
    destruct (rating_finish_figures aw rw st) as (_ & _ & ->).
    rewrite (normalised_rel_constant st 0.5).
    + apply py_round_five_and_a_half.
    + apply (rating_loop_rel_constant stock_kpis sector_averages aw rw 0.5
               KPI_CONFIGS rating_init st); [| simpl; lra | exact Hrun].
      intros cfg v r Hin _ Hr.
      unfold no_comparison in Hno. rewrite List.Forall_forall in Hno.
      apply list_elem_of_In in Hin.
      destruct (Hno cfg Hin) as [Hn | Hz]; rewrite ?Hn, ?Hz in Hr;
        unfold relative_or_neutral, _score_relative in Hr.
      * injection Hr as <-. reflexivity.
      * case_decide; [| contradiction]. injection Hr as <-. reflexivity.
    + apply (weight_used_positive _ _ _ _ _ Hrun Hsome).
  - intros Hs. apply calculate_rating_ok.
    + apply catalog_typed_kpi_typed;
        [exact Hs | apply no_comparison_typed; exact Hno].
    + apply no_comparison_in_range. exact Hno.
Qed.

Lemma scenario_stock_some_present : some_kpi_present scenario_stock.
Proof.
  exists trailingPE_cfg. split.
  - apply list_elem_of_lookup. exists 0%nat. reflexivity.
  - discriminate.
Qed.

Lemma neutral_sector_witness :
  no_comparison no_kpis /\ some_kpi_present scenario_stock /\
  exists res,
    calculate_rating scenario_stock no_kpis 0.40 0.60 = Ok res /\
    relative_score res = 5.5.
Proof.
  assert (Hno : no_comparison no_kpis).
  { unfold no_comparison. over_catalog ltac:(left; reflexivity). }
  split; [exact Hno |]. split; [exact scenario_stock_some_present |].
  destruct (neutral_sector scenario_stock no_kpis 0.40 0.60 Hno) as [Hp Hok].
  destruct (Hok scenario_stock_catalog_typed) as (res & Hres).
  exists res. split; [exact Hres |].
  exact (Hp res Hres scenario_stock_some_present).
Defined.

(** ** The two ends of the absolute scale *)

Lemma score_absolute_beyond_best (v : R) (cfg : KPIConfig) :
  beyond_best v cfg -> _score_absolute v cfg = Ok 1.
Proof.
  unfold beyond_best. intros H. rewrite score_absolute_cases.
  destruct (lower_is_better cfg); case_decide; try reflexivity; lra.
Qed.

Lemma score_absolute_beyond_worst (v : R) (cfg : KPIConfig) :
  oriented cfg -> beyond_worst v cfg -> _score_absolute v cfg = Ok 0.
Proof.
  unfold oriented, beyond_worst. intros Ho H. rewrite score_absolute_cases.
  destruct (lower_is_better cfg); repeat case_decide; try reflexivity; lra.
Qed.

Lemma py_round_ten : py_round (1.0 + 1 * 9.0) 1 = 10.
Proof. rewrite (py_round_near 100); simpl; lra. Qed.

(** X18: a stock with at least one KPI whose every reported KPI is at or
    beyond its [abs_best] has the absolute score 10.0, and one whose every
    reported KPI is at or beyond its [abs_worst] has the absolute score
    1.0, whatever the sector and the blend weights. *)
Theorem absolute_scale_ends (stock_kpis sector_averages : gmap string pyval)
    (aw rw : R) (res : rating) :
  calculate_rating stock_kpis sector_averages aw rw = Ok res ->
  some_kpi_present stock_kpis ->
  ((forall cfg v, cfg ∈ KPI_CONFIGS ->
      dict_get stock_kpis (key cfg) = PyFloat v -> beyond_best v cfg) ->
   absolute_score res = 10) /\
  ((forall cfg v, cfg ∈ KPI_CONFIGS ->
      dict_get stock_kpis (key cfg) = PyFloat v -> beyond_worst v cfg) ->
   absolute_score res = 1).
Proof.
  intros Hres Hsome.
  apply calculate_rating_loop in Hres as (st & Hrun & ->).
  destruct (rating_finish_figures aw rw st) as (_ & -> & _).
  pose proof (weight_used_positive _ _ _ _ _ Hrun Hsome) as Hpos.
  split; intros Hall.
  - rewrite (normalised_abs_constant st 1); [apply py_round_ten | | exact Hpos].
    apply (rating_loop_abs_constant stock_kpis sector_averages aw rw 1
             KPI_CONFIGS rating_init st); [| simpl; lra | exact Hrun].
    intros cfg v a Hin Hv Ha.
    rewrite (score_absolute_beyond_best v cfg (Hall cfg v Hin Hv)) in Ha.
    injection Ha as <-. reflexivity.
  - rewrite (normalised_abs_constant st 0); [apply py_round_one | | exact Hpos].
    apply (rating_loop_abs_constant stock_kpis sector_averages aw rw 0
             KPI_CONFIGS rating_init st); [| simpl; lra | exact Hrun].
    intros cfg v a Hin Hv Ha.
    assert (Ho : oriented cfg).
    { pose proof catalog_oriented as Hcat. rewrite List.Forall_forall in Hcat.
      apply Hcat. apply list_elem_of_In. exact Hin. }
    rewrite (score_absolute_beyond_worst v cfg Ho (Hall cfg v Hin Hv)) in Ha.
    injection Ha as <-. reflexivity.
Qed.

Lemma best_stock_lookup (cfg : KPIConfig) (v : R) :
  cfg ∈ KPI_CONFIGS ->
  dict_get best_stock (key cfg) = PyFloat v -> beyond_best v cfg.
Proof.
  intros Hin. apply list_elem_of_In in Hin. revert cfg Hin v.
  apply (proj1 (List.Forall_forall
    (fun c => forall v, dict_get best_stock (key c) = PyFloat v ->
                        beyond_best v c) KPI_CONFIGS)).
  over_catalog ltac:(intros v Hv; vm_compute in Hv; injection Hv as <-;
                     unfold beyond_best; simpl; lra).
Qed.

Lemma best_stock_typed : catalog_typed best_stock.
Proof. unfold catalog_typed. over_catalog ltac:(vm_compute; exact I). Qed.

Lemma best_stock_in_range : within_exp_range best_stock scenario_sector.
Proof.
  unfold within_exp_range.
  over_catalog ltac:(first
    [ apply kpi_in_range_no_average; reflexivity
    | apply (kpi_in_range_at _ _ _ 5.0 20.0);
        [reflexivity | reflexivity | exp_range]
    | apply (kpi_in_range_at _ _ _ 0.40 0.15);
        [reflexivity | reflexivity | exp_range] ]).
Qed.

Lemma absolute_scale_ends_witness :
  some_kpi_present best_stock /\
  (forall cfg v, cfg ∈ KPI_CONFIGS ->
     dict_get best_stock (key cfg) = PyFloat v -> beyond_best v cfg) /\
  exists res,
    calculate_rating best_stock scenario_sector 0.40 0.60 = Ok res /\
    absolute_score res = 10.
Proof.
  assert (Hsome : some_kpi_present best_stock).
  { exists trailingPE_cfg. split.
    - apply list_elem_of_lookup. exists 0%nat. reflexivity.
    - discriminate. }
  split; [exact Hsome |]. split; [exact best_stock_lookup |].
  destruct (calculate_rating_ok best_stock scenario_sector 0.40 0.60)
    as (res & Hres).
  { apply catalog_typed_kpi_typed;
      [exact best_stock_typed | exact scenario_sector_catalog_typed]. }
  { exact best_stock_in_range. }
  exists res. split; [exact Hres |].
  exact (proj1 (absolute_scale_ends best_stock scenario_sector 0.40 0.60 res
                  Hres Hsome) best_stock_lookup).
Defined.

(** ** The weights of the catalog *)

Lemma catalog_total_weight : total_weight KPI_CONFIGS = 1.
Proof. unfold total_weight. simpl. lra. Qed.

Lemma rating_loop_full_weight (stock_kpis sector_averages : gmap string pyval)
    (aw rw : R) (l : list KPIConfig) (st st' : rating_state) :
  Forall (fun cfg => dict_get stock_kpis (key cfg) <> PyNone) l ->
  for_each (rating_step stock_kpis sector_averages aw rw) st l = Ok st' ->
  total_weight_used st' = total_weight_used st + total_weight l.
Proof.
  intros Hall. revert st. induction Hall as [| cfg l Hc _ IH]; intros st Hrun.
  - injection Hrun as <-. simpl. lra.
  - simpl in Hrun. apply bind_ok_inv in Hrun as (st1 & H1 & Hrest).
    rewrite (IH st1 Hrest).
    apply rating_step_inv in H1.
    destruct H1 as [[Hv _] | (v & a & r & _ & _ & _ & _ & _ & ->)];
      [contradiction |].
    simpl. lra.
Qed.

(** X19: the weights of the catalog sum to 1, so for a stock with a value
    for every catalog KPI the weight used is 1 and the renormalisation
    changes nothing: the absolute and relative scores are the rounded
    weighted sums themselves. *)
Theorem full_data_no_renormalisation
    (stock_kpis sector_averages : gmap string pyval) (aw rw : R)
    (res : rating) :
  Forall (fun cfg => dict_get stock_kpis (key cfg) <> PyNone) KPI_CONFIGS ->
  calculate_rating stock_kpis sector_averages aw rw = Ok res ->
  total_weight KPI_CONFIGS = 1 /\
  exists st,
    for_each (rating_step stock_kpis sector_averages aw rw)
      rating_init KPI_CONFIGS = Ok st /\
    total_weight_used st = 1 /\
    absolute_score res = py_round (1 + total_abs_weighted st * 9) 1 /\
    relative_score res = py_round (1 + total_rel_weighted st * 9) 1.
Proof.
  intros Hall Hres. split; [exact catalog_total_weight |].
  apply calculate_rating_loop in Hres as (st & Hrun & ->).
  exists st. split; [exact Hrun |].
  assert (Hw : total_weight_used st = 1).
  { rewrite (rating_loop_full_weight _ _ _ _ _ _ _ Hall Hrun).
    rewrite catalog_total_weight. simpl. lra. }
  split; [exact Hw |].
  destruct (rating_finish_figures aw rw st) as (_ & -> & ->).
  unfold normalised_abs, normalised_rel. rewrite Hw.
  case_decide; [| lra]. split; f_equal; lra.
Qed.

Lemma best_stock_full :
  Forall (fun cfg => dict_get best_stock (key cfg) <> PyNone) KPI_CONFIGS.
Proof. over_catalog ltac:(vm_compute; discriminate). Qed.

Lemma full_data_no_renormalisation_witness :
  Forall (fun cfg => dict_get best_stock (key cfg) <> PyNone) KPI_CONFIGS /\
  exists res st,
    calculate_rating best_stock scenario_sector 0.40 0.60 = Ok res /\
    for_each (rating_step best_stock scenario_sector 0.40 0.60)
      rating_init KPI_CONFIGS = Ok st /\
    total_weight_used st = 1.
Proof.
  split; [exact best_stock_full |].
  destruct (calculate_rating_ok best_stock scenario_sector 0.40 0.60)
    as (res & Hres).
  { apply catalog_typed_kpi_typed;
      [exact best_stock_typed | exact scenario_sector_catalog_typed]. }
  { exact best_stock_in_range. }
  destruct (full_data_no_renormalisation best_stock scenario_sector 0.40 0.60
              res best_stock_full Hres) as (_ & st & Hrun & Hw & _).
  exists res, st. split; [exact Hres |]. split; [exact Hrun | exact Hw].
Defined.

(** * The data layer *)

(** ** Looking a configuration up by its key *)

Lemma find_config_catalog (cfg : KPIConfig) :
  cfg ∈ KPI_CONFIGS -> find_config (key cfg) = Some cfg.
Proof.
  intros Hin. apply list_elem_of_In in Hin. revert cfg Hin.
  apply (proj1 (List.Forall_forall
    (fun c => find_config (key c) = Some c) KPI_CONFIGS)).
  over_catalog ltac:(reflexivity).
Qed.

Lemma find_config_key (k : string) (cfg : KPIConfig) :
  find_config k = Some cfg -> cfg ∈ KPI_CONFIGS /\ key cfg = k.
Proof.
  unfold find_config. intros H. apply List.find_some in H as [Hin Heq].
  split; [apply list_elem_of_In; exact Hin |].
  apply String.eqb_eq. exact Heq.
Qed.

Lemma find_config_none (k : string) :
  find_config k = None <-> k ∉ get_kpi_keys.
Proof.
  split.
  - intros Hnone Hin. unfold get_kpi_keys in Hin.
    apply list_elem_of_In in Hin. apply List.in_map_iff in Hin as (cfg & <- & Hin).
    apply list_elem_of_In in Hin.
    rewrite (find_config_catalog cfg Hin) in Hnone. discriminate.
  - intros Hnot. destruct (find_config k) as [cfg |] eqn:Hf; [| reflexivity].
    apply find_config_key in Hf as [Hin <-]. exfalso. apply Hnot.
    unfold get_kpi_keys. apply list_elem_of_In. apply List.in_map.
    apply list_elem_of_In. exact Hin.
Qed.

(** X20: looking a catalog entry up by its key finds that very entry, and
    a key outside the catalog finds none; so [format_kpi_value] prints a
    catalog KPI with the decimals and the percent sign of its own entry,
    prints N/A for [None], and fails only on a string under a catalog
    key. *)
Theorem format_kpi_value_catalog (py : pylib) (k : string) (value : pyval) :
  (forall cfg, cfg ∈ KPI_CONFIGS -> find_config (key cfg) = Some cfg) /\
  (find_config k = None <-> k ∉ get_kpi_keys) /\
  (forall cfg v, cfg ∈ KPI_CONFIGS ->
     format_kpi_value py (key cfg) (PyFloat v) =
       Done (if format_as_pct cfg
             then fixed py (v * 100) (format_decimals cfg) +:+ "%"
             else fixed py v (format_decimals cfg))) /\
  (float_or_none value -> exists s, format_kpi_value py k value = Done s).
Proof.
  split; [exact find_config_catalog |]. split; [apply find_config_none |].
  split.
  - intros cfg v Hin. unfold format_kpi_value.
    rewrite (find_config_catalog cfg Hin).
    destruct (format_as_pct cfg); reflexivity.
  - intros Ht. unfold format_kpi_value.
    destruct value as [| v | s]; [eexists; reflexivity | | destruct Ht].
    destruct (find_config k) as [cfg |]; [| eexists; reflexivity].
    destruct (format_as_pct cfg); eexists; reflexivity.
Qed.

Lemma format_kpi_value_catalog_witness :
  trailingPE_cfg ∈ KPI_CONFIGS /\
  format_kpi_value sample_pylib "trailingPE" (PyFloat 10) = Done "0.00".
Proof.
  assert (Hin : trailingPE_cfg ∈ KPI_CONFIGS).
  { apply list_elem_of_lookup. exists 0%nat. reflexivity. }
  split; [exact Hin |].
  exact (proj1 (proj2 (proj2 (format_kpi_value_catalog sample_pylib "" PyNone)))
           trailingPE_cfg 10 Hin).
Defined.

Lemma bind_done {A B : Type} (a : A) (f : A -> outcome B) :
  Done a ≫= f = f a.
Proof. reflexivity. Qed.

Lemma bind_done_inv {A B : Type} (m : outcome A) (f : A -> outcome B) (b : B) :
  m ≫= f = Done b -> exists a, m = Done a /\ f a = Done b.
Proof. destruct m as [a | e]; [| discriminate]. intros H. exists a. auto. Qed.

(** ** Fetching the peers of a sector *)

Section fetching.
Variable py : pylib.
Variable yf_info : string -> option (gmap string rawval).

Lemma fetch_step_peer_of (cache_key : string)
    (all_kpis : list (gmap string pyval)) (ticker : string) :
  fetch_step py yf_info cache_key all_kpis ticker =
    all_kpis ++ option_list (peer_of py yf_info cache_key ticker).
Proof.
  unfold fetch_step, peer_of. destruct (yf_info ticker) as [info |];
    [| rewrite app_nil_r; reflexivity].
  destruct (sector_matches py info cache_key) as [[|] |]; simpl;
    rewrite ?app_nil_r; try reflexivity.
  unfold peer_record. simpl.
  destruct (extract_kpis (parse_float py) info); simpl;
    rewrite ?app_nil_r; reflexivity.
Qed.

Lemma fetch_loop_omap (cache_key : string) (tickers : list string)
    (all_kpis : list (gmap string pyval)) :
  foldl (fetch_step py yf_info cache_key) all_kpis tickers =
    all_kpis ++ omap (peer_of py yf_info cache_key) tickers.
Proof.
  revert all_kpis. induction tickers as [| t tickers IH]; intros all_kpis.
  - simpl. rewrite app_nil_r. reflexivity.
  - simpl foldl. rewrite IH, fetch_step_peer_of, <- app_assoc. f_equal.
    simpl. destruct (peer_of py yf_info cache_key t); reflexivity.
Qed.

Lemma peer_of_tagged (cache_key ticker : string) (k : gmap string pyval) :
  peer_of py yf_info cache_key ticker = Some k ->
  tagged k /\ ticker_of k = ticker.
Proof.
  unfold peer_of. destruct (yf_info ticker) as [info |]; [| discriminate].
  destruct (sector_matches py info cache_key) as [[|] |]; try discriminate.
  intros H. split; [split |].
  - apply (peer_record_typed (parse_float py) (info, ticker)). exact H.
  - unfold peer_record in H.
    destruct (extract_kpis (parse_float py) (info, ticker).1); [| discriminate].
    injection H as <-. exists ticker. apply lookup_insert_eq.
  - unfold peer_record in H.
    destruct (extract_kpis (parse_float py) (info, ticker).1); [| discriminate].
    injection H as <-.
    unfold ticker_of, add_ticker. rewrite lookup_insert_eq. reflexivity.
Qed.

(** The tickers for which the loop appends a record. *)
Lemma peer_of_is_Some (cache_key ticker : string) :
  is_Some (peer_of py yf_info cache_key ticker) <->
  exists info, yf_info ticker = Some info /\
               sector_matches py info cache_key = Some true /\
               convertible info.
Proof.
  unfold peer_of, peer_record. split.
  - intros [k Hk]. destruct (yf_info ticker) as [info |]; [| discriminate].
    exists info. split; [reflexivity |].
    destruct (sector_matches py info cache_key) as [[|] |]; try discriminate.
    split; [reflexivity |]. simpl in Hk.
    destruct (extract_kpis (parse_float py) info) as [kpis | e] eqn:He;
      [| discriminate].
    apply (extract_kpis_inv _ _ _ He).
  - intros (info & -> & -> & Hc). simpl.
    rewrite (extract_kpis_ok _ _ Hc). eexists; reflexivity.
Qed.

Lemma fetch_sector_tagged (tickers : list string) (cache_key : string) :
  Forall tagged (fetch_sector py tickers yf_info cache_key).
Proof.
  unfold fetch_sector. rewrite fetch_loop_omap. simpl.
  apply Forall_forall. intros k Hk.
  apply list_elem_of_omap in Hk as (t & _ & Hk).
  apply (peer_of_tagged cache_key t k Hk).
Qed.
End fetching.

Lemma omap_length_le {A B : Type} (f : A -> option B) (l : list A) :
  (length (omap f l) <= length l)%nat.
Proof.
  induction l as [| x l IH]; [reflexivity |].
  change (omap f (x :: l))
    with (match f x with Some y => y :: omap f l | None => omap f l end).
  destruct (f x); simpl; lia.
Qed.

(** X21: the fetch loop returns, in the order of [SP500_TICKERS], one
    record for every ticker whose provider record is non-empty, names the
    sector and can be extracted, and nothing else: a ticker for which the
    provider raises, whose sector is not a string, or whose record holds an
    integer too large for a float under a catalog key, is skipped without
    disturbing the others.  Every record has floats or [None] under the
    catalog keys and carries its ticker. *)
Theorem fetch_sector_records (py : pylib) (SP500_TICKERS : list string)
    (yf_info : string -> option (gmap string rawval)) (cache_key : string) :
  fetch_sector py SP500_TICKERS yf_info cache_key =
    omap (peer_of py yf_info cache_key) SP500_TICKERS /\
  (forall ticker,
     is_Some (peer_of py yf_info cache_key ticker) <->
     exists info, yf_info ticker = Some info /\
                  sector_matches py info cache_key = Some true /\
                  convertible info) /\
  Forall tagged (fetch_sector py SP500_TICKERS yf_info cache_key) /\
  ticker_of <$> fetch_sector py SP500_TICKERS yf_info cache_key =
    List.filter (fun t => bool_decide (is_Some (peer_of py yf_info cache_key t)))
                SP500_TICKERS /\
  (length (fetch_sector py SP500_TICKERS yf_info cache_key)
   <= length SP500_TICKERS)%nat.
Proof.
  assert (Heq : fetch_sector py SP500_TICKERS yf_info cache_key =
                omap (peer_of py yf_info cache_key) SP500_TICKERS).
  { unfold fetch_sector. rewrite fetch_loop_omap. reflexivity. }
  split; [exact Heq |]. split; [apply peer_of_is_Some |].
  split; [apply fetch_sector_tagged |]. rewrite Heq.
  split.
  - induction SP500_TICKERS as [| t l IH]; [reflexivity |].
    simpl. destruct (peer_of py yf_info cache_key t) as [k |] eqn:Hk.
    + rewrite bool_decide_eq_true_2 by (eexists; reflexivity).
      rewrite fmap_cons. rewrite (proj2 (peer_of_tagged py yf_info _ _ _ Hk)).
      f_equal. apply IH.
      unfold fetch_sector. rewrite fetch_loop_omap. reflexivity.
    + rewrite bool_decide_eq_false_2 by (intros [? ?]; discriminate).
      apply IH. unfold fetch_sector. rewrite fetch_loop_omap. reflexivity.
  - apply omap_length_le.
Qed.

(** ** Excluding a ticker *)

Section exclusion.
Variable py : pylib.

Lemma peer_ticker_upper_tagged (k : gmap string pyval) :
  tagged k -> peer_ticker_upper py k = Done (upper py (ticker_of k)).
Proof.
  intros [_ (s & Hs)]. unfold peer_ticker_upper, ticker_of. rewrite Hs.
  reflexivity.
Qed.

Lemma without_ticker_tagged (kpis : list (gmap string pyval))
    (excluded : string) :
  Forall tagged kpis ->
  without_ticker py kpis excluded =
    Done (List.filter (other_than py excluded) kpis).
Proof.
  induction 1 as [| k kpis Hk _ IH]; [reflexivity |].
  simpl. rewrite (peer_ticker_upper_tagged k Hk), bind_done, IH, bind_done.
  assert (Ho : other_than py excluded k
               = negb (String.eqb (upper py (ticker_of k)) excluded))
    by reflexivity.
  rewrite Ho.
  destruct (String.eqb (upper py (ticker_of k)) excluded); reflexivity.
Qed.

Lemma excluding_tagged (kpis : list (gmap string pyval))
    (exclude_ticker : string) :
  Forall tagged kpis ->
  exists l, excluding py kpis exclude_ticker = Done l /\
            Forall tagged l /\ l ⊆ kpis.
Proof.
  intros Ht. unfold excluding.
  destruct (String.eqb exclude_ticker ""); [exists kpis; auto |].
  rewrite (without_ticker_tagged kpis _ Ht). eexists. split; [reflexivity |].
  split.
  - apply Forall_forall. intros k Hk. rewrite Forall_forall in Ht.
    apply Ht. apply list_elem_of_In in Hk. apply List.filter_In in Hk as [Hk _].
    apply list_elem_of_In. exact Hk.
  - intros k Hk. apply list_elem_of_In in Hk.
    apply List.filter_In in Hk as [Hk _]. apply list_elem_of_In. exact Hk.
Qed.
End exclusion.

(** X22: on peer records that carry their ticker, excluding a non-empty
    ticker keeps, in order, exactly the records whose ticker differs from
    it in upper case; the empty ticker, the default, excludes nothing. *)
Theorem excluding_spec (py : pylib) (kpis : list (gmap string pyval))
    (ticker : string) :
  Forall tagged kpis ->
  excluding py kpis "" = Done kpis /\
  (ticker <> "" ->
   exists l,
     excluding py kpis ticker = Done l /\
     l = List.filter (other_than py (upper py ticker)) kpis /\
     (forall k, k ∈ l <->
                k ∈ kpis /\ upper py (ticker_of k) <> upper py ticker)).
Proof.
  intros Ht. split; [reflexivity |].
  intros Hne. unfold excluding.
  assert (Heqb : String.eqb ticker "" = false)
    by (apply String.eqb_neq; exact Hne).
  rewrite Heqb, (without_ticker_tagged py kpis _ Ht).
  eexists. split; [reflexivity |]. split; [reflexivity |].
  intros k. rewrite !list_elem_of_In, List.filter_In.
  unfold other_than. rewrite negb_true_iff, String.eqb_neq. reflexivity.
Qed.

Lemma excluding_spec_witness :
  Forall tagged three_peers /\ "BBB" <> "" /\
  exists l, excluding sample_pylib three_peers "BBB" = Done l /\
            forall k, k ∈ l -> ticker_of k <> "BBB".
Proof.
  assert (Ht : Forall tagged three_peers).
  { pose proof three_peers_typed as Hty. unfold three_peers in *.
    inversion Hty as [| ? ? Ha Hty']; subst.
    inversion Hty' as [| ? ? Hb Hty'']; subst.
    inversion Hty'' as [| ? ? Hc _]; subst.
    repeat apply List.Forall_cons; try apply List.Forall_nil;
      (split; [assumption | eexists; reflexivity]). }
  assert (Hne : "BBB" <> "") by discriminate.
  split; [exact Ht |]. split; [exact Hne |].
  destruct (proj2 (excluding_spec sample_pylib three_peers "BBB" Ht) Hne)
    as (l & Hl & _ & Hmem).
  exists l. split; [exact Hl |]. intros k Hk. apply (Hmem k). exact Hk.
Defined.

(** ** The sector cache *)

Section caching.
Variable py : pylib.
Variable SP500_TICKERS : list string.
Variable yf_info : string -> option (gmap string rawval).

Lemma get_sector_peers_kpis_stale (cache : gmap string cache_entry) (now : R)
    (sector : string) (exclude_ticker : string) :
  stale cache (strip py (lower py sector)) now ->
  get_sector_peers_kpis py SP500_TICKERS yf_info cache now sector
    exclude_ticker =
    (<[strip py (lower py sector) :=
         mkCacheEntry
           (fetch_sector py SP500_TICKERS yf_info (strip py (lower py sector)))
           now]> cache,
     excluding py
       (fetch_sector py SP500_TICKERS yf_info (strip py (lower py sector)))
       exclude_ticker).
Proof.
  unfold stale, get_sector_peers_kpis.
  destruct (cache !! strip py (lower py sector)) as [cached |];
    [| reflexivity].
  intros Hstale. case_decide; [contradiction | reflexivity].
Qed.

Lemma get_sector_peers_kpis_fresh (cache : gmap string cache_entry) (now : R)
    (sector : string) (exclude_ticker : string) (cached : cache_entry) :
  cache !! strip py (lower py sector) = Some cached ->
  now - cached_timestamp cached < CACHE_TTL_SECONDS ->
  get_sector_peers_kpis py SP500_TICKERS yf_info cache now sector
    exclude_ticker =
    (cache, excluding py (cached_kpis cached) exclude_ticker).
Proof.
  intros Hc Hfresh. unfold get_sector_peers_kpis. rewrite Hc.
  case_decide; [reflexivity | contradiction].
Qed.

Lemma stale_or_fresh (cache : gmap string cache_entry) (cache_key : string)
    (now : R) :
  stale cache cache_key now \/
  exists cached, cache !! cache_key = Some cached /\
                 now - cached_timestamp cached < CACHE_TTL_SECONDS.
Proof.
  unfold stale. destruct (cache !! cache_key) as [cached |]; [| left; exact I].
  destruct (decide (now - cached_timestamp cached < CACHE_TTL_SECONDS));
    [right; exists cached; auto | left; assumption].
Qed.
End caching.

(** X23: after any call of [get_sector_peers_kpis] the cache holds an
    entry for the sector that is younger than the time to live, the call
    has returned that entry's peers with the exclusion applied, and no
    other entry of the cache has changed; a call that finds an entry
    younger than the time to live does not change the cache at all. *)
Theorem cache_after_call (py : pylib) (SP500_TICKERS : list string)
    (yf_info : string -> option (gmap string rawval))
    (cache : gmap string cache_entry) (now : R) (sector : string)
    (exclude_ticker : string) :
  let cache_key := strip py (lower py sector) in
  let call := get_sector_peers_kpis py SP500_TICKERS yf_info cache now sector
                exclude_ticker in
  (exists cached,
     call.1 !! cache_key = Some cached /\
     now - cached_timestamp cached < CACHE_TTL_SECONDS /\
     call.2 = excluding py (cached_kpis cached) exclude_ticker) /\
  (forall k, k <> cache_key -> call.1 !! k = cache !! k) /\
  (forall cached,
     cache !! cache_key = Some cached ->
     now - cached_timestamp cached < CACHE_TTL_SECONDS ->
     call.1 = cache).
Proof.
  intros cache_key call. subst call.
  destruct (stale_or_fresh cache cache_key now)
    as [Hstale | (cached & Hc & Hfresh)].
  - rewrite (get_sector_peers_kpis_stale py SP500_TICKERS yf_info cache now
               sector exclude_ticker Hstale).
    fold cache_key. simpl. split; [| split].
    + eexists. split; [apply lookup_insert_eq |]. simpl.
      split; [unfold CACHE_TTL_SECONDS; lra | reflexivity].
    + intros k Hk. apply lookup_insert_ne. congruence.
    + intros cached Hc Hfresh. unfold stale in Hstale. rewrite Hc in Hstale.
      contradiction.
  - rewrite (get_sector_peers_kpis_fresh py SP500_TICKERS yf_info cache now
               sector exclude_ticker cached Hc Hfresh).
    simpl. split; [| split].
    + exists cached. auto.
    + reflexivity.
    + reflexivity.
Qed.

Lemma cache_after_call_witness :
  sample_cache !! "Technology" = Some (mkCacheEntry three_peers 1000) /\
  1500 - 1000 < CACHE_TTL_SECONDS /\
  (get_sector_peers_kpis sample_pylib ["AAA"; "BBB"] sample_provider
     sample_cache 1500 "Technology" "").1 = sample_cache.
Proof.
  assert (Hc : sample_cache !! "Technology"
               = Some (mkCacheEntry three_peers 1000))
    by apply lookup_singleton_eq.
  assert (Hfresh : 1500 - 1000 < CACHE_TTL_SECONDS)
    by (unfold CACHE_TTL_SECONDS; lra).
  split; [exact Hc |]. split; [exact Hfresh |].
  exact (proj2 (proj2 (cache_after_call sample_pylib ["AAA"; "BBB"]
                         sample_provider sample_cache 1500 "Technology" ""))
           (mkCacheEntry three_peers 1000) Hc Hfresh).
Defined.

(** X24: after a call that fetched (no entry, or one that had reached the
    time to live), every call for the same sector key less than 3600
    seconds later is served from that fetch, with its own exclusion
    applied: the provider and the ticker list of the later call are not
    consulted and the cache is left as it was. *)
Theorem cache_serves_later_call (py : pylib)
    (tickers1 tickers2 : list string)
    (yf_info1 yf_info2 : string -> option (gmap string rawval))
    (cache : gmap string cache_entry) (t1 t2 : R) (sector1 sector2 : string)
    (exclude1 exclude2 : string) :
  stale cache (strip py (lower py sector1)) t1 ->
  strip py (lower py sector2) = strip py (lower py sector1) ->
  t2 - t1 < CACHE_TTL_SECONDS ->
  let cache1 :=
    (get_sector_peers_kpis py tickers1 yf_info1 cache t1 sector1 exclude1).1 in
  get_sector_peers_kpis py tickers2 yf_info2 cache1 t2 sector2 exclude2 =
    (cache1,
     excluding py
       (fetch_sector py tickers1 yf_info1 (strip py (lower py sector1)))
       exclude2).
Proof.
  intros Hstale Hkey Hfresh cache1. subst cache1.
  rewrite (get_sector_peers_kpis_stale py tickers1 yf_info1 cache t1 sector1
             exclude1 Hstale). simpl.
  rewrite (get_sector_peers_kpis_fresh py tickers2 yf_info2 _ t2 sector2
             exclude2
             (mkCacheEntry
                (fetch_sector py tickers1 yf_info1 (strip py (lower py sector1)))
                t1)).
  - reflexivity.
  - rewrite Hkey. apply lookup_insert_eq.
  - exact Hfresh.
Qed.

Lemma cache_serves_later_call_witness :
  stale (clear_cache sample_cache) "Technology" 1000 /\
  4000 - 1000 < CACHE_TTL_SECONDS /\
  get_sector_peers_kpis sample_pylib [] (fun _ => None)
    (get_sector_peers_kpis sample_pylib ["AAA"] sample_provider
       (clear_cache sample_cache) 1000 "Technology" "").1
    4000 "Technology" "AAA" =
    ((get_sector_peers_kpis sample_pylib ["AAA"] sample_provider
        (clear_cache sample_cache) 1000 "Technology" "").1,
     excluding sample_pylib
       (fetch_sector sample_pylib ["AAA"] sample_provider "Technology")
       "AAA").
Proof.
  assert (Hs : stale (clear_cache sample_cache) "Technology" 1000).
  { unfold stale, clear_cache. rewrite lookup_empty. exact I. }
  assert (Hf : 4000 - 1000 < CACHE_TTL_SECONDS)
    by (unfold CACHE_TTL_SECONDS; lra).
  split; [exact Hs |]. split; [exact Hf |].
  exact (cache_serves_later_call sample_pylib ["AAA"] [] sample_provider
           (fun _ => None) (clear_cache sample_cache) 1000 4000
           "Technology" "Technology" "" "AAA" Hs eq_refl Hf).
Defined.

(** ** What the cache holds *)

Lemma tagged_typed (kpis : list (gmap string pyval)) :
  Forall tagged kpis -> Forall catalog_typed kpis.
Proof.
  intros H. eapply Forall_impl; [exact H |]. intros k [Hk _]. exact Hk.
Qed.

Lemma cache_wf_empty : cache_wf ∅.
Proof. intros k e Hk. rewrite lookup_empty in Hk. discriminate. Qed.

Lemma cache_wf_insert (cache : gmap string cache_entry) (k : string)
    (e : cache_entry) :
  cache_wf cache -> Forall tagged (cached_kpis e) ->
  cache_wf (<[k := e]> cache).
Proof.
  intros Hwf He k' e' Hk'. destruct (decide (k = k')) as [<- | Hne].
  - rewrite lookup_insert_eq in Hk'. injection Hk' as <-. exact He.
  - rewrite lookup_insert_ne in Hk' by exact Hne. apply (Hwf k' e' Hk').
Qed.

Lemma get_sector_peers_kpis_wf (py : pylib) (SP500_TICKERS : list string)
    (yf_info : string -> option (gmap string rawval))
    (cache : gmap string cache_entry) (now : R) (sector : string)
    (exclude_ticker : string) :
  cache_wf cache ->
  exists cache' peers,
    get_sector_peers_kpis py SP500_TICKERS yf_info cache now sector
      exclude_ticker = (cache', Done peers) /\
    cache_wf cache' /\ Forall tagged peers /\
    exists cached,
      cache' !! strip py (lower py sector) = Some cached /\
      now - cached_timestamp cached < CACHE_TTL_SECONDS /\
      excluding py (cached_kpis cached) exclude_ticker = Done peers.
Proof.
  intros Hwf.
  destruct (stale_or_fresh cache (strip py (lower py sector)) now)
    as [Hstale | (cached & Hc & Hfresh)].
  - rewrite (get_sector_peers_kpis_stale py SP500_TICKERS yf_info cache now
               sector exclude_ticker Hstale).
    pose proof (fetch_sector_tagged py yf_info SP500_TICKERS
                  (strip py (lower py sector))) as Hf.
    destruct (excluding_tagged py _ exclude_ticker Hf) as (l & Hl & Hlt & _).
    eexists. exists l. rewrite Hl. split; [reflexivity |].
    split; [apply cache_wf_insert; [exact Hwf | exact Hf] |].
    split; [exact Hlt |].
    eexists. split; [apply lookup_insert_eq |]. simpl.
    split; [unfold CACHE_TTL_SECONDS; lra | exact Hl].
  - rewrite (get_sector_peers_kpis_fresh py SP500_TICKERS yf_info cache now
               sector exclude_ticker cached Hc Hfresh).
    pose proof (Hwf _ _ Hc) as Hf.
    destruct (excluding_tagged py _ exclude_ticker Hf) as (l & Hl & Hlt & _).
    exists cache, l. rewrite Hl. split; [reflexivity |].
    split; [exact Hwf |]. split; [exact Hlt |].
    exists cached. split; [exact Hc |]. split; [exact Hfresh | exact Hl].
Qed.

(** X25: a cache that the data layer has filled holds only records with
    floats or [None] under the catalog keys and a ticker string; the empty
    cache, [clear_cache] and every call of [get_sector_peers_kpis] keep it
    so, and on such a cache the call never raises and returns peers that
    [compute_sector_averages] turns into an aggregate of floats and
    [None]. *)
Theorem cache_well_formed (py : pylib) (SP500_TICKERS : list string)
    (yf_info : string -> option (gmap string rawval))
    (cache : gmap string cache_entry) (now : R) (sector : string)
    (exclude_ticker : string) :
  cache_wf cache ->
  cache_wf ∅ /\ cache_wf (clear_cache cache) /\
  exists cache' peers averages,
    get_sector_peers_kpis py SP500_TICKERS yf_info cache now sector
      exclude_ticker = (cache', Done peers) /\
    cache_wf cache' /\ Forall tagged peers /\
    compute_sector_averages peers = Ok averages /\
    catalog_typed averages.
Proof.
  intros Hwf. split; [exact cache_wf_empty |]. split; [exact cache_wf_empty |].
  destruct (get_sector_peers_kpis_wf py SP500_TICKERS yf_info cache now sector
              exclude_ticker Hwf) as (cache' & peers & Hcall & Hwf' & Ht & _).
  pose proof (tagged_typed peers Ht) as Hty.
  destruct (sector_averages_ok peers Hty) as (averages & Hav).
  exists cache', peers, averages. split; [exact Hcall |].
  split; [exact Hwf' |]. split; [exact Ht |]. split; [exact Hav |].
  apply (sector_averages_typed peers averages Hty Hav).
Qed.

Lemma three_peers_tagged : Forall tagged three_peers.
Proof.
  pose proof three_peers_typed as Hty. unfold three_peers in *.
  inversion Hty as [| ? ? Ha Hty']; subst.
  inversion Hty' as [| ? ? Hb Hty'']; subst.
  inversion Hty'' as [| ? ? Hc _]; subst.
  repeat apply List.Forall_cons; try apply List.Forall_nil;
    (split; [assumption | eexists; reflexivity]).
Qed.

Lemma sample_cache_wf : cache_wf sample_cache.
Proof.
  intros k e Hk. unfold sample_cache in Hk.
  apply lookup_singleton_Some in Hk as [_ <-]. exact three_peers_tagged.
Qed.

Lemma cache_well_formed_witness :
  cache_wf sample_cache /\
  exists cache' peers averages,
    get_sector_peers_kpis sample_pylib ["AAA"] sample_provider sample_cache
      1500 "Technology" "AAA" = (cache', Done peers) /\
    cache_wf cache' /\
    compute_sector_averages peers = Ok averages.
Proof.
  split; [exact sample_cache_wf |].
  destruct (cache_well_formed sample_pylib ["AAA"] sample_provider sample_cache
              1500 "Technology" "AAA" sample_cache_wf)
    as (_ & _ & cache' & peers & averages & Hcall & Hwf & _ & Hav & _).
  exists cache', peers, averages. auto.
Defined.

(** ** The analysis pipeline *)

Lemma collect_ok {X Y : Type} (body : X -> outcome Y) (P : X -> Y -> Prop)
    (l : list X) :
  Forall (fun x => exists y, body x = Done y /\ P x y) l ->
  exists ys, collect body l = Done ys /\ Forall2 P l ys.
Proof.
  induction 1 as [| x l (y & Hy & HP) _ (ys & Hys & HF)].
  - exists []. split; [reflexivity | constructor].
  - exists (y :: ys). simpl. rewrite Hy, bind_done, Hys, bind_done.
    split; [reflexivity | constructor; assumption].
Qed.

Lemma format_kpi_value_typed (py : pylib) (k : string) (value : pyval) :
  float_or_none value -> exists s, format_kpi_value py k value = Done s.
Proof.
  intros Ht. unfold format_kpi_value.
  destruct value as [| v | s]; [eexists; reflexivity | | destruct Ht].
  destruct (find_config k) as [cfg |]; [| eexists; reflexivity].
  destruct (format_as_pct cfg); eexists; reflexivity.
Qed.

Lemma comparison_row_of_typed (py : pylib) (res : rating)
    (stock_kpis sector_averages : gmap string pyval) (cfg : KPIConfig) :
  float_or_none (dict_get stock_kpis (key cfg)) ->
  float_or_none (dict_get sector_averages (key cfg)) ->
  exists row,
    comparison_row_of py res stock_kpis sector_averages cfg = Done row /\
    row_for res stock_kpis sector_averages cfg row.
Proof.
  intros Hs Ha. unfold comparison_row_of, row_for.
  destruct (format_kpi_value_typed py (key cfg) _ Hs) as (s1 & Hs1).
  destruct (format_kpi_value_typed py (key cfg) _ Ha) as (s2 & Hs2).
  rewrite Hs1, Hs2.
  destruct (dict_get stock_kpis (key cfg)) as [| x | ?];
    destruct (dict_get sector_averages (key cfg)) as [| y | ?];
    try destruct Hs; try destruct Ha;
    eexists; (split; [cbn; reflexivity |]); cbn;
    repeat split; try reflexivity; intros; discriminate.
Qed.

Lemma rows_keys (res : rating) (stock_kpis sector_averages : gmap string pyval)
    (l : list KPIConfig) (rows : list comparison_row) :
  Forall2 (row_for res stock_kpis sector_averages) l rows ->
  row_key <$> rows = key <$> l.
Proof.
  induction 1 as [| cfg row l rows Hrow _ IH]; [reflexivity |].
  rewrite !fmap_cons, IH. f_equal. apply Hrow.
Qed.

Lemma py_or_truthy (a b : rawval) : truthy b = true -> truthy (py_or a b) = true.
Proof. intros Hb. unfold py_or. destruct (truthy a) eqn:Ha; assumption. Qed.

(** Unfolds [analyze_stock] up to the call of [calculate_rating]. *)
Ltac run_to_rating Hinfo Hsector Htruthy Hext Hcall Hav :=
  unfold analyze_stock, get_stock_info; rewrite Hinfo;
  case_decide; [contradiction |];
  destruct (raw_get _ "regularMarketPrice"); try contradiction;
  unfold get_stock_sector; rewrite Hsector, Htruthy; cbn [negb];
  rewrite Hext, Hcall; cbn iota beta; f_equal;
  cbn [mbind outcome_bind]; rewrite Hav; cbn [engine mbind outcome_bind].

(** The steps of a run of [analyze_stock] that gets past its checks and
    the extraction. *)
Lemma analyze_stock_run (py : pylib) (SP500_TICKERS : list string)
    (yf_info : string -> option (gmap string rawval))
    (cache : gmap string cache_entry) (now : R) (ticker : string)
    (info : gmap string rawval) (sector : string)
    (stock_kpis : gmap string pyval) :
  cache_wf cache ->
  yf_info (strip py (upper py ticker)) = Some info ->
  usable_info info sector ->
  extract_kpis (parse_float py) info = Ok stock_kpis ->
  exists cache' peers averages cached,
    get_sector_peers_kpis py SP500_TICKERS yf_info cache now sector
      ticker = (cache', Done peers) /\
    cache_wf cache' /\ Forall tagged peers /\
    cache' !! strip py (lower py sector) = Some cached /\
    now - cached_timestamp cached < CACHE_TTL_SECONDS /\
    excluding py (cached_kpis cached) ticker = Done peers /\
    compute_sector_averages peers = Ok averages /\
    catalog_typed averages /\
    (within_exp_range stock_kpis averages ->
     exists res rows,
       calculate_rating stock_kpis averages
         default_absolute_weight default_relative_weight = Ok res /\
       Forall2 (row_for res stock_kpis averages) KPI_CONFIGS rows /\
       analyze_stock py SP500_TICKERS yf_info cache now ticker =
         (cache',
          Done (mkAnalysis (upper py ticker) (get_stock_name info) sector
                  (py_or (get_stock_industry info) (RawStr "N/A"))
                  stock_kpis averages (length peers) res rows))) /\
    (~ within_exp_range stock_kpis averages ->
     analyze_stock py SP500_TICKERS yf_info cache now ticker =
       (cache', Failed (Engine OverflowError))).
Proof.
  intros Hwf Hinfo (Hsize & Hprice & Hsector & Hne) Hext.
  destruct (get_sector_peers_kpis_wf py SP500_TICKERS yf_info cache now sector
              ticker Hwf)
    as (cache' & peers & Hcall & Hwf' & Ht & cached & Hc & Hfresh & Hex).
  pose proof (tagged_typed peers Ht) as Hty.
  destruct (sector_averages_ok peers Hty) as (averages & Hav).
  pose proof (sector_averages_typed peers averages Hty Hav) as Hat.
  pose proof (extract_kpis_typed (parse_float py) info stock_kpis Hext) as Hst.
  apply String.eqb_neq in Hne.
  assert (Htruthy : truthy (RawStr sector) = true)
    by (simpl; rewrite Hne; reflexivity).
  exists cache', peers, averages, cached.
  repeat (split; [assumption |]).
  destruct (calculate_rating_outcome stock_kpis averages
              default_absolute_weight default_relative_weight Hst Hat)
    as [Hok Hover].
  split.
  - intros Hrange. destruct (Hok Hrange) as (res & Hres).
    destruct (collect_ok
                (comparison_row_of py res stock_kpis averages)
                (row_for res stock_kpis averages)
                KPI_CONFIGS) as (rows & Hrows & HF).
    { unfold catalog_typed in Hst, Hat.
      rewrite List.Forall_forall in Hst, Hat. apply List.Forall_forall.
      intros cfg Hin. apply comparison_row_of_typed; [apply Hst | apply Hat];
        exact Hin. }
    exists res, rows. split; [exact Hres |]. split; [exact HF |].
    run_to_rating Hinfo Hsector Htruthy Hext Hcall Hav;
      rewrite Hres; cbn [engine mbind outcome_bind]; rewrite Hrows;
      reflexivity.
  - intros Hrange. specialize (Hover Hrange).
    run_to_rating Hinfo Hsector Htruthy Hext Hcall Hav;
      rewrite Hover; reflexivity.
Qed.

(** The checks of [analyze_stock] and its extraction, for a record with a
    sector that counts as true. *)
Lemma analyze_stock_checked (py : pylib) (SP500_TICKERS : list string)
    (yf_info : string -> option (gmap string rawval))
    (cache : gmap string cache_entry) (now : R) (ticker : string)
    (info : gmap string rawval) :
  yf_info (strip py (upper py ticker)) = Some info ->
  size info <> 0%nat -> raw_get info "regularMarketPrice" <> RawNone ->
  truthy (raw_get info "sector") = true ->
  (~ convertible info ->
   analyze_stock py SP500_TICKERS yf_info cache now ticker
   = (cache, Failed (Engine OverflowError))) /\
  (convertible info -> (forall s, raw_get info "sector" <> RawStr s) ->
   analyze_stock py SP500_TICKERS yf_info cache now ticker
   = (cache, Failed AttributeError)).
Proof.
  intros Hinfo Hsize Hprice Htruthy. split.
  - intros Hc. pose proof (extract_kpis_overflow (parse_float py) info Hc) as He.
    unfold analyze_stock, get_stock_info. rewrite Hinfo.
    case_decide; [contradiction |].
    destruct (raw_get info "regularMarketPrice"); try contradiction;
      unfold get_stock_sector; rewrite Htruthy; cbn [negb];
      rewrite He; reflexivity.
  - intros Hc Hnostr.
    pose proof (extract_kpis_ok (parse_float py) info Hc) as He.
    unfold analyze_stock, get_stock_info. rewrite Hinfo.
    case_decide; [contradiction |].
    destruct (raw_get info "regularMarketPrice"); try contradiction;
      unfold get_stock_sector; rewrite Htruthy; cbn [negb]; rewrite He;
      (destruct (raw_get info "sector") as [| | | | sec |] eqn:Hs;
       try reflexivity; exfalso; apply (Hnostr sec); reflexivity).
Qed.

(** X26: [analyze_stock] rejects a ticker before it looks at any peer, and
    leaves the sector cache untouched when it does: a failing provider call
    is passed on; an empty record, a record without market price or a
    sector that is missing, [None] or empty raises [ValueError]; past these
    checks a record with an integer too large for a float under a catalog
    key raises the [OverflowError] of [extract_kpis]; and a record that can
    be extracted but whose sector is not a string raises
    [AttributeError]. *)
Theorem analyze_stock_rejects (py : pylib) (SP500_TICKERS : list string)
    (yf_info : string -> option (gmap string rawval))
    (cache : gmap string cache_entry) (now : R) (ticker : string) :
  (yf_info (strip py (upper py ticker)) = None ->
   analyze_stock py SP500_TICKERS yf_info cache now ticker
   = (cache, Failed ProviderError)) /\
  (forall info,
     yf_info (strip py (upper py ticker)) = Some info ->
     size info = 0%nat \/ raw_get info "regularMarketPrice" = RawNone \/
     truthy (raw_get info "sector") = false ->
     analyze_stock py SP500_TICKERS yf_info cache now ticker
     = (cache, Failed ValueError)) /\
  (forall info,
     yf_info (strip py (upper py ticker)) = Some info ->
     size info <> 0%nat -> raw_get info "regularMarketPrice" <> RawNone ->
     truthy (raw_get info "sector") = true ->
     ~ convertible info ->
     analyze_stock py SP500_TICKERS yf_info cache now ticker
     = (cache, Failed (Engine OverflowError))) /\
  (forall info,
     yf_info (strip py (upper py ticker)) = Some info ->
     size info <> 0%nat -> raw_get info "regularMarketPrice" <> RawNone ->
     truthy (raw_get info "sector") = true ->
     convertible info ->
     (forall s, raw_get info "sector" <> RawStr s) ->
     analyze_stock py SP500_TICKERS yf_info cache now ticker
     = (cache, Failed AttributeError)).
Proof.
  split; [| split; [| split]].
  - intros Hnone. unfold analyze_stock, get_stock_info. rewrite Hnone.
    reflexivity.
  - intros info Hinfo Hbad. unfold analyze_stock, get_stock_info.
    rewrite Hinfo. case_decide as Hsize; [reflexivity |].
    destruct (raw_get info "regularMarketPrice") eqn:Hp; try reflexivity;
      (destruct Hbad as [Hb | [Hb | Hb]];
       [contradiction | discriminate |];
       unfold get_stock_sector; rewrite Hb; reflexivity).
  - intros info Hinfo Hsize Hprice Htruthy Hc.
    apply (proj1 (analyze_stock_checked py SP500_TICKERS yf_info cache now
                    ticker info Hinfo Hsize Hprice Htruthy) Hc).
  - intros info Hinfo Hsize Hprice Htruthy Hc Hnostr.
    apply (proj2 (analyze_stock_checked py SP500_TICKERS yf_info cache now
                    ticker info Hinfo Hsize Hprice Htruthy) Hc Hnostr).
Qed.

Lemma oversized_provider_info :
  oversize_provider "BIG" = Some oversize_info /\
  size oversize_info <> 0%nat /\
  raw_get oversize_info "regularMarketPrice" <> RawNone /\
  truthy (raw_get oversize_info "sector") = true /\
  ~ convertible oversize_info.
Proof.
  split; [reflexivity |]. split; [vm_compute; discriminate |].
  split; [vm_compute; discriminate |]. split; [reflexivity |].
  unfold convertible, KPI_CONFIGS. intros H.
  apply List.Forall_cons_iff in H as [H _]. apply H.
  change (oversize_info !! key (mkKPIConfig "trailingPE" "P/E Ratio (TTM)"
                                  0.15 true 5.0 60.0 false 2))
    with (Some (RawInt (10 ^ 400))).
  unfold oversized. apply Z.leb_le. vm_compute. reflexivity.
Qed.

Lemma analyze_stock_rejects_witness :
  oversize_provider "BIG" = Some oversize_info /\
  size oversize_info <> 0%nat /\
  raw_get oversize_info "regularMarketPrice" <> RawNone /\
  truthy (raw_get oversize_info "sector") = true /\
  ~ convertible oversize_info /\
  analyze_stock sample_pylib ["AAA"] oversize_provider sample_cache 1500 "BIG"
  = (sample_cache, Failed (Engine OverflowError)).
Proof.
  destruct oversized_provider_info as (Hp & Hs & Hm & Ht & Hc).
  repeat (split; [assumption |]).
  exact (proj1 (proj2 (proj2 (analyze_stock_rejects sample_pylib ["AAA"]
                                oversize_provider sample_cache 1500 "BIG")))
           oversize_info Hp Hs Hm Ht Hc).
Defined.

(** X27: for a usable provider record that can be extracted and a cache
    filled by the data layer, [analyze_stock] gets as far as the rating:
    the peers are fetched or read from the cache and have an aggregate.
    Then it returns unless a deviation of the stock from that aggregate is
    beyond the range of [math.exp], in which case it raises
    [OverflowError] with the cache already updated.  What it returns holds
    the extracted KPIs, the aggregate and the number of peers; the rating
    that [calculate_rating] gives for them, with its figures in [1,10]; a
    comparison table with one row per catalog KPI in catalog order, each
    with the raw stock and sector values, their difference exactly when
    both are present, and the KPI's score entry; and a name and an industry
    that are never empty. *)
Theorem analyze_stock_returns (py : pylib) (SP500_TICKERS : list string)
    (yf_info : string -> option (gmap string rawval))
    (cache : gmap string cache_entry) (now : R) (ticker : string)
    (info : gmap string rawval) (sector : string) :
  cache_wf cache ->
  yf_info (strip py (upper py ticker)) = Some info ->
  usable_info info sector ->
  convertible info ->
  exists cache' peers averages stock_kpis,
    get_sector_peers_kpis py SP500_TICKERS yf_info cache now sector ticker
    = (cache', Done peers) /\
    compute_sector_averages peers = Ok averages /\
    extract_kpis (parse_float py) info = Ok stock_kpis /\
    cache_wf cache' /\
    (within_exp_range stock_kpis averages ->
     exists a,
       analyze_stock py SP500_TICKERS yf_info cache now ticker
       = (cache', Done a) /\
       an_ticker a = upper py ticker /\ an_sector a = sector /\
       truthy (an_company_name a) = true /\ truthy (an_industry a) = true /\
       an_stock_kpis a = stock_kpis /\
       an_sector_averages a = averages /\
       an_sector_peer_count a = length peers /\
       calculate_rating stock_kpis averages
         default_absolute_weight default_relative_weight = Ok (an_rating a) /\
       rating_in_range (an_rating a) /\
       row_key <$> an_kpi_comparison a = get_kpi_keys /\
       Forall2 (row_for (an_rating a) stock_kpis averages)
         KPI_CONFIGS (an_kpi_comparison a)) /\
    (~ within_exp_range stock_kpis averages ->
     analyze_stock py SP500_TICKERS yf_info cache now ticker
     = (cache', Failed (Engine OverflowError))).
Proof.
  intros Hwf Hinfo Huse Hconv.
  pose proof (extract_kpis_ok (parse_float py) info Hconv) as Hext.
  destruct (analyze_stock_run py SP500_TICKERS yf_info cache now ticker info
              sector _ Hwf Hinfo Huse Hext)
    as (cache' & peers & averages & cached & Hcall & Hwf' & _ & _ & _
        & _ & Hav & _ & Hdone & Hfail).
  exists cache', peers, averages. eexists.
  split; [exact Hcall |]. split; [exact Hav |]. split; [exact Hext |].
  split; [exact Hwf' |]. split; [| exact Hfail].
  intros Hrange. destruct (Hdone Hrange) as (res & rows & Hres & Hrows & Hrun).
  eexists. split; [exact Hrun |]. simpl.
  split; [reflexivity |]. split; [reflexivity |].
  split; [unfold get_stock_name; apply py_or_truthy; reflexivity |].
  split; [apply py_or_truthy; reflexivity |].
  split; [reflexivity |]. split; [reflexivity |]. split; [reflexivity |].
  split; [exact Hres |].
  split; [apply (calculate_rating_default_range _ _ _ Hres) |].
  split; [apply (rows_keys _ _ _ _ _ Hrows) | exact Hrows].
Qed.

Lemma priced_info_usable : usable_info priced_info "Technology".
Proof.
  unfold usable_info. split; [vm_compute; discriminate |].
  split; [vm_compute; discriminate |].
  split; [reflexivity | discriminate].
Qed.

Lemma priced_info_convertible : convertible priced_info.
Proof. unfold convertible. over_catalog ltac:(exact (fun H : False => H)). Qed.

(** The one peer of the sample provider is the analysed stock itself. *)
Lemma sample_call_no_peers :
  exists cache',
    get_sector_peers_kpis sample_pylib ["AAA"] sample_provider ∅ 1500
      "Technology" "AAA" = (cache', Done []).
Proof. eexists. reflexivity. Qed.

(** A complete run: the sample stock against a sector without peers. *)
Lemma sample_run :
  exists cache' a,
    analyze_stock sample_pylib ["AAA"] sample_provider ∅ 1500 "AAA"
    = (cache', Done a) /\
    an_sector_averages a = no_kpis /\ an_sector_peer_count a = 0%nat.
Proof.
  destruct (analyze_stock_run sample_pylib ["AAA"] sample_provider ∅ 1500
              "AAA" priced_info "Technology" _ cache_wf_empty eq_refl
              priced_info_usable
              (extract_kpis_ok sample_parser priced_info
                 priced_info_convertible))
    as (cache' & peers & averages & cached & Hcall & _ & _ & _ & _ & _
        & Hav & _ & Hdone & _).
  destruct sample_call_no_peers as (cache0 & Hcall0).
  rewrite Hcall0 in Hcall. injection Hcall as <- <-.
  rewrite (sector_averages_nothing [] (List.Forall_nil _)) in Hav.
  injection Hav as <-.
  destruct Hdone as (res & rows & _ & _ & Hrun).
  { apply no_comparison_in_range. exact no_kpis_no_comparison. }
  eexists. eexists. split; [exact Hrun |]. split; reflexivity.
Qed.

Lemma analyze_stock_returns_witness :
  cache_wf (∅ : gmap string cache_entry) /\
  sample_provider "AAA" = Some priced_info /\
  usable_info priced_info "Technology" /\
  convertible priced_info /\
  exists cache' a,
    analyze_stock sample_pylib ["AAA"] sample_provider ∅ 1500 "AAA"
    = (cache', Done a) /\
    rating_in_range (an_rating a) /\
    row_key <$> an_kpi_comparison a = get_kpi_keys.
Proof.
  split; [exact cache_wf_empty |]. split; [reflexivity |].
  split; [exact priced_info_usable |]. split; [exact priced_info_convertible |].
  destruct (analyze_stock_returns sample_pylib ["AAA"] sample_provider
              ∅ 1500 "AAA" priced_info "Technology" cache_wf_empty eq_refl
              priced_info_usable priced_info_convertible)
    as (cache' & peers & averages & stock_kpis & Hcall & Hav & _ & _
        & Hdone & _).
  destruct sample_call_no_peers as (cache0 & Hcall0).
  rewrite Hcall0 in Hcall. injection Hcall as <- <-.
  rewrite (sector_averages_nothing [] (List.Forall_nil _)) in Hav.
  injection Hav as <-.
  destruct Hdone as (a & Hrun & _ & _ & _ & _ & _ & _ & _ & _ & Hr & Hk & _).
  { apply no_comparison_in_range. exact no_kpis_no_comparison. }
  exists cache0, a. auto.
Defined.

(** X28: when [analyze_stock] returns for a ticker that is not empty, the
    sector averages it returns are the aggregate of the peers the cache
    holds for the sector afterwards, in an entry younger than the time to
    live, without any record whose ticker equals the analysed ticker in
    upper case; and the reported peer count is the number of those peers:
    a stock is never compared against itself. *)
Theorem analyze_stock_peers (py : pylib) (SP500_TICKERS : list string)
    (yf_info : string -> option (gmap string rawval))
    (cache : gmap string cache_entry) (now : R) (ticker : string)
    (info : gmap string rawval) (sector : string)
    (cache' : gmap string cache_entry) (a : analysis) :
  cache_wf cache ->
  yf_info (strip py (upper py ticker)) = Some info ->
  usable_info info sector ->
  ticker <> "" ->
  analyze_stock py SP500_TICKERS yf_info cache now ticker = (cache', Done a) ->
  exists cached,
    cache' !! strip py (lower py sector) = Some cached /\
    now - cached_timestamp cached < CACHE_TTL_SECONDS /\
    compute_sector_averages
      (List.filter (other_than py (upper py ticker)) (cached_kpis cached))
    = Ok (an_sector_averages a) /\
    an_sector_peer_count a
    = length (List.filter (other_than py (upper py ticker))
                (cached_kpis cached)) /\
    (an_sector_peer_count a <= length (cached_kpis cached))%nat.
Proof.
  intros Hwf Hinfo Huse Hne Hreturned.
  assert (Hconv : convertible info).
  { destruct (decide (convertible info)) as [Hc | Hc]; [exact Hc |].
    destruct Huse as (Hsize & Hprice & Hsector & Hsne).
    assert (Htruthy : truthy (raw_get info "sector") = true).
    { rewrite Hsector. simpl. apply String.eqb_neq in Hsne. rewrite Hsne.
      reflexivity. }
    rewrite (proj1 (analyze_stock_checked py SP500_TICKERS yf_info cache now
                      ticker info Hinfo Hsize Hprice Htruthy) Hc) in Hreturned.
    discriminate. }
  pose proof (extract_kpis_ok (parse_float py) info Hconv) as Hext.
  destruct (analyze_stock_run py SP500_TICKERS yf_info cache now ticker info
              sector _ Hwf Hinfo Huse Hext)
    as (cache1 & peers & averages & cached & Hcall & Hwf' & _
        & Hc & Hfresh & Hex & Hav & _ & Hdone & Hfail).
  match type of Hdone with ?P -> _ => destruct (decide P) as [Hr | Hr] end.
  - destruct (Hdone Hr) as (res & rows & _ & _ & Hrun).
    rewrite Hrun in Hreturned. injection Hreturned as <- <-.
    pose proof (Hwf' _ _ Hc) as Htag.
    assert (Hpeers : peers = List.filter (other_than py (upper py ticker))
                               (cached_kpis cached)).
    { unfold excluding in Hex. apply String.eqb_neq in Hne. rewrite Hne in Hex.
      rewrite (without_ticker_tagged py _ _ Htag) in Hex.
      injection Hex as <-. reflexivity. }
    exists cached. simpl.
    split; [exact Hc |]. split; [exact Hfresh |]. rewrite <- Hpeers.
    split; [exact Hav |]. split; [reflexivity |].
    rewrite Hpeers. apply List.filter_length_le.
  - rewrite (Hfail Hr) in Hreturned. discriminate.
Qed.

Lemma analyze_stock_peers_witness :
  cache_wf (∅ : gmap string cache_entry) /\
  sample_provider "AAA" = Some priced_info /\
  usable_info priced_info "Technology" /\
  "AAA" <> "" /\
  exists cache' a cached,
    analyze_stock sample_pylib ["AAA"] sample_provider ∅ 1500 "AAA"
    = (cache', Done a) /\
    cache' !! "Technology" = Some cached /\
    an_sector_peer_count a
    = length (List.filter (other_than sample_pylib "AAA") (cached_kpis cached)).
Proof.
  assert (Hne : "AAA" <> "") by discriminate.
  split; [exact cache_wf_empty |]. split; [reflexivity |].
  split; [exact priced_info_usable |]. split; [exact Hne |].
  destruct sample_run as (cache' & a & Hrun & _).
  destruct (analyze_stock_peers sample_pylib ["AAA"] sample_provider
              ∅ 1500 "AAA" priced_info "Technology" cache' a cache_wf_empty
              eq_refl priced_info_usable Hne Hrun)
    as (cached & Hc & _ & _ & Hcount & _).
  exists cache', a, cached. auto.
Defined.
